(** * ottu_ws: the websocket notification relay (chalicelib/__init__.py, app.py)

    A shallow embedding of the three classes of the relay,

      - [Storage]  the connection registry over a DynamoDB table,
      - [Sender]   the redacting dispatcher over the websocket transport,
      - [Handler]  the router of inbound frames,

    and of the three event handlers of app.py, followed by the properties
    the specification states about them.

    Python values decoded from JSON are trees ([Py.value]).  Effects (the
    table, the transport, the log) are threaded through a state and
    exception monad [M]; a [while] loop takes fuel and running out of it is
    the outcome [Diverge].  The deep copy of [Sender.broadcast] is modelled a
    second time over an object heap with references ([Module Heap]), where
    mutation and aliasing are visible; [heap_broadcast_refines] shows that the
    two models send the same frames and leave the same world.

    The table (boto3's DynamoDB [Table]), the transport (Chalice's
    [websocket_api]), the clock and the JSON decoder are not code of the
    relay: they are the state [World] and the input [Message] below. *)

From Stdlib Require Import List String Ascii ZArith Bool Arith Lia DecimalString.
Import ListNotations.

Local Open Scope string_scope.
Local Open Scope list_scope.

(* ================================================================== *)
(** * Python values and the operations the relay applies to them *)
(* ================================================================== *)

Module Py.

(** A dict's items: keys in insertion order, each key once. *)
Section Items.
Context {A : Type}.

(** The entry of key [k]. *)
Fixpoint lookup (k : string) (d : list (string * A)) : option A :=
  match d with
  | [] => None
  | (k', v) :: d' => if k' =? k then Some v else lookup k d'
  end.

(** The items without key [k]. *)
Fixpoint remove (k : string) (d : list (string * A)) : list (string * A) :=
  match d with
  | [] => []
  | (k', v) :: d' => if k' =? k then remove k d' else (k', v) :: remove k d'
  end.

(** The items with [v] under the key [k] they hold. *)
Fixpoint replace (k : string) (v : A) (d : list (string * A)) : list (string * A) :=
  match d with
  | [] => []
  | (k', x) :: d' => if k' =? k then (k', v) :: d' else (k', x) :: replace k v d'
  end.
End Items.

(** What [json.loads] builds: [None], booleans, integers, strings, lists and
    dicts with string keys (a dict keeps the insertion order of its keys,
    each key once).  Fractional numbers are not represented. *)
#[local] Unset Elimination Schemes.
Inductive value : Type :=
| VNone
| VBool (b : bool)
| VInt (z : Z)
| VStr (s : string)
| VList (l : list value)
| VDict (d : list (string * value)).
#[local] Set Elimination Schemes.

(** The exceptions that occur in the relay. *)
Variant exn : Type :=
| AttributeError
| KeyError
| TypeError
| JSONDecodeError
| ClientError
| WebsocketDisconnectedError.

(** The value of an expression: a result or a raised exception. *)
Variant res (A : Type) : Type :=
| Val (a : A)
| Exc (e : exn).
Arguments Val {A} a.
Arguments Exc {A} e.

(** [bool(v)]: the truth value Python gives [v] in a condition. *)
Definition truthy (v : value) : bool :=
  match v with
  | VNone => false
  | VBool b => b
  | VInt z => negb (z =? 0)%Z
  | VStr s => negb (s =? "")
  | VList l => match l with [] => false | _ :: _ => true end
  | VDict d => match d with [] => false | _ :: _ => true end
  end.

(** [v.get(k, default)]: only a dict has the method. *)
Definition get (v : value) (k : string) (default : value) : res value :=
  match v with
  | VDict d => Val (match lookup k d with Some x => x | None => default end)
  | _ => Exc AttributeError
  end.

(** [v[k]] for a string [k]: a missing key is a [KeyError]; a list or a string
    takes no string index and the other values take no index at all. *)
Definition getitem (v : value) (k : string) : res value :=
  match v with
  | VDict d => match lookup k d with Some x => Val x | None => Exc KeyError end
  | _ => Exc TypeError
  end.

(** [del v[k]], as the value [v] has afterwards. *)
Definition delitem (v : value) (k : string) : res value :=
  match v with
  | VDict d => match lookup k d with
               | Some _ => Val (VDict (remove k d))
               | None => Exc KeyError
               end
  | _ => Exc TypeError
  end.

(** [v == s] for a string literal [s]. *)
Definition eq_str (v : value) (s : string) : bool :=
  match v with
  | VStr s' => s' =? s
  | _ => false
  end.

(** [a == b].  [True] and [False] compare equal to [1] and [0]; lists
    compare element by element; dicts compare as maps, whatever the order of
    their keys. *)
Fixpoint eq (a b : value) {struct a} : bool :=
  match a, b with
  | VNone, VNone => true
  | VBool x, VBool y => Bool.eqb x y
  | VBool x, VInt y => (Z.b2z x =? y)%Z
  | VInt x, VBool y => (x =? Z.b2z y)%Z
  | VInt x, VInt y => (x =? y)%Z
  | VStr x, VStr y => x =? y
  | VList xs, VList ys =>
      (fix go (xs ys : list value) {struct xs} : bool :=
         match xs, ys with
         | [], [] => true
         | x :: xs', y :: ys' => eq x y && go xs' ys'
         | _, _ => false
         end) xs ys
  | VDict xs, VDict ys =>
      (List.length xs =? List.length ys)%nat
      && forallb (fun '(k, x) => match lookup k ys with
                                 | Some y => eq x y
                                 | None => false
                                 end) xs
  | _, _ => false
  end.

(** [sub in s] for two strings. *)
Fixpoint prefix_of (p s : string) : bool :=
  match p, s with
  | EmptyString, _ => true
  | String a p', String b s' => Ascii.eqb a b && prefix_of p' s'
  | String _ _, EmptyString => false
  end.

Fixpoint substring_of (p s : string) : bool :=
  prefix_of p s ||
  match s with
  | EmptyString => false
  | String _ s' => substring_of p s'
  end.

(** [x in c].  A list is searched with [==]; a string answers for a string
    only; a dict is asked for a key, which must be hashable; the other values
    are not containers. *)
Definition contains (x c : value) : res bool :=
  match c with
  | VList l => Val (existsb (eq x) l)
  | VStr s => match x with
              | VStr p => Val (substring_of p s)
              | _ => Exc TypeError
              end
  | VDict d => match x with
               | VStr k => Val (match lookup k d with Some _ => true | None => false end)
               | VList _ | VDict _ => Exc TypeError
               | _ => Val false
               end
  | _ => Exc TypeError
  end.

(** The one-character strings of a string, in order. *)
Fixpoint chars (s : string) : list string :=
  match s with
  | EmptyString => []
  | String a s' => String a EmptyString :: chars s'
  end.

(** What [for x in v] runs over: the elements of a list, the characters of a
    string, the keys of a dict; the other values are not iterable. *)
Definition iter (v : value) : res (list value) :=
  match v with
  | VList l => Val l
  | VStr s => Val (map VStr (chars s))
  | VDict d => Val (map (fun kv => VStr (fst kv)) d)
  | _ => Exc TypeError
  end.

(** ** Formatting: [f"{v}"]

    A string formats as itself, the other scalars as their literals, a list
    or a dict as its [repr].  Strings are taken to be ASCII. *)

Definition hex_digit (n : nat) : ascii :=
  nth n (list_ascii_of_string "0123456789abcdef") "0"%char.

Definition escape_char (quote : ascii) (c : ascii) : string :=
  let n := nat_of_ascii c in
  if Ascii.eqb c "\"%char then "\\"
  else if Ascii.eqb c quote then String "\"%char (String c EmptyString)
  else if (n =? 10)%nat then "\n"
  else if (n =? 13)%nat then "\r"
  else if (n =? 9)%nat then "\t"
  else if ((n <? 32) || (n =? 127))%nat
       then String "\"%char (String "x"%char
              (String (hex_digit (n / 16)) (String (hex_digit (n mod 16)) EmptyString)))
  else String c EmptyString.

Definition has_char (c : ascii) (s : string) : bool :=
  existsb (Ascii.eqb c) (list_ascii_of_string s).

Definition apostrophe : ascii := ascii_of_nat 39.
Definition double_quote : ascii := ascii_of_nat 34.

(** [repr(s)]: single quotes, unless the string holds one and no double
    quote. *)
Definition repr_str (s : string) : string :=
  let quote := if has_char apostrophe s && negb (has_char double_quote s)
               then double_quote else apostrophe in
  String quote
    (String.concat "" (map (escape_char quote) (list_ascii_of_string s))
     ++ String quote EmptyString)%string.

Definition str_int (z : Z) : string := NilZero.string_of_int (Z.to_int z).

Fixpoint repr (v : value) : string :=
  match v with
  | VNone => "None"
  | VBool true => "True"
  | VBool false => "False"
  | VInt z => str_int z
  | VStr s => repr_str s
  | VList l => ("[" ++ String.concat ", " (map repr l) ++ "]")%string
  | VDict d =>
      ("{" ++ String.concat ", "
                (map (fun '(k, x) => (repr_str k ++ ": " ++ repr x)%string) d)
           ++ "}")%string
  end.

Definition format (v : value) : string :=
  match v with
  | VStr s => s
  | _ => repr v
  end.

End Py.

Import Py.

(* ================================================================== *)
(** * The world outside the relay and the monad of its effects *)
(* ================================================================== *)

(** A row of the table, as [Storage.set_user_by_connection_id] writes it. *)
Module Item.
Record t : Type := mk
  { PK : string;
    merchant_id : value;
    user_id : value;
    ExpirationTime : Z }.
End Item.

(** An element of the list [Storage.get_connection_ids_by_reference]
    returns: [{"cid": ..., "user_id": ...}]. *)
Module Target.
Record t : Type := mk
  { cid : string;
    user_id : value }.
End Target.

(** The table behind [boto3.resource("dynamodb").Table(...)]: its rows with
    the connection id as primary key, how many rows one [scan] call evaluates
    before it stops and hands out a [LastEvaluatedKey] ([None]: all of them),
    and whether the service answers at all (when it does not, every call
    raises). *)
Record Table : Type :=
  { rows : list Item.t;
    page_limit : option positive;
    online : bool }.

(** What is handed to the transport: [json.dumps(v)], or a string as it is. *)
Variant frame : Type :=
| json_dumps (v : value)
| text (s : string).

Variant level : Type := INFO | ERROR.

(** The state the relay acts on: the table, the connections the transport
    still holds, every call of the transport's [send] so far, the log, and the
    clock [time.time()] reads, in whole seconds. *)
Record World : Type :=
  { table : Table;
    live : list string;
    sends : list (string * frame);
    log : list (level * string);
    clock : Z }.

Definition with_table (t : Table) (w : World) : World :=
  {| table := t; live := live w; sends := sends w; log := log w; clock := clock w |}.

Definition with_sends (s : list (string * frame)) (w : World) : World :=
  {| table := table w; live := live w; sends := s; log := log w; clock := clock w |}.

Definition with_log (l : list (level * string)) (w : World) : World :=
  {| table := table w; live := live w; sends := sends w; log := l; clock := clock w |}.

Definition with_rows (r : list Item.t) (t : Table) : Table :=
  {| rows := r; page_limit := page_limit t; online := online t |}.

(** The outcome of a call: it returns, raises, or never returns. *)
Variant outcome (A : Type) : Type :=
| Return (a : A)
| Raise (e : exn)
| Diverge.
Arguments Return {A} a.
Arguments Raise {A} e.
Arguments Diverge {A}.

(** A computation over a state [S]: from a state to an outcome and the state
    it leaves. *)
Definition ST (S A : Type) : Type := S -> outcome A * S.

(** The computations of the relay act on the world. *)
Definition M : Type -> Type := ST World.

Definition ret {S A} (a : A) : ST S A := fun s => (Return a, s).
Definition raise {S A} (e : exn) : ST S A := fun s => (Raise e, s).
Definition diverge {S A} : ST S A := fun s => (Diverge, s).

Definition bind {S A B} (c : ST S A) (k : A -> ST S B) : ST S B :=
  fun s =>
    match c s with
    | (Return a, s') => k a s'
    | (Raise e, s') => (Raise e, s')
    | (Diverge, s') => (Diverge, s')
    end.

(** [try: c  except <handles>: h]. *)
Definition try_except {S A} (c : ST S A) (handles : exn -> bool) (h : exn -> ST S A)
    : ST S A :=
  fun s =>
    match c s with
    | (Raise e, s') => if handles e then h e s' else (Raise e, s')
    | r => r
    end.

(** [except Exception]: every exception of the relay is one. *)
Definition Exception (_ : exn) : bool := true.

Definition lift {S A} (r : res A) : ST S A :=
  match r with
  | Val a => ret a
  | Exc e => raise e
  end.

Declare Scope relay_scope.
Delimit Scope relay_scope with relay.
Notation "x <- c ;; k" := (bind c (fun x => k))
  (at level 61, c at next level, right associativity) : relay_scope.
Notation "' pat <- c ;; k" := (bind c (fun x => match x with pat => k end))
  (at level 61, pat pattern, c at next level, right associativity) : relay_scope.
Notation "c ;; k" := (bind c (fun _ => k))
  (at level 61, right associativity) : relay_scope.
Local Open Scope relay_scope.

(** [logging.info] and [logging.error].  Where the source formats an
    exception, a traceback or a session into the message, the message is
    kept up to that point. *)
Module logging.
Definition info (msg : string) : M unit :=
  fun w => (Return tt, with_log (log w ++ [(INFO, msg)]) w).
Definition error (msg : string) : M unit :=
  fun w => (Return tt, with_log (log w ++ [(ERROR, msg)]) w).
End logging.

(** ** The table's operations: [put_item], [delete_item], [scan] *)

Module Dynamo.

(** Equality of two attribute values: same type and same content (a map
    with its keys in the order of the dict that was written). *)
Fixpoint attr_eqb (a b : value) {struct a} : bool :=
  match a, b with
  | VNone, VNone => true
  | VBool x, VBool y => Bool.eqb x y
  | VInt x, VInt y => (x =? y)%Z
  | VStr x, VStr y => x =? y
  | VList xs, VList ys =>
      (fix go (xs ys : list value) {struct xs} : bool :=
         match xs, ys with
         | [], [] => true
         | x :: xs', y :: ys' => attr_eqb x y && go xs' ys'
         | _, _ => false
         end) xs ys
  | VDict xs, VDict ys =>
      (fix go (xs ys : list (string * value)) {struct xs} : bool :=
         match xs, ys with
         | [], [] => true
         | (k, x) :: xs', (k', y) :: ys' => (k =? k') && attr_eqb x y && go xs' ys'
         | _, _ => false
         end) xs ys
  | _, _ => false
  end.

(** [Key("merchant_id").eq(m)], alone or [& Key("user_id").eq(u)]. *)
Record FilterExpression : Type :=
  { merchant_id_eq : value;
    user_id_eq : option string }.

Definition satisfies (f : FilterExpression) (it : Item.t) : bool :=
  attr_eqb (Item.merchant_id it) (merchant_id_eq f)
  && match user_id_eq f with
     | None => true
     | Some u => attr_eqb (Item.user_id it) (VStr u)
     end.

(** The response of [scan]. *)
Record Response : Type :=
  { Items : list Item.t;
    LastEvaluatedKey : option string }.

(** Write a row over the one with its primary key, or after the last row. *)
Fixpoint put_row (it : Item.t) (rs : list Item.t) : list Item.t :=
  match rs with
  | [] => [it]
  | r :: rs' => if Item.PK r =? Item.PK it then it :: rs' else r :: put_row it rs'
  end.

Definition delete_row (pk : string) (rs : list Item.t) : list Item.t :=
  filter (fun r => negb (Item.PK r =? pk)) rs.

Definition put_item (it : Item.t) : M unit :=
  fun w =>
    if online (table w)
    then (Return tt, with_table (with_rows (put_row it (rows (table w))) (table w)) w)
    else (Raise ClientError, w).

Definition delete_item (pk : string) : M unit :=
  fun w =>
    if online (table w)
    then (Return tt, with_table (with_rows (delete_row pk (rows (table w))) (table w)) w)
    else (Raise ClientError, w).

(** The rows one call evaluates: the first page, since the relay never passes
    an [ExclusiveStartKey]. *)
Definition evaluated (t : Table) : list Item.t :=
  match page_limit t with
  | None => rows t
  | Some n => firstn (Pos.to_nat n) (rows t)
  end.

Definition scan (f : FilterExpression) : M Response :=
  fun w =>
    if online (table w)
    then
      let page := evaluated (table w) in
      (Return {| Items := filter (satisfies f) page;
                 LastEvaluatedKey :=
                   if (List.length page <? List.length (rows (table w)))%nat
                   then option_map Item.PK (last (map Some page) None)
                   else None |}, w)
    else (Raise ClientError, w).

End Dynamo.

(** ** The transport: [app.websocket_api.send] *)

Definition websocket_api_send (connection_id : string) (message : frame) : M unit :=
  fun w =>
    let w' := with_sends (sends w ++ [(connection_id, message)]) w in
    if existsb (String.eqb connection_id) (live w)
    then (Return tt, w')
    else (Raise WebsocketDisconnectedError, w').

(** [int(time.time())]. *)
Definition time_time : M Z := fun w => (Return (clock w), w).

(* ================================================================== *)
(** * class Storage *)
(* ================================================================== *)

Module Storage.
Import Dynamo.

Definition create_connection (connection_id : string) : M unit :=
  logging.info ("create_connection connection_id: " ++ connection_id)%string.

Definition set_user_by_connection_id
    (connection_id : string) (merchant_id user_id : value) (ts : Z) : M string :=
  try_except
    (Dynamo.put_item
       {| Item.PK := connection_id;
          Item.merchant_id := merchant_id;
          Item.user_id := user_id;
          Item.ExpirationTime := ts |})
    Exception
    (fun e => logging.error "message_handle frontend ERROR: ") ;;
  ret connection_id.

(** [while not done:] with the body both branches share.  Neither branch
    passes the [LastEvaluatedKey] back to [scan]. *)
Fixpoint while_not_done (fuel : nat) (scan_kwargs : FilterExpression)
    (done : bool) (data : list Item.t) : M (bool * list Item.t) :=
  if done then ret (done, data)
  else
    match fuel with
    | O => diverge
    | S fuel' =>
        response <- Dynamo.scan scan_kwargs ;;
        let data := data ++ Items response in
        let start_key := LastEvaluatedKey response in
        let done := match start_key with None => true | Some _ => false end in
        while_not_done fuel' scan_kwargs done data
    end.

(** [for user_id in user_ids:]; [done] and [data] are the variables set
    before the [if], not reset by the loop. *)
Fixpoint for_user_id (fuel : nat) (merchant_id : value) (user_ids : list value)
    (done : bool) (data : list Item.t) : M (bool * list Item.t) :=
  match user_ids with
  | [] => ret (done, data)
  | user_id :: rest =>
      let scan_kwargs :=
        {| merchant_id_eq := merchant_id; user_id_eq := Some (Py.format user_id) |} in
      '(done, data) <- while_not_done fuel scan_kwargs done data ;;
      for_user_id fuel merchant_id rest done data
  end.

Definition get_connection_ids_by_reference
    (fuel : nat) (merchant_id user_ids : value) : M (list Target.t) :=
  let done := false in
  let data := [] in
  '(_, data) <-
    (if Py.eq_str user_ids "__all__"
     then
       let scan_kwargs := {| merchant_id_eq := merchant_id; user_id_eq := None |} in
       while_not_done fuel scan_kwargs done data
     else
       ids <- lift (Py.iter user_ids) ;;
       for_user_id fuel merchant_id ids done data) ;;
  ret (map (fun item => {| Target.cid := Item.PK item;
                           Target.user_id := Item.user_id item |}) data).

Definition delete_connection (connection_id : string) : M string :=
  logging.info ("delete_connection connection_id: " ++ connection_id)%string ;;
  (if negb (connection_id =? "")
   then try_except (Dynamo.delete_item connection_id)
          Exception
          (fun e => logging.error "delete_connection ERROR: ")
   else ret tt) ;;
  ret connection_id.

End Storage.

(* ================================================================== *)
(** * class Sender *)
(* ================================================================== *)

Module Sender.

Definition send (connection_id : string) (data : frame) : M unit :=
  try_except
    (websocket_api_send connection_id data)
    (fun e => match e with WebsocketDisconnectedError => true | _ => false end)
    (fun e => _ <- Storage.delete_connection connection_id ;; ret tt).

(** [del message_data["content"]["message"]], as [message_data] is
    afterwards: the dict under ["content"] loses its key. *)
Definition del_content_message (message_data : value) : Py.res value :=
  match Py.getitem message_data "content" with
  | Val content =>
      match Py.delitem content "message" with
      | Val content' =>
          match message_data with
          | VDict d => Val (VDict (Py.replace "content" content' d))
          | _ => Exc TypeError
          end
      | Exc e => Exc e
      end
  | Exc e => Exc e
  end.

(** The body of the loop of [broadcast], for one element of
    [connection_ids].  On trees a deep copy is the tree itself, and deleting
    from the copy yields another tree; [Heap.broadcast_one] is the same body
    on objects that are copied and changed in place. *)
Definition broadcast_one (cid : Target.t) (data : value) : M unit :=
  let message_data := data in
  audience <- lift (Py.get data "audience" VNone) ;;
  allowed <- lift (Py.get audience "message" VNone) ;;
  permitted <- lift (Py.contains (Target.user_id cid) allowed) ;;
  if permitted
  then send (Target.cid cid) (json_dumps data)
  else
    content <- lift (Py.getitem message_data "content") ;;
    message <- lift (Py.getitem content "message") ;;
    message_data <- (if Py.truthy message
                     then lift (del_content_message message_data)
                     else ret message_data) ;;
    send (Target.cid cid) (json_dumps message_data).

(** [for cid in connection_ids:]. *)
Fixpoint for_cid (connection_ids : list Target.t) (data : value) : M unit :=
  match connection_ids with
  | [] => ret tt
  | cid :: rest => broadcast_one cid data ;; for_cid rest data
  end.

Definition broadcast (connection_ids : list Target.t) (data : value)
    : M (list Target.t) :=
  for_cid connection_ids data ;;
  ret connection_ids.

End Sender.

(* ================================================================== *)
(** * class Handler *)
(* ================================================================== *)

(** An inbound body: its text, and what [json.loads] makes of the text
    ([None]: the text is not JSON and the decoder raises). *)
Record Message : Type :=
  { body : string;
    decoded : option value }.

Definition json_loads (m : Message) : M value :=
  match decoded m with
  | Some data => ret data
  | None => raise JSONDecodeError
  end.

Module Handler.

Definition handle_frontend (connection_id : string) (merchant_id user_id : value)
    : M string :=
  ts <- time_time ;;
  (if Py.truthy merchant_id && Py.truthy user_id
   then _ <- Storage.set_user_by_connection_id connection_id merchant_id user_id ts ;;
        ret tt
   else raise TypeError) ;;
  ret connection_id.

Definition handle_backend (fuel : nat) (merchant_id user_id : value)
    : M (list Target.t) :=
  try_except
    (if Py.truthy merchant_id && Py.truthy user_id
     then
       connection_ids <-
         Storage.get_connection_ids_by_reference fuel merchant_id user_id ;;
       logging.error "connection ids : " ;;
       ret connection_ids
     else raise TypeError)
    Exception
    (fun e => logging.error "message_handle backend ERROR: " ;; ret []).

Definition handle (fuel : nat) (connection_id : string) (message : option Message)
    : M unit :=
  match message with
  | Some m =>
      if negb (body m =? "")
      then
        data <- json_loads m ;;
        ident <- lift (Py.get data "id" VNone) ;;
        client <- lift (Py.get ident "type" VNone) ;;
        audience <- lift (Py.get data "audience" (VDict [])) ;;
        user_id <- lift (Py.get audience "data" (VStr "")) ;;
        ident' <- lift (Py.get data "id" (VDict [])) ;;
        merchant_id <- lift (Py.get ident' "merchant_id" (VStr "")) ;;
        if Py.eq_str client "frontend"
        then
          _ <- handle_frontend connection_id merchant_id user_id ;;
          ret tt
        else if Py.eq_str client "backend"
        then
          connection_ids <- handle_backend fuel merchant_id user_id ;;
          match connection_ids with
          | _ :: _ => _ <- Sender.broadcast connection_ids data ;; ret tt
          | [] => ret tt
          end
        else if Py.eq_str client "ping"
        then Sender.send connection_id (text "pong")
        else logging.error "message_handle client expecting frontend or backend"
      else logging.error "message_handle message body not found"
  | None => logging.error "message_handle message body not found"
  end.

End Handler.

(* ================================================================== *)
(** * app.py: the three event handlers *)
(* ================================================================== *)

Module app.

Record Event : Type :=
  { connection_id : string;
    event_body : option Message }.

Definition connect (event : Event) : M unit :=
  Storage.create_connection (connection_id event).

Definition disconnect (event : Event) : M unit :=
  _ <- Storage.delete_connection (connection_id event) ;; ret tt.

Definition message (fuel : nat) (event : Event) : M unit :=
  Handler.handle fuel (connection_id event) (event_body event).

End app.

(* ================================================================== *)
(** * Sender.broadcast over an object heap *)
(* ================================================================== *)

(** Lists and dicts are objects: a name holds a reference, [copy.deepcopy]
    builds new objects and [del] changes one in place.  This is
    [Sender.broadcast] again with the payload in a heap of such objects, so
    that what a deletion reaches can be stated. *)
Module Heap.

Definition ref : Type := nat.

(** What a name or a slot of a container holds: a scalar (immutable, kept
    by value) or a reference to a list or dict. *)
Variant hvalue : Type :=
| HNone
| HBool (b : bool)
| HInt (z : Z)
| HStr (s : string)
| HRef (r : ref).

Variant object : Type :=
| OList (l : list hvalue)
| ODict (d : list (string * hvalue)).

(** The heap: the object of reference [r] is at position [r]. *)
Definition heap : Type := list object.

Definition read (h : heap) (r : ref) : option object := nth_error h r.

Fixpoint write (r : ref) (o : object) (h : heap) : heap :=
  match h, r with
  | [], _ => []
  | _ :: h', O => o :: h'
  | x :: h', S r' => x :: write r' o h'
  end.

Definition alloc (o : object) (h : heap) : ref * heap :=
  (List.length h, h ++ [o]).

(** Store the elements of a list, and the values of a dict's items, one
    after the other, given how one value is stored. *)
Section Elements.
Variable store : value -> heap -> hvalue * heap.

Fixpoint store_list (l : list value) (h : heap) : list hvalue * heap :=
  match l with
  | [] => ([], h)
  | x :: rest =>
      let '(x', h1) := store x h in
      let '(rest', h2) := store_list rest h1 in
      (x' :: rest', h2)
  end.

Fixpoint store_items (d : list (string * value)) (h : heap)
    : list (string * hvalue) * heap :=
  match d with
  | [] => ([], h)
  | (k, x) :: rest =>
      let '(x', h1) := store x h in
      let '(rest', h2) := store_items rest h1 in
      ((k, x') :: rest', h2)
  end.
End Elements.

(** The objects [json.loads] leaves for a decoded tree: one per list and
    dict, the elements before their container. *)
Fixpoint store (v : value) (h : heap) : hvalue * heap :=
  match v with
  | VNone => (HNone, h)
  | VBool b => (HBool b, h)
  | VInt z => (HInt z, h)
  | VStr s => (HStr s, h)
  | VList l =>
      let '(l', h1) := store_list store l h in
      let '(r, h2) := alloc (OList l') h1 in
      (HRef r, h2)
  | VDict d =>
      let '(d', h1) := store_items store d h in
      let '(r, h2) := alloc (ODict d') h1 in
      (HRef r, h2)
  end.

(** All the results, when each is there. *)
Fixpoint sequence {A} (l : list (option A)) : option (list A) :=
  match l with
  | [] => Some []
  | Some a :: l' => option_map (cons a) (sequence l')
  | None :: _ => None
  end.

(** The tree under [x]: what [json.dumps] walks.  Fuel bounds the depth. *)
Fixpoint load (fuel : nat) (h : heap) (x : hvalue) : option value :=
  match x with
  | HNone => Some VNone
  | HBool b => Some (VBool b)
  | HInt z => Some (VInt z)
  | HStr s => Some (VStr s)
  | HRef r =>
      match fuel with
      | O => None
      | S n =>
          match read h r with
          | Some (OList l) => option_map VList (sequence (map (load n h) l))
          | Some (ODict d) =>
              option_map VDict
                (sequence (map (fun '(k, y) => option_map (pair k) (load n h y)) d))
          | None => None
          end
      end
  end.

(** Copy the elements of a list, one after the other. *)
Fixpoint copy_list (copy : hvalue -> heap -> option (hvalue * heap))
    (l : list hvalue) (h : heap) : option (list hvalue * heap) :=
  match l with
  | [] => Some ([], h)
  | x :: rest =>
      match copy x h with
      | Some (x', h1) =>
          match copy_list copy rest h1 with
          | Some (rest', h2) => Some (x' :: rest', h2)
          | None => None
          end
      | None => None
      end
  end.

(** Copy the values of a dict's items, one after the other. *)
Fixpoint copy_items (copy : hvalue -> heap -> option (hvalue * heap))
    (d : list (string * hvalue)) (h : heap) : option (list (string * hvalue) * heap) :=
  match d with
  | [] => Some ([], h)
  | (k, x) :: rest =>
      match copy x h with
      | Some (x', h1) =>
          match copy_items copy rest h1 with
          | Some (rest', h2) => Some ((k, x') :: rest', h2)
          | None => None
          end
      | None => None
      end
  end.

(** [copy.deepcopy(x)]: a scalar is returned as it is; a list or a dict is
    rebuilt as a new object over copies of its elements.  Decoded JSON
    references no object twice, so the memo of [copy.deepcopy] never
    answers. *)
Fixpoint deepcopy (fuel : nat) (x : hvalue) (h : heap) : option (hvalue * heap) :=
  match x with
  | HRef r =>
      match fuel with
      | O => None
      | S n =>
          match read h r with
          | Some (OList l) =>
              match copy_list (deepcopy n) l h with
              | Some (l', h1) => let '(r', h2) := alloc (OList l') h1 in Some (HRef r', h2)
              | None => None
              end
          | Some (ODict d) =>
              match copy_items (deepcopy n) d h with
              | Some (d', h1) => let '(r', h2) := alloc (ODict d') h1 in Some (HRef r', h2)
              | None => None
              end
          | None => None
          end
      end
  | _ => Some (x, h)
  end.

(** [x[k]], [bool(x)] and [del x[k]] on the heap. *)
Definition getitem (h : heap) (x : hvalue) (k : string) : res hvalue :=
  match x with
  | HRef r =>
      match read h r with
      | Some (ODict d) =>
          match Py.lookup k d with Some y => Val y | None => Exc KeyError end
      | _ => Exc TypeError
      end
  | _ => Exc TypeError
  end.

Definition truthy (h : heap) (x : hvalue) : bool :=
  match x with
  | HNone => false
  | HBool b => b
  | HInt z => negb (z =? 0)%Z
  | HStr s => negb (s =? "")
  | HRef r =>
      match read h r with
      | Some (OList (_ :: _)) | Some (ODict (_ :: _)) => true
      | _ => false
      end
  end.

Definition delitem (h : heap) (x : hvalue) (k : string) : res heap :=
  match x with
  | HRef r =>
      match read h r with
      | Some (ODict d) =>
          match Py.lookup k d with
          | Some _ => Val (write r (ODict (Py.remove k d)) h)
          | None => Exc KeyError
          end
      | _ => Exc TypeError
      end
  | _ => Exc TypeError
  end.

(** Computations over the heap and the world. *)
Definition HM : Type -> Type := ST (heap * World).

Definition in_world {A} (c : M A) : HM A :=
  fun s => let '(r, w') := c (snd s) in (r, (fst s, w')).

Definition on_heap {A} (f : heap -> res A) : HM A :=
  fun s => lift (f (fst s)) s.

Definition copy_deepcopy (fuel : nat) (x : hvalue) : HM hvalue :=
  fun s =>
    match deepcopy fuel x (fst s) with
    | Some (x', h') => (Return x', (h', snd s))
    | None => (Diverge, s)
    end.

Definition tree (fuel : nat) (x : hvalue) : HM value :=
  fun s =>
    match load fuel (fst s) x with
    | Some v => (Return v, s)
    | None => (Diverge, s)
    end.

Definition del (x : hvalue) (k : string) : HM unit :=
  fun s =>
    match delitem (fst s) x k with
    | Val h' => (Return tt, (h', snd s))
    | Exc e => (Raise e, s)
    end.

(** The body of the loop.  [data] is read through its tree: the allow-list
    lookup and [json.dumps(data)] change nothing. *)
Definition broadcast_one (fuel : nat) (cid : Target.t) (data : hvalue) : HM unit :=
  message_data <- copy_deepcopy fuel data ;;
  payload <- tree fuel data ;;
  audience <- lift (Py.get payload "audience" VNone) ;;
  allowed <- lift (Py.get audience "message" VNone) ;;
  permitted <- lift (Py.contains (Target.user_id cid) allowed) ;;
  if permitted
  then in_world (Sender.send (Target.cid cid) (json_dumps payload))
  else
    content <- on_heap (fun h => getitem h message_data "content") ;;
    message <- on_heap (fun h => getitem h content "message") ;;
    truth <- on_heap (fun h => Val (truthy h message)) ;;
    (if truth : bool then del content "message" else ret tt) ;;
    reduced <- tree fuel message_data ;;
    in_world (Sender.send (Target.cid cid) (json_dumps reduced)).

Fixpoint for_cid (fuel : nat) (connection_ids : list Target.t) (data : hvalue)
    : HM unit :=
  match connection_ids with
  | [] => ret tt
  | cid :: rest => broadcast_one fuel cid data ;; for_cid fuel rest data
  end.

Definition broadcast (fuel : nat) (connection_ids : list Target.t) (data : hvalue)
    : HM (list Target.t) :=
  for_cid fuel connection_ids data ;;
  ret connection_ids.

End Heap.

(* ================================================================== *)
(** * Concrete data: the inputs of tests/test_app.py and a few more *)
(* ================================================================== *)

Module Scenario.

Definition merchant : value := VStr "staging.ottu.dev".

(** A table that answers, without rows, every scan in one page. *)
Definition empty_table : Table :=
  {| rows := []; page_limit := None; online := true |}.

Definition row (pk user : string) : Item.t :=
  {| Item.PK := pk; Item.merchant_id := merchant; Item.user_id := VStr user;
     Item.ExpirationTime := 1092387456 |}.

Definition world (rs : list Item.t) (connected : list string) : World :=
  {| table := with_rows rs empty_table; live := connected; sends := [];
     log := []; clock := 1092387456 |}.

(** Nothing registered, nobody connected. *)
Definition w0 : World := world [] [].

(** Two frontends of the merchant registered and connected: users 72 and 99. *)
Definition two_rows : list Item.t := [row "1092" "72"; row "2000" "99"].
Definition w2 : World := world two_rows ["1092"; "2000"].

(** The same two registrations on a table that evaluates one row per call. *)
Definition w2_paged : World :=
  {| table := {| rows := two_rows; page_limit := Some 1%positive; online := true |};
     live := ["1092"; "2000"]; sends := []; log := []; clock := 1092387456 |}.

Definition backend_identity : value :=
  VDict [("merchant_id", merchant); ("client", VStr "core_backend");
         ("type", VStr "backend")].

Definition backend_audience (selector : value) : value :=
  VDict [("data", selector); ("message", VList [VStr "72"])].

Definition backend_items (selector : value) (content : list (string * value))
    : list (string * value) :=
  [("id", backend_identity);
   ("audience", backend_audience selector);
   ("content", VDict content);
   ("timestamp", VStr "2022-10-11 15:25:39:003823")].

(** A broadcast request for the merchant, readable by user 72. *)
Definition backend_payload (selector : value) (content : list (string * value)) : value :=
  VDict (backend_items selector content).

Definition frontend_payload (m user : value) : value :=
  VDict
    [("id", VDict [("merchant_id", m); ("type", VStr "frontend")]);
     ("audience", VDict [("data", user)])].

(** The JSON text of a tree whose strings need no escape: what the client
    puts on the wire for it. *)
Fixpoint json_text (v : value) : string :=
  let quoted (s : string) : string :=
    String Py.double_quote (s ++ String Py.double_quote EmptyString)%string in
  match v with
  | VNone => "null"
  | VBool true => "true"
  | VBool false => "false"
  | VInt z => Py.str_int z
  | VStr s => quoted s
  | VList l => ("[" ++ String.concat ", " (map json_text l) ++ "]")%string
  | VDict d =>
      ("{" ++ String.concat ", "
                (map (fun '(k, x) => (quoted k ++ ": " ++ json_text x)%string) d)
           ++ "}")%string
  end.

(** An inbound body: the text of [v], which decodes to [v]. *)
Definition inbound (v : value) : option Message :=
  Some {| body := json_text v; decoded := Some v |}.

(** A body that is not JSON. *)
Definition garbled : option Message :=
  Some {| body := "not json"; decoded := None |}.

Definition user72 : Target.t := {| Target.cid := "1092"; Target.user_id := VStr "72" |}.
Definition user99 : Target.t := {| Target.cid := "2000"; Target.user_id := VStr "99" |}.

End Scenario.

(* ================================================================== *)
(** * Notions the properties are stated with *)
(* ================================================================== *)

(** What the body of the loop of [Sender.broadcast] hands to [send] for one
    target, or the exception it raises before any send. *)
Definition frame_for (cid : Target.t) (data : value) : Py.res frame :=
  match Py.get data "audience" VNone with
  | Exc e => Exc e
  | Val audience =>
      match Py.get audience "message" VNone with
      | Exc e => Exc e
      | Val allowed =>
          match Py.contains (Target.user_id cid) allowed with
          | Exc e => Exc e
          | Val true => Val (json_dumps data)
          | Val false =>
              match Py.getitem data "content" with
              | Exc e => Exc e
              | Val content =>
                  match Py.getitem content "message" with
                  | Exc e => Exc e
                  | Val message =>
                      if Py.truthy message
                      then match Sender.del_content_message data with
                           | Val reduced => Val (json_dumps reduced)
                           | Exc e => Exc e
                           end
                      else Val (json_dumps data)
                  end
              end
          end
      end
  end.

(** The connection is not one the transport still holds. *)
Definition gone (connection_id : string) (w : World) : Prop :=
  existsb (String.eqb connection_id) (live w) = false.

(** No object of [h] has changed in [h']. *)
Definition untouched (h h' : Heap.heap) : Prop :=
  forall r, (r < List.length h)%nat -> Heap.read h' r = Heap.read h r.

(** A value, and an object, that reference nothing below [b]. *)
Definition fresh_value (b : nat) (x : Heap.hvalue) : Prop :=
  match x with
  | Heap.HRef r => (b <= r)%nat
  | _ => True
  end.

Definition fresh_object (b : nat) (o : Heap.object) : Prop :=
  match o with
  | Heap.OList l => Forall (fresh_value b) l
  | Heap.ODict d => Forall (fun kv => fresh_value b (snd kv)) d
  end.

(** What a copy adds to the heap, in terms of the copy of one value: objects
    after the objects of the heap, which reference added objects only. *)
Definition copies_afresh
    (copy : Heap.hvalue -> Heap.heap -> option (Heap.hvalue * Heap.heap)) : Prop :=
  forall x h x' h',
    copy x h = Some (x', h') ->
    exists ext, h' = h ++ ext
                /\ Forall (fresh_object (List.length h)) ext
                /\ fresh_value (List.length h) x'.

(** A value, and a heap, whose references are all to objects of the heap. *)
Definition bound_value (b : nat) (x : Heap.hvalue) : Prop :=
  match x with
  | Heap.HRef r => (r < b)%nat
  | _ => True
  end.

Definition bound_object (b : nat) (o : Heap.object) : Prop :=
  match o with
  | Heap.OList l => Forall (bound_value b) l
  | Heap.ODict d => Forall (fun kv => bound_value b (snd kv)) d
  end.

Definition closed (h : Heap.heap) : Prop :=
  Forall (bound_object (List.length h)) h.

(** How deep the containers of a tree nest. *)
Fixpoint depth (v : value) : nat :=
  match v with
  | VList l => S (list_max (map depth l))
  | VDict d => S (list_max (map (fun kv => depth (snd kv)) d))
  | _ => O
  end.

(** The elements of a container lie one after the other below [hi], each in
    a range of references of its own. *)
Section Ranges.
Variable R : value -> Heap.hvalue -> nat -> nat -> Prop.

Fixpoint rep_list (l : list value) (l' : list Heap.hvalue) (lo hi : nat) : Prop :=
  match l, l' with
  | [], [] => (lo <= hi)%nat
  | v :: l, x :: l' => exists mid, R v x lo mid /\ rep_list l l' mid hi
  | _, _ => False
  end.

Fixpoint rep_items (d : list (string * value)) (d' : list (string * Heap.hvalue))
    (lo hi : nat) : Prop :=
  match d, d' with
  | [], [] => (lo <= hi)%nat
  | (k, v) :: d, (k', x) :: d' =>
      k = k' /\ exists mid, R v x lo mid /\ rep_items d d' mid hi
  | _, _ => False
  end.
End Ranges.

(** A relation between trees and ranges whose ranges are well formed at [v],
    and one that carries over to another at [v] within a range. *)
Definition ordered (R : value -> Heap.hvalue -> nat -> nat -> Prop) (v : value) : Prop :=
  forall x a b, R v x a b -> (a <= b)%nat.

Definition carried (R R' : value -> Heap.hvalue -> nat -> nat -> Prop)
    (lo hi : nat) (v : value) : Prop :=
  forall x a b, (lo <= a)%nat -> (b <= hi)%nat -> R v x a b -> R' v x a b.

(** [rep h v x lo hi]: in the heap [h], [x] holds the tree [v], and the
    objects of the tree are at references from [lo] up to, not including,
    [hi], no object twice. *)
Fixpoint rep (h : Heap.heap) (v : value) (x : Heap.hvalue) (lo hi : nat) {struct v}
    : Prop :=
  match v with
  | VNone => x = Heap.HNone /\ (lo <= hi)%nat
  | VBool b => x = Heap.HBool b /\ (lo <= hi)%nat
  | VInt z => x = Heap.HInt z /\ (lo <= hi)%nat
  | VStr s => x = Heap.HStr s /\ (lo <= hi)%nat
  | VList l =>
      exists r l', x = Heap.HRef r /\ (r < hi)%nat
                   /\ Heap.read h r = Some (Heap.OList l')
                   /\ rep_list (rep h) l l' lo r
  | VDict d =>
      exists r d', x = Heap.HRef r /\ (r < hi)%nat
                   /\ Heap.read h r = Some (Heap.ODict d')
                   /\ rep_items (rep h) d d' lo r
  end.

(** The outcome and the world of a computation over the heap and the world. *)
Definition seen {A} (r : outcome A * (Heap.heap * World)) : outcome A * World :=
  (fst r, snd (snd r)).

(** ** Notions for the properties of the whole relay *)

(** A computation whose every run, whatever its outcome, leaves a world
    related by [P] to the world it started in. *)
Definition always (P : World -> World -> Prop) {A} (c : M A) : Prop :=
  forall w, P w (snd (c w)).

(** The primary keys of the table's rows are pairwise different. *)
Definition keyed (t : Table) : Prop := NoDup (map Item.PK (rows t)).

(** What a handler called for the connection [cid] may do to the registry:
    it leaves the transport's connections as they are; a row it writes is a
    row under [cid]; a row it takes away is the row under [cid] or the row
    of a connection the transport no longer holds. *)
Definition confined (cid : string) (w w' : World) : Prop :=
  live w' = live w
  /\ (forall r, In r (rows (table w')) -> In r (rows (table w)) \/ Item.PK r = cid)
  /\ (forall r, In r (rows (table w)) ->
        In r (rows (table w')) \/ Item.PK r = cid \/ gone (Item.PK r) w).

(** The target a row stands for in a resolve. *)
Definition target_of (item : Item.t) : Target.t :=
  {| Target.cid := Item.PK item; Target.user_id := Item.user_id item |}.

(** What a resolve asks the table for: nothing when the selector has no
    element, else one filter, on the merchant alone for "__all__" and on the
    merchant and the text of the selector's first element otherwise; or the
    exception that running over the selector raises. *)
Definition selection (merchant_id user_ids : value) : Py.res (option Dynamo.FilterExpression) :=
  if Py.eq_str user_ids "__all__"
  then Val (Some {| Dynamo.merchant_id_eq := merchant_id; Dynamo.user_id_eq := None |})
  else match Py.iter user_ids with
       | Exc e => Exc e
       | Val [] => Val None
       | Val (u :: _) =>
           Val (Some {| Dynamo.merchant_id_eq := merchant_id;
                       Dynamo.user_id_eq := Some (Py.format u) |})
       end.

(** One call of [scan] does not evaluate all rows of the table. *)
Definition paged (t : Table) : bool :=
  (List.length (Dynamo.evaluated t) <? List.length (rows t))%nat.

(** The shape [handle] needs to read the role and the scope of a frame: a
    dict with a dict under ["id"], and under ["audience"] a dict or
    nothing. *)
Definition framed (data : value) : bool :=
  match data with
  | VDict d =>
      match Py.lookup "id" d with
      | Some (VDict _) =>
          match Py.lookup "audience" d with
          | None | Some (VDict _) => true
          | Some _ => false
          end
      | _ => false
      end
  | _ => false
  end.

(** The target is one the transport no longer holds and the registry can
    delete. *)
Definition reclaimed (connected : list string) (t : Target.t) : bool :=
  negb (Target.cid t =? "") && negb (existsb (String.eqb (Target.cid t)) connected).

(** More concrete data. *)
Module Cases.

(** A registration of another merchant. *)
Definition foreign_row : Item.t :=
  {| Item.PK := "3000"; Item.merchant_id := VStr "ksa.ottu.dev";
     Item.user_id := VStr "72"; Item.ExpirationTime := 1092387456 |}.

(** Users 72 and 99 of the merchant and user 72 of another merchant, all
    three connected. *)
Definition two_merchants : World :=
  Scenario.world [Scenario.row "1092" "72"; foreign_row; Scenario.row "2000" "99"]
    ["1092"; "3000"; "2000"].

(** The two users of the merchant registered, the table out of service. *)
Definition out_of_service : World :=
  {| table := {| rows := Scenario.two_rows; page_limit := None; online := false |};
     live := ["1092"; "2000"]; sends := []; log := []; clock := 1092387456 |}.

(** The two users of the merchant registered, user 99 no longer connected. *)
Definition one_gone : World := Scenario.world Scenario.two_rows ["1092"].

(** User 72 registered twice for the merchant: once under the string and
    once, by a frontend that sent a number, under the integer. *)
Definition numbered_row : Item.t :=
  {| Item.PK := "5000"; Item.merchant_id := Scenario.merchant;
     Item.user_id := VInt 72; Item.ExpirationTime := 1092387456 |}.
Definition numbered : World :=
  Scenario.world [Scenario.row "1092" "72"; numbered_row] ["1092"; "5000"].

(** A ping, and a frame of a role the relay does not know. *)
Definition ping : value := VDict [("id", VDict [("type", VStr "ping")])].
Definition stranger : value := VDict [("id", VDict [("type", VStr "admin")])].

End Cases.

(* ================================================================== *)
(** * Properties *)
(* ================================================================== *)

(** Unfold the monad's plumbing. *)
Ltac run :=
  cbv beta iota delta [bind ret raise diverge lift try_except Exception
                       logging.info logging.error time_time json_loads].

(** ** The registry *)

Import Dynamo.

Section Registry.

Lemma scan_world (f : FilterExpression) (w : World) :
  snd (Dynamo.scan f w) = w.
Proof. unfold Dynamo.scan. destruct (online (table w)); reflexivity. Qed.

(** A [while] loop that returns has set [done], and leaves the world as it
    found it. *)
Lemma while_not_done_returns fuel f done data w d' data' w' :
  Storage.while_not_done fuel f done data w = (Return (d', data'), w') ->
  d' = true /\ w' = w.
Proof.
  revert done data.
  induction fuel as [|fuel IH]; intros done data H; simpl in H.
  - destruct done; inversion H; auto.
  - destruct done; [inversion H; auto|].
    revert H. run. unfold Dynamo.scan.
    destruct (online (table w)); [|discriminate].
    intros H. apply IH in H. exact H.
Qed.

Lemma for_user_id_cons fuel m u ids done data :
  Storage.for_user_id fuel m (u :: ids) done data
  = ('(done, data) <-
       Storage.while_not_done fuel
         {| merchant_id_eq := m; user_id_eq := Some (Py.format u) |} done data ;;
     Storage.for_user_id fuel m ids done data).
Proof. reflexivity. Qed.

(** Once [done] is set, the remaining user ids are passed over. *)
Lemma for_user_id_done fuel m ids data w :
  Storage.for_user_id fuel m ids true data w = (Return (true, data), w).
Proof.
  induction ids as [|u ids IH]; simpl; [reflexivity|].
  run. destruct fuel; simpl; exact IH.
Qed.

Lemma for_user_id_first fuel m u ids data w :
  Storage.for_user_id fuel m (u :: ids) false data w
  = Storage.for_user_id fuel m [u] false data w.
Proof.
  simpl. run.
  destruct (Storage.while_not_done fuel _ false data w) as [[[d' data']|e|] w'] eqn:E;
    try reflexivity.
  apply while_not_done_returns in E as [-> ->].
  rewrite for_user_id_done. reflexivity.
Qed.

(** Only the first user id of an explicit sequence is ever scanned for: the
    [while] loop of the first one leaves [done] set. *)
Lemma get_connection_ids_first_only fuel m u ids w :
  Storage.get_connection_ids_by_reference fuel m (VList (u :: ids)) w
  = Storage.get_connection_ids_by_reference fuel m (VList [u]) w.
Proof.
  unfold Storage.get_connection_ids_by_reference.
  cbn [Py.eq_str Py.iter]. run.
  rewrite for_user_id_first. reflexivity.
Qed.

(** C1 (the code departs from it).  With users 72 and 99 of the merchant
    registered, resolving the sequence ["72"; "99"] returns the registration
    of 72 alone, although resolving ["99"] finds the registration of 99: the
    matches of the second user id are not in the result. *)
Theorem C1_second_user_id_is_dropped :
  Storage.get_connection_ids_by_reference 1 Scenario.merchant
    (VList [VStr "72"; VStr "99"]) Scenario.w2
  = (Return [Scenario.user72], Scenario.w2)
  /\ Storage.get_connection_ids_by_reference 1 Scenario.merchant
       (VList [VStr "99"]) Scenario.w2
     = (Return [Scenario.user99], Scenario.w2).
Proof. split; reflexivity. Qed.

(** A scan that stops before the last row never ends: the call is repeated
    with the same arguments. *)
Lemma while_not_done_paged fuel f data w :
  online (table w) = true ->
  (List.length (evaluated (table w)) < List.length (rows (table w)))%nat ->
  Storage.while_not_done fuel f false data w = (Diverge, w).
Proof.
  intros Hon Hlt.
  assert (Hne : evaluated (table w) <> []).
  { unfold evaluated in *. destruct (page_limit (table w)) as [n|]; [|lia].
    destruct (rows (table w)) as [|r rs]; [simpl in Hlt; rewrite firstn_nil in Hlt; simpl in Hlt; lia|].
    destruct (Pos.to_nat n) as [|k] eqn:E; [lia|]. simpl. discriminate. }
  revert data.
  induction fuel as [|fuel IH]; intros data; simpl; [reflexivity|].
  run. unfold Dynamo.scan. rewrite Hon.
  apply Nat.ltb_lt in Hlt. rewrite Hlt.
  cbn [Items LastEvaluatedKey].
  destruct (evaluated (table w)) as [|r rs] eqn:E; [congruence|].
  assert (Hl : exists it, last (map Some (r :: rs)) None = Some it).
  { clear. revert r. induction rs as [|r' rs IH]; intros r; [eexists; reflexivity|].
    destruct (IH r') as [it Hit]. exists it.
    change (map Some (r :: r' :: rs)) with (Some r :: map Some (r' :: rs)).
    cbn [last]. cbn [map] in *. exact Hit. }
  destruct Hl as [it ->]. cbn [option_map]. apply IH.
Qed.

(** With every row in the first page, one round of the loop returns the
    rows that satisfy the filter. *)
Lemma while_not_done_one_page fuel f data w :
  online (table w) = true ->
  evaluated (table w) = rows (table w) ->
  Storage.while_not_done (S fuel) f false data w
  = (Return (true, data ++ filter (satisfies f) (rows (table w))), w).
Proof.
  intros Hon Hev. simpl. run. unfold Dynamo.scan. rewrite Hon, Hev.
  rewrite Nat.ltb_irrefl. cbn [Items LastEvaluatedKey].
  destruct fuel; reflexivity.
Qed.

(** On a table that answers in one page, an explicit sequence resolves to
    the registrations of the merchant under its first user id, and the
    sentinel to the registrations of the merchant. *)
Lemma get_connection_ids_one_page fuel m u ids w :
  online (table w) = true ->
  evaluated (table w) = rows (table w) ->
  Storage.get_connection_ids_by_reference (S fuel) m (VList (u :: ids)) w
  = (Return (map (fun item => {| Target.cid := Item.PK item;
                                 Target.user_id := Item.user_id item |})
               (filter (satisfies {| merchant_id_eq := m;
                                     user_id_eq := Some (Py.format u) |})
                  (rows (table w)))), w).
Proof.
  intros Hon Hev. rewrite get_connection_ids_first_only.
  unfold Storage.get_connection_ids_by_reference.
  cbn [Py.eq_str Py.iter]. run. rewrite for_user_id_cons. run.
  rewrite while_not_done_one_page by assumption. reflexivity.
Qed.

Lemma get_connection_ids_all_users fuel m w :
  online (table w) = true ->
  evaluated (table w) = rows (table w) ->
  Storage.get_connection_ids_by_reference (S fuel) m (VStr "__all__") w
  = (Return (map (fun item => {| Target.cid := Item.PK item;
                                 Target.user_id := Item.user_id item |})
               (filter (satisfies {| merchant_id_eq := m; user_id_eq := None |})
                  (rows (table w)))), w).
Proof.
  intros Hon Hev. unfold Storage.get_connection_ids_by_reference.
  cbn [Py.eq_str String.eqb Ascii.eqb Bool.eqb]. run.
  rewrite while_not_done_one_page by assumption. reflexivity.
Qed.

(** On a table that hands out its rows in pages, the resolve never returns,
    whatever the fuel. *)
Lemma get_connection_ids_paged_never_returns fuel :
  Storage.get_connection_ids_by_reference fuel Scenario.merchant (VStr "__all__")
    Scenario.w2_paged
  = (Diverge, Scenario.w2_paged).
Proof.
  unfold Storage.get_connection_ids_by_reference.
  cbn [Py.eq_str String.eqb Ascii.eqb Bool.eqb]. run.
  rewrite while_not_done_paged; [reflexivity|reflexivity|].
  simpl. lia.
Qed.

(** ** Register, resolve, delete *)

Lemma filter_put_row (f : Item.t -> bool) it rs :
  f it = true ->
  (forall r, In r rs -> f r = false) ->
  filter f (put_row it rs) = [it].
Proof.
  intros Hit. induction rs as [|r rs IH]; intros Hrs; simpl.
  - rewrite Hit. reflexivity.
  - assert (Hnone : filter f rs = []).
    { clear IH. induction rs as [|r' rs IH']; [reflexivity|]. simpl.
      rewrite (Hrs r') by (right; left; reflexivity).
      apply IH'. intros x [Hx|Hx]; apply Hrs; [left|right; right]; assumption. }
    destruct (Item.PK r =? Item.PK it); simpl.
    + rewrite Hit, Hnone. reflexivity.
    + rewrite (Hrs r) by (left; reflexivity).
      apply IH. intros x Hx. apply Hrs. right. exact Hx.
Qed.

Lemma filter_delete_put_row (f : Item.t -> bool) it rs :
  (forall r, In r rs -> f r = false) ->
  filter f (delete_row (Item.PK it) (put_row it rs)) = [].
Proof.
  unfold delete_row. induction rs as [|r rs IH]; intros Hrs; simpl.
  - rewrite String.eqb_refl. reflexivity.
  - destruct (Item.PK r =? Item.PK it) eqn:E; simpl.
    + rewrite String.eqb_refl. simpl.
      clear IH E. induction rs as [|r' rs IH']; [reflexivity|]. simpl.
      assert (Hr' : f r' = false) by (apply Hrs; right; left; reflexivity).
      destruct (negb (Item.PK r' =? Item.PK it)); simpl; [rewrite Hr'|];
        apply IH'; intros x [Hx|Hx]; apply Hrs; [left|right; right|left|right; right];
        assumption.
    + rewrite E. simpl. rewrite (Hrs r) by (left; reflexivity).
      apply IH. intros x Hx. apply Hrs. right. exact Hx.
Qed.

(** C9.  On a table that answers in one page and holds no registration of
    user "72" of the merchant: after registering connection "1092" for
    merchant "staging.ottu.dev" and user "72", resolving the merchant with
    the sequence ["72"] returns exactly [{"cid": "1092", "user_id": "72"}];
    after deleting "1092" the same resolve returns the empty list. *)
Theorem C9_register_resolve_delete_round_trip (fuel : nat) (ts : Z) (w : World) :
  online (table w) = true ->
  page_limit (table w) = None ->
  (forall r, In r (rows (table w)) ->
     satisfies {| merchant_id_eq := VStr "staging.ottu.dev"; user_id_eq := Some "72" |} r
     = false) ->
  exists w1 w2,
    Storage.set_user_by_connection_id "1092" (VStr "staging.ottu.dev") (VStr "72") ts w
    = (Return "1092", w1)
    /\ Storage.get_connection_ids_by_reference (S fuel) (VStr "staging.ottu.dev")
         (VList [VStr "72"]) w1
       = (Return [{| Target.cid := "1092"; Target.user_id := VStr "72" |}], w1)
    /\ Storage.delete_connection "1092" w1 = (Return "1092", w2)
    /\ Storage.get_connection_ids_by_reference (S fuel) (VStr "staging.ottu.dev")
         (VList [VStr "72"]) w2
       = (Return [], w2).
Proof.
  intros Hon Hpage Hnone.
  set (it := {| Item.PK := "1092"; Item.merchant_id := VStr "staging.ottu.dev";
                Item.user_id := VStr "72"; Item.ExpirationTime := ts |}).
  set (f := {| merchant_id_eq := VStr "staging.ottu.dev"; user_id_eq := Some "72" |}) in *.
  set (t1 := with_rows (put_row it (rows (table w))) (table w)).
  set (w1 := with_table t1 w).
  set (w1' := with_log (log w1 ++ [(INFO, "delete_connection connection_id: 1092")]) w1).
  set (t2 := with_rows (delete_row "1092" (rows (table w1'))) (table w1')).
  exists w1, (with_table t2 w1').
  assert (Hresolve : forall w' : World,
            online (table w') = true -> page_limit (table w') = None ->
            Storage.get_connection_ids_by_reference (S fuel) (VStr "staging.ottu.dev")
              (VList [VStr "72"]) w'
            = (Return (map (fun item => {| Target.cid := Item.PK item;
                                           Target.user_id := Item.user_id item |})
                         (filter (satisfies f) (rows (table w')))), w')).
  { intros w' Hon' Hpage'.
    unfold Storage.get_connection_ids_by_reference.
    cbn [Py.eq_str Py.iter]. run. rewrite for_user_id_cons. run.
    rewrite while_not_done_one_page; [reflexivity|exact Hon'|].
    unfold evaluated. rewrite Hpage'. reflexivity. }
  repeat split.
  - unfold Storage.set_user_by_connection_id, Dynamo.put_item. run.
    rewrite Hon. reflexivity.
  - rewrite Hresolve by assumption.
    cbn [table with_table rows with_rows w1 t1].
    rewrite filter_put_row; [reflexivity|reflexivity|exact Hnone].
  - unfold Storage.delete_connection, Dynamo.delete_item. run.
    cbn [negb String.eqb Ascii.eqb Bool.eqb].
    change (online (table (with_log _ w1))) with (online (table w)).
    rewrite Hon. reflexivity.
  - rewrite Hresolve by assumption.
    cbn [table with_table rows with_rows w1 w1' t1 t2 with_log].
    change "1092" with (Item.PK it).
    rewrite filter_delete_put_row; [reflexivity|exact Hnone].
Qed.

Lemma C9_round_trip_witness :
  exists w1 w2,
    Storage.set_user_by_connection_id "1092" (VStr "staging.ottu.dev") (VStr "72")
      1092387456 Scenario.w0
    = (Return "1092", w1)
    /\ Storage.get_connection_ids_by_reference 1 (VStr "staging.ottu.dev")
         (VList [VStr "72"]) w1
       = (Return [{| Target.cid := "1092"; Target.user_id := VStr "72" |}], w1)
    /\ Storage.delete_connection "1092" w1 = (Return "1092", w2)
    /\ Storage.get_connection_ids_by_reference 1 (VStr "staging.ottu.dev")
         (VList [VStr "72"]) w2
       = (Return [], w2).
Proof.
  apply (C9_register_resolve_delete_round_trip 0 1092387456 Scenario.w0).
  - reflexivity.
  - reflexivity.
  - simpl. intros r [].
Defined.

(** ** What a resolve returns *)

Lemma attr_eqb_str a s : attr_eqb a (VStr s) = true -> a = VStr s.
Proof.
  destruct a; simpl; try discriminate.
  intros H. apply String.eqb_eq in H. congruence.
Qed.

(** The rows a loop adds satisfy its filter. *)
Lemma while_not_done_items fuel f done data w d' data' w' :
  Storage.while_not_done fuel f done data w = (Return (d', data'), w') ->
  exists extra, data' = data ++ extra
                /\ Forall (fun it => satisfies f it = true) extra.
Proof.
  revert done data.
  induction fuel as [|fuel IH]; intros done data H; simpl in H.
  - destruct done; inversion H; subst. exists []. rewrite app_nil_r. auto.
  - destruct done.
    { inversion H; subst. exists []. rewrite app_nil_r. auto. }
    revert H. run. unfold Dynamo.scan.
    destruct (online (table w)); [|discriminate].
    cbn [Items LastEvaluatedKey]. intros H.
    apply IH in H as (extra & -> & Hextra).
    eexists. rewrite <- app_assoc. split; [reflexivity|].
    apply Forall_app. split; [|exact Hextra].
    apply Forall_forall. intros x Hx. apply filter_In in Hx. apply Hx.
Qed.

Lemma for_user_id_items fuel m ids done data w d' data' w' :
  Storage.for_user_id fuel m ids done data w = (Return (d', data'), w') ->
  exists extra,
    data' = data ++ extra
    /\ Forall (fun it => exists u, In u ids
                 /\ satisfies {| merchant_id_eq := m;
                                 user_id_eq := Some (Py.format u) |} it = true) extra.
Proof.
  revert done data w.
  induction ids as [|u ids IH]; intros done data w H.
  - inversion H; subst. exists []. rewrite app_nil_r. auto.
  - rewrite for_user_id_cons in H. revert H. run.
    destruct (Storage.while_not_done fuel _ done data w) as [[[d1 data1]|e|] w1] eqn:E;
      try discriminate.
    intros H. apply while_not_done_items in E as (e1 & -> & He1).
    apply IH in H as (e2 & -> & He2).
    exists (e1 ++ e2). rewrite app_assoc. split; [reflexivity|].
    apply Forall_app. split.
    + eapply Forall_impl; [|exact He1]. intros it Hit. exists u. split; [left; reflexivity|exact Hit].
    + eapply Forall_impl; [|exact He2]. intros it (u' & Hu' & Hit).
      exists u'. split; [right; exact Hu'|exact Hit].
Qed.

(** Every target an explicit selector resolves to is a registration of the
    merchant whose user id is the text of one element of the selector. *)
Lemma get_connection_ids_sound fuel m sel ids w targets w' :
  Py.eq_str sel "__all__" = false ->
  Py.iter sel = Val ids ->
  Storage.get_connection_ids_by_reference fuel m sel w = (Return targets, w') ->
  Forall (fun t => exists u, In u ids /\ Target.user_id t = VStr (Py.format u)) targets.
Proof.
  intros Hall Hiter. unfold Storage.get_connection_ids_by_reference.
  rewrite Hall, Hiter. run.
  destruct (Storage.for_user_id fuel m ids false [] w) as [[[d1 data1]|e|] w1] eqn:E;
    try discriminate.
  intros H. inversion H; subst. clear H.
  apply for_user_id_items in E as (extra & -> & Hextra). simpl.
  apply Forall_map. eapply Forall_impl; [|exact Hextra].
  intros it (u & Hu & Hit). exists u. split; [exact Hu|]. cbn [Target.user_id].
  unfold satisfies in Hit. cbn [user_id_eq] in Hit.
  apply andb_true_iff in Hit as [_ Hit]. apply attr_eqb_str. exact Hit.
Qed.

Lemma chars_single s c : In c (Py.chars s) -> String.length c = 1%nat.
Proof.
  induction s as [|a s IH]; simpl; [intros []|].
  intros [<-|H]; [reflexivity|auto].
Qed.

End Registry.

(** ** The router *)

Lemma In_put_row it rs : In it (put_row it rs).
Proof.
  induction rs as [|r rs IH]; simpl; [left; reflexivity|].
  destruct (Item.PK r =? Item.PK it); [left; reflexivity|right; exact IH].
Qed.

(** [Handler.handle] on the empty body and on no body at all. *)
Lemma handle_no_body fuel cid w :
  Handler.handle fuel cid None w
  = (Return tt, with_log (log w ++ [(ERROR, "message_handle message body not found")]) w).
Proof. reflexivity. Qed.

Lemma handle_empty_body fuel cid d w :
  Handler.handle fuel cid (Some {| body := ""; decoded := d |}) w
  = (Return tt, with_log (log w ++ [(ERROR, "message_handle message body not found")]) w).
Proof. reflexivity. Qed.

Section Router.
(** A body that decodes to [data], with the fields [handle] extracts. *)
Variables (m : Message) (data ident client audience user_id merchant_id : value).
Hypothesis Hbody : body m <> "".
Hypothesis Hdecoded : decoded m = Some data.
Hypothesis Hid : Py.get data "id" VNone = Val ident.
Hypothesis Htype : Py.get ident "type" VNone = Val client.
Hypothesis Haudience : Py.get data "audience" (VDict []) = Val audience.
Hypothesis Huser : Py.get audience "data" (VStr "") = Val user_id.
Hypothesis Hmerchant : Py.get ident "merchant_id" (VStr "") = Val merchant_id.

(** The identity block is a dict, so the second lookup of ["id"] finds it
    again. *)
Lemma identity_block_again : Py.get data "id" (VDict []) = Val ident.
Proof.
  destruct data as [| | | | |d]; try discriminate.
  simpl in *. destruct (Py.lookup "id" d) as [x|]; [exact Hid|].
  inversion Hid; subst. discriminate.
Qed.

(** After the extraction, [handle] is its dispatch on the role. *)
Lemma handle_dispatch fuel cid w :
  Handler.handle fuel cid (Some m) w
  = (if Py.eq_str client "frontend"
     then _ <- Handler.handle_frontend cid merchant_id user_id ;; ret tt
     else if Py.eq_str client "backend"
     then
       connection_ids <- Handler.handle_backend fuel merchant_id user_id ;;
       match connection_ids with
       | _ :: _ => _ <- Sender.broadcast connection_ids data ;; ret tt
       | [] => ret tt
       end
     else if Py.eq_str client "ping"
     then Sender.send cid (text "pong")
     else logging.error "message_handle client expecting frontend or backend") w.
Proof.
  unfold Handler.handle.
  destruct (body m =? "") eqn:E; [apply String.eqb_eq in E; contradiction|].
  cbn [negb]. unfold json_loads. rewrite Hdecoded.
  unfold bind at 1. unfold ret at 1.
  rewrite Hid. unfold bind at 1. cbn [lift]. unfold ret at 1.
  rewrite Htype. unfold bind at 1. cbn [lift]. unfold ret at 1.
  rewrite Haudience. unfold bind at 1. cbn [lift]. unfold ret at 1.
  rewrite Huser. unfold bind at 1. cbn [lift]. unfold ret at 1.
  rewrite identity_block_again. unfold bind at 1. cbn [lift]. unfold ret at 1.
  rewrite Hmerchant. unfold bind at 1. cbn [lift]. unfold ret at 1.
  reflexivity.
Qed.

Lemma role_is_backend :
  Py.eq_str client "backend" = true -> Py.eq_str client "frontend" = false.
Proof.
  destruct client; simpl; try discriminate.
  intros H. apply String.eqb_eq in H. subst. reflexivity.
Qed.

(** C7.  On a frame of role frontend: when the merchant id or the user id
    is empty, [handle] raises the scope error ([TypeError]) to its caller
    and leaves the world, the table included, as it was; when both are
    non-empty and the table answers, [handle] returns and the registration
    [(connection id, merchant id, user id, time)] is a row of the table. *)
Theorem C7_frontend_scope_is_required fuel cid w :
  Py.eq_str client "frontend" = true ->
  (Py.truthy merchant_id = false \/ Py.truthy user_id = false ->
     Handler.handle fuel cid (Some m) w = (Raise TypeError, w))
  /\ (Py.truthy merchant_id = true -> Py.truthy user_id = true ->
      online (table w) = true ->
      let registration :=
        {| Item.PK := cid; Item.merchant_id := merchant_id;
           Item.user_id := user_id; Item.ExpirationTime := clock w |} in
      Handler.handle fuel cid (Some m) w
      = (Return tt,
         with_table (with_rows (put_row registration (rows (table w))) (table w)) w)
      /\ In registration (put_row registration (rows (table w)))).
Proof.
  intros Hrole. split.
  - intros Hempty. rewrite handle_dispatch, Hrole.
    unfold Handler.handle_frontend. run.
    assert (E : Py.truthy merchant_id && Py.truthy user_id = false)
      by (destruct Hempty as [-> | ->]; [reflexivity|apply andb_false_r]).
    rewrite E. reflexivity.
  - intros Hm Hu Hon registration. split; [|apply In_put_row].
    rewrite handle_dispatch, Hrole.
    unfold Handler.handle_frontend, Storage.set_user_by_connection_id, Dynamo.put_item.
    run. rewrite Hm, Hu. cbn [andb]. rewrite Hon. reflexivity.
Qed.

(** C8.  On a frame of role backend: when the merchant id or the selector
    is empty, the failure is logged, the target list is empty and [handle]
    returns without a send and without an error; when both are non-empty
    and the resolve returns, [handle] calls [broadcast] on the resolved
    targets if there is one, and returns without a send if there is
    none. *)
Theorem C8_backend_scope_failure_is_absorbed fuel cid w :
  Py.eq_str client "backend" = true ->
  (Py.truthy merchant_id = false \/ Py.truthy user_id = false ->
     let logged := with_log (log w ++ [(ERROR, "message_handle backend ERROR: ")]) w in
     Handler.handle_backend fuel merchant_id user_id w = (Return [], logged)
     /\ Handler.handle fuel cid (Some m) w = (Return tt, logged))
  /\ (Py.truthy merchant_id = true -> Py.truthy user_id = true ->
      forall targets w1,
        Storage.get_connection_ids_by_reference fuel merchant_id user_id w
        = (Return targets, w1) ->
        let logged := with_log (log w1 ++ [(ERROR, "connection ids : ")]) w1 in
        Handler.handle fuel cid (Some m) w
        = match targets with
          | [] => (Return tt, logged)
          | _ :: _ => (_ <- Sender.broadcast targets data ;; ret tt) logged
          end).
Proof.
  intros Hrole. pose proof (role_is_backend Hrole) as Hnot. split.
  - intros Hempty logged.
    assert (E : Py.truthy merchant_id && Py.truthy user_id = false)
      by (destruct Hempty as [-> | ->]; [reflexivity|apply andb_false_r]).
    assert (Hb : Handler.handle_backend fuel merchant_id user_id w = (Return [], logged)).
    { unfold Handler.handle_backend. run. rewrite E. reflexivity. }
    split; [exact Hb|].
    rewrite handle_dispatch, Hnot, Hrole. unfold bind at 1. rewrite Hb. reflexivity.
  - intros Hm Hu targets w1 Hres logged.
    rewrite handle_dispatch, Hnot, Hrole. unfold bind at 1.
    unfold Handler.handle_backend. unfold try_except.
    rewrite Hm, Hu. cbn [andb]. unfold bind at 1. rewrite Hres.
    unfold bind at 1. unfold logging.error at 1. unfold ret at 1.
    fold logged. destruct targets; reflexivity.
Qed.

(** A string selector other than "__all__" is resolved as the list of its
    characters. *)
Lemma get_connection_ids_of_string fuel merchant s w :
  s <> "__all__" ->
  Storage.get_connection_ids_by_reference fuel merchant (VStr s) w
  = Storage.get_connection_ids_by_reference fuel merchant (VList (map VStr (Py.chars s))) w.
Proof.
  intros Hall. unfold Storage.get_connection_ids_by_reference.
  cbn [Py.eq_str Py.iter]. apply String.eqb_neq in Hall. rewrite Hall. reflexivity.
Qed.

(** C10.  On a frame of role backend with a non-empty merchant id and a
    selector that is a non-empty string other than "__all__": [handle] does
    what it does on the list of the string's characters.  Every target the
    resolve returns is registered under a user id that is one single
    character of the string, and when the string has two characters or more
    none is registered under the string itself.  On a table that answers in
    one page the resolve returns, [handle] broadcasts to the targets it
    returns if there is one, and every registration of the merchant under
    the first character of the string is among them. *)
Theorem C10_string_selector_is_read_by_character fuel cid w a rest :
  Py.eq_str client "backend" = true ->
  Py.truthy merchant_id = true ->
  user_id = VStr (String a rest) ->
  String a rest <> "__all__" ->
  let s := String a rest in
  let first := String a EmptyString in
  Handler.handle fuel cid (Some m) w
  = (connection_ids <-
       Handler.handle_backend fuel merchant_id (VList (map VStr (Py.chars s))) ;;
     match connection_ids with
     | _ :: _ => _ <- Sender.broadcast connection_ids data ;; ret tt
     | [] => ret tt
     end) w
  /\ (forall targets w1,
        Storage.get_connection_ids_by_reference fuel merchant_id user_id w
        = (Return targets, w1) ->
        Forall (fun t => exists c, In c (Py.chars s)
                                   /\ String.length c = 1%nat
                                   /\ Target.user_id t = VStr c) targets
        /\ (rest <> "" -> Forall (fun t => Target.user_id t <> VStr s) targets))
  /\ (online (table w) = true ->
      evaluated (table w) = rows (table w) ->
      exists targets,
        Storage.get_connection_ids_by_reference (S fuel) merchant_id user_id w
        = (Return targets, w)
        /\ Handler.handle (S fuel) cid (Some m) w
           = match targets with
             | [] => (Return tt, with_log (log w ++ [(ERROR, "connection ids : ")]) w)
             | _ :: _ =>
                 (_ <- Sender.broadcast targets data ;; ret tt)
                   (with_log (log w ++ [(ERROR, "connection ids : ")]) w)
             end
        /\ (forall r,
              In r (rows (table w)) ->
              attr_eqb (Item.merchant_id r) merchant_id = true ->
              Item.user_id r = VStr first ->
              In {| Target.cid := Item.PK r; Target.user_id := VStr first |} targets)).
Proof.
  intros Hrole Hm Hs Hall s first.
  assert (Hall' : Py.eq_str (VStr s) "__all__" = false)
    by (unfold Py.eq_str; apply String.eqb_neq; exact Hall).
  pose proof (role_is_backend Hrole) as Hnot.
  split; [|split].
  - rewrite handle_dispatch, Hnot, Hrole.
    unfold bind at 1 3. rewrite Hs. fold s.
    replace (Handler.handle_backend fuel merchant_id (VStr s) w)
      with (Handler.handle_backend fuel merchant_id (VList (map VStr (Py.chars s))) w);
      [reflexivity|].
    unfold Handler.handle_backend, Storage.get_connection_ids_by_reference.
    rewrite Hall'. unfold s. reflexivity.
  - intros targets w1 Hres. rewrite Hs in Hres. fold s in Hres.
    eapply get_connection_ids_sound in Hres; [|exact Hall'|reflexivity].
    assert (Hchars : Forall (fun t => exists c, In c (Py.chars s)
                                                /\ String.length c = 1%nat
                                                /\ Target.user_id t = VStr c) targets).
    { eapply Forall_impl; [|exact Hres].
      intros t (u & Hu & Ht). apply in_map_iff in Hu as (c & <- & Hc).
      exists c. split; [exact Hc|]. split; [eapply chars_single; exact Hc|exact Ht]. }
    split; [exact Hchars|].
    intros Hrest. eapply Forall_impl; [|exact Hchars].
    intros t (c & _ & Hlen & Ht) Hwhole. rewrite Ht in Hwhole.
    inversion Hwhole as [Hc]. rewrite Hc in Hlen. unfold s in Hlen.
    destruct rest; [contradiction|discriminate].
  - intros Hon Hpage.
    assert (Hres : Storage.get_connection_ids_by_reference (S fuel) merchant_id user_id w
                   = (Return (map (fun item => {| Target.cid := Item.PK item;
                                                  Target.user_id := Item.user_id item |})
                                (filter (satisfies {| merchant_id_eq := merchant_id;
                                                      user_id_eq := Some first |})
                                   (rows (table w)))), w)).
    { rewrite Hs. rewrite (get_connection_ids_of_string (S fuel) merchant_id _ w Hall).
      cbn [Py.chars map].
      exact (get_connection_ids_one_page fuel merchant_id (VStr first)
               (map VStr (Py.chars rest)) w Hon Hpage). }
    eexists. split; [exact Hres|]. split.
    + rewrite handle_dispatch, Hnot, Hrole. unfold bind at 1.
      unfold Handler.handle_backend. unfold try_except.
      rewrite Hm. replace (Py.truthy user_id) with true by (rewrite Hs; reflexivity).
      cbn [andb]. unfold bind at 1. rewrite Hres.
      unfold bind at 1. unfold logging.error at 1. unfold ret at 1.
      destruct (map _ (filter _ (rows (table w)))); reflexivity.
    + intros r Hin Hmerchant_r Huser_r.
      apply in_map_iff. exists r. split; [rewrite Huser_r; reflexivity|].
      apply filter_In. split; [exact Hin|].
      unfold satisfies. cbn [merchant_id_eq user_id_eq].
      rewrite Hmerchant_r, Huser_r. cbn [attr_eqb andb]. apply String.eqb_refl.
Qed.

End Router.

(** C2 (amended).  With no body, or with the empty body, [handle] logs the
    error and returns: nothing is raised, the table and the sends are as
    before.  A non-empty body that the decoder rejects makes [handle] raise
    the decoder's error to its caller, the world unchanged. *)
Theorem C2_missing_body_is_logged_and_garbled_body_raises fuel cid w :
  let logged :=
    with_log (log w ++ [(ERROR, "message_handle message body not found")]) w in
  Handler.handle fuel cid None w = (Return tt, logged)
  /\ (forall d,
        Handler.handle fuel cid (Some {| body := ""; decoded := d |}) w
        = (Return tt, logged))
  /\ table logged = table w
  /\ sends logged = sends w
  /\ (forall c s,
        Handler.handle fuel cid (Some {| body := String c s; decoded := None |}) w
        = (Raise JSONDecodeError, w)).
Proof.
  intros logged. repeat split.
Qed.

(** C2 as stated fails: a body that is not JSON is not tolerated, the
    decoder's error reaches the caller of [handle]. *)
Lemma C2_garbled_body_raises :
  Handler.handle 1 "1092" Scenario.garbled Scenario.w0
  = (Raise JSONDecodeError, Scenario.w0).
Proof. reflexivity. Qed.

(** A JSON body without the identity block is not tolerated either: the
    role is looked up in [None]. *)
Lemma handle_without_identity_block_raises :
  Handler.handle 1 "1092" (Scenario.inbound (VDict [])) Scenario.w0
  = (Raise AttributeError, Scenario.w0).
Proof. reflexivity. Qed.

Lemma C7_frontend_scope_witness :
  Handler.handle 1 "1092"
    (Scenario.inbound (Scenario.frontend_payload Scenario.merchant (VStr "")))
    Scenario.w0
  = (Raise TypeError, Scenario.w0)
  /\ Handler.handle 1 "1092"
       (Scenario.inbound (Scenario.frontend_payload Scenario.merchant (VStr "72")))
       Scenario.w0
     = (Return tt, Scenario.world [Scenario.row "1092" "72"] []).
Proof.
  split.
  - refine (proj1 (C7_frontend_scope_is_required
             {| body := Scenario.json_text
                          (Scenario.frontend_payload Scenario.merchant (VStr ""));
                decoded := Some (Scenario.frontend_payload Scenario.merchant (VStr "")) |}
             (Scenario.frontend_payload Scenario.merchant (VStr ""))
             (VDict [("merchant_id", Scenario.merchant); ("type", VStr "frontend")])
             (VStr "frontend") (VDict [("data", VStr "")]) (VStr "") Scenario.merchant
             _ eq_refl eq_refl eq_refl eq_refl eq_refl eq_refl
             1%nat "1092" Scenario.w0 eq_refl) (or_intror eq_refl)).
    intros H. vm_compute in H. discriminate H.
  - refine (proj1 (proj2 (C7_frontend_scope_is_required
             {| body := Scenario.json_text
                          (Scenario.frontend_payload Scenario.merchant (VStr "72"));
                decoded := Some (Scenario.frontend_payload Scenario.merchant (VStr "72")) |}
             (Scenario.frontend_payload Scenario.merchant (VStr "72"))
             (VDict [("merchant_id", Scenario.merchant); ("type", VStr "frontend")])
             (VStr "frontend") (VDict [("data", VStr "72")]) (VStr "72") Scenario.merchant
             _ eq_refl eq_refl eq_refl eq_refl eq_refl eq_refl
             1%nat "1092" Scenario.w0 eq_refl) eq_refl eq_refl eq_refl)).
    intros H. vm_compute in H. discriminate H.
Defined.

Lemma C8_backend_scope_witness :
  Handler.handle 1 "1092"
    (Scenario.inbound (Scenario.backend_payload (VStr "") [("message", VStr "done")]))
    Scenario.w2
  = (Return tt,
     with_log [(ERROR, "message_handle backend ERROR: ")] Scenario.w2)
  /\ Handler.handle 1 "1092"
       (Scenario.inbound
          (Scenario.backend_payload (VList [VStr "72"]) [("message", VStr "done")]))
       Scenario.w2
     = (_ <- Sender.broadcast [Scenario.user72]
               (Scenario.backend_payload (VList [VStr "72"]) [("message", VStr "done")]) ;;
        ret tt)
         (with_log [(ERROR, "connection ids : ")] Scenario.w2).
Proof.
  split.
  - refine (proj2 (proj1 (C8_backend_scope_failure_is_absorbed
             {| body := Scenario.json_text
                          (Scenario.backend_payload (VStr "") [("message", VStr "done")]);
                decoded :=
                  Some (Scenario.backend_payload (VStr "") [("message", VStr "done")]) |}
             (Scenario.backend_payload (VStr "") [("message", VStr "done")])
             Scenario.backend_identity (VStr "backend")
             (Scenario.backend_audience (VStr "")) (VStr "") Scenario.merchant
             _ eq_refl eq_refl eq_refl eq_refl eq_refl eq_refl
             1%nat "1092" Scenario.w2 eq_refl) (or_intror eq_refl))).
    intros H. vm_compute in H. discriminate H.
  - refine (proj2 (C8_backend_scope_failure_is_absorbed
             {| body := Scenario.json_text
                          (Scenario.backend_payload (VList [VStr "72"])
                             [("message", VStr "done")]);
                decoded :=
                  Some (Scenario.backend_payload (VList [VStr "72"])
                          [("message", VStr "done")]) |}
             (Scenario.backend_payload (VList [VStr "72"]) [("message", VStr "done")])
             Scenario.backend_identity (VStr "backend")
             (Scenario.backend_audience (VList [VStr "72"])) (VList [VStr "72"])
             Scenario.merchant
             _ eq_refl eq_refl eq_refl eq_refl eq_refl eq_refl
             1%nat "1092" Scenario.w2 eq_refl) eq_refl eq_refl
             [Scenario.user72] Scenario.w2 eq_refl).
    intros H. vm_compute in H. discriminate H.
Defined.

(** ** The dispatcher *)

Section Dispatcher.

Lemma delete_connection_returns cid w :
  fst (Storage.delete_connection cid w) = Return cid.
Proof.
  unfold Storage.delete_connection, Dynamo.delete_item. run.
  destruct (negb (cid =? "")); [|reflexivity].
  cbn [table with_log]. destruct (online (table w)); reflexivity.
Qed.

Lemma delete_connection_frame cid w :
  sends (snd (Storage.delete_connection cid w)) = sends w
  /\ live (snd (Storage.delete_connection cid w)) = live w.
Proof.
  unfold Storage.delete_connection, Dynamo.delete_item. run.
  destruct (negb (cid =? "")); [|split; reflexivity].
  cbn [table with_log]. destruct (online (table w)); split; reflexivity.
Qed.

(** [send] to a connection the transport holds. *)
Lemma send_live cid f w :
  existsb (String.eqb cid) (live w) = true ->
  Sender.send cid f w = (Return tt, with_sends (sends w ++ [(cid, f)]) w).
Proof.
  intros H. unfold Sender.send, websocket_api_send, try_except. rewrite H. reflexivity.
Qed.

(** [send] to a connection that is gone: the registry's delete runs on the
    world the attempt left, and its outcome is the outcome of [send]. *)
Lemma send_gone cid f w :
  gone cid w ->
  Sender.send cid f w
  = (Return tt,
     snd (Storage.delete_connection cid (with_sends (sends w ++ [(cid, f)]) w))).
Proof.
  intros H. unfold Sender.send, websocket_api_send, try_except. rewrite H.
  unfold bind.
  pose proof (delete_connection_returns cid (with_sends (sends w ++ [(cid, f)]) w)) as Hr.
  destruct (Storage.delete_connection cid _) as [o w']. simpl in Hr. subst o.
  reflexivity.
Qed.

(** [send] never raises, and is one more call of the transport. *)
Lemma send_returns cid f w :
  exists w', Sender.send cid f w = (Return tt, w')
             /\ sends w' = sends w ++ [(cid, f)]
             /\ live w' = live w.
Proof.
  destruct (existsb (String.eqb cid) (live w)) eqn:E.
  - rewrite send_live by exact E. eexists. repeat split.
  - rewrite send_gone by exact E. eexists. split; [reflexivity|].
    apply (delete_connection_frame cid (with_sends (sends w ++ [(cid, f)]) w)).
Qed.

(** The body of the loop is the computation of the frame, then [send]. *)
Lemma broadcast_one_frame t data w :
  Sender.broadcast_one t data w
  = match frame_for t data with
    | Val f => Sender.send (Target.cid t) f w
    | Exc e => (Raise e, w)
    end.
Proof.
  unfold Sender.broadcast_one, frame_for. run.
  destruct (Py.get data "audience" VNone) as [audience|e]; [|reflexivity].
  destruct (Py.get audience "message" VNone) as [allowed|e]; [|reflexivity].
  destruct (Py.contains (Target.user_id t) allowed) as [[|]|e]; try reflexivity.
  destruct (Py.getitem data "content") as [content|e]; [|reflexivity].
  destruct (Py.getitem content "message") as [message|e]; [|reflexivity].
  destruct (Py.truthy message); [|reflexivity].
  destruct (Sender.del_content_message data); reflexivity.
Qed.

(** When a frame can be made for every target, [broadcast] returns its
    argument after one call of the transport per target, in order, whichever
    of the connections are gone. *)
Lemma broadcast_sends (g : Target.t -> frame) targets data w :
  (forall t, In t targets -> frame_for t data = Val (g t)) ->
  exists w', Sender.broadcast targets data w = (Return targets, w')
             /\ sends w' = sends w ++ map (fun t => (Target.cid t, g t)) targets
             /\ live w' = live w.
Proof.
  intros Hg. unfold Sender.broadcast.
  assert (H : exists w', Sender.for_cid targets data w = (Return tt, w')
                         /\ sends w' = sends w ++ map (fun t => (Target.cid t, g t)) targets
                         /\ live w' = live w).
  { revert w. induction targets as [|t rest IH]; intros w.
    - exists w. simpl. rewrite app_nil_r. repeat split.
    - simpl. unfold bind at 1. rewrite broadcast_one_frame.
      rewrite (Hg t) by (left; reflexivity).
      destruct (send_returns (Target.cid t) (g t) w) as (w1 & -> & Hs & Hl).
      destruct (IH (fun x Hx => Hg x (or_intror Hx)) w1) as (w2 & -> & Hs2 & Hl2).
      exists w2. rewrite Hs2, Hs, Hl2, Hl, <- app_assoc. repeat split. }
  destruct H as (w' & Hw & Hs & Hl). exists w'. unfold bind. rewrite Hw.
  repeat split; assumption.
Qed.

(** *** Deleting one key of the content *)

Lemma lookup_remove_same {A} k (d : list (string * A)) :
  Py.lookup k (Py.remove k d) = None.
Proof.
  induction d as [|[k' x] d IH]; simpl; [reflexivity|].
  destruct (k' =? k) eqn:E; [exact IH|]. simpl. rewrite E. exact IH.
Qed.

Lemma lookup_remove_other {A} k k' (d : list (string * A)) :
  k' <> k -> Py.lookup k' (Py.remove k d) = Py.lookup k' d.
Proof.
  intros Hne. induction d as [|[k0 x] d IH]; simpl; [reflexivity|].
  destruct (k0 =? k) eqn:E.
  - apply String.eqb_eq in E. subst k0.
    destruct (k =? k') eqn:E'; [apply String.eqb_eq in E'; congruence|exact IH].
  - simpl. destruct (k0 =? k'); [reflexivity|exact IH].
Qed.

Lemma lookup_replace_same {A} k (v x : A) (d : list (string * A)) :
  Py.lookup k d = Some x -> Py.lookup k (Py.replace k v d) = Some v.
Proof.
  induction d as [|[k0 y] d IH]; simpl; [discriminate|].
  destruct (k0 =? k) eqn:E; simpl; rewrite E; [reflexivity|exact IH].
Qed.

Lemma lookup_replace_other {A} k k' (v : A) (d : list (string * A)) :
  k' <> k -> Py.lookup k' (Py.replace k v d) = Py.lookup k' d.
Proof.
  intros Hne. induction d as [|[k0 y] d IH]; simpl; [reflexivity|].
  destruct (k0 =? k) eqn:E; simpl.
  - apply String.eqb_eq in E. subst k0.
    destruct (k =? k') eqn:E'; [apply String.eqb_eq in E'; congruence|reflexivity].
  - destruct (k0 =? k'); [reflexivity|exact IH].
Qed.

Lemma keys_replace {A} k (v : A) (d : list (string * A)) :
  map fst (Py.replace k v d) = map fst d.
Proof.
  induction d as [|[k0 y] d IH]; simpl; [reflexivity|].
  destruct (k0 =? k); simpl; [reflexivity|rewrite IH; reflexivity].
Qed.

(** The frame for a target, on a payload whose content holds a message. *)
Lemma frame_for_payload t d audience allowed c msg :
  Py.lookup "audience" d = Some audience ->
  Py.get audience "message" VNone = Val allowed ->
  Py.lookup "content" d = Some (VDict c) ->
  Py.lookup "message" c = Some msg ->
  frame_for t (VDict d)
  = match Py.contains (Target.user_id t) allowed with
    | Exc e => Exc e
    | Val true => Val (json_dumps (VDict d))
    | Val false =>
        if Py.truthy msg
        then Val (json_dumps
                    (VDict (Py.replace "content" (VDict (Py.remove "message" c)) d)))
        else Val (json_dumps (VDict d))
    end.
Proof.
  intros Ha Hal Hc Hm. unfold frame_for, Sender.del_content_message.
  cbn [Py.get Py.getitem Py.delitem]. rewrite Ha, Hal, Hc. cbn [Py.getitem Py.delitem].
  rewrite Hm. reflexivity.
Qed.



(** C4 (amended).  On a payload whose [audience.message] is a list and whose
    content holds a truthy ["message"], [broadcast] returns after one call of
    the transport per target, in order: a target whose user id is in the
    list gets the payload itself; any other target gets the payload with the
    key ["message"] deleted from the content, which holds the same keys in
    the same order, the same value under every key but ["content"], and in
    the content the same value under every key but ["message"]. *)
Theorem C4_allow_list_decides_who_gets_the_message targets d audience allowed c msg w :
  Py.lookup "audience" d = Some audience ->
  Py.get audience "message" VNone = Val (VList allowed) ->
  Py.lookup "content" d = Some (VDict c) ->
  Py.lookup "message" c = Some msg ->
  Py.truthy msg = true ->
  let data := VDict d in
  let content' := Py.remove "message" c in
  let reduced := VDict (Py.replace "content" (VDict content') d) in
  (exists w',
     Sender.broadcast targets data w = (Return targets, w')
     /\ sends w'
        = sends w
          ++ map (fun t => (Target.cid t,
                            json_dumps (if existsb (Py.eq (Target.user_id t)) allowed
                                        then data else reduced))) targets)
  /\ Py.getitem reduced "content" = Val (VDict content')
  /\ Py.lookup "message" content' = None
  /\ (forall k, k <> "message" -> Py.lookup k content' = Py.lookup k c)
  /\ (forall k, k <> "content" ->
        Py.lookup k (Py.replace "content" (VDict content') d) = Py.lookup k d)
  /\ map fst (Py.replace "content" (VDict content') d) = map fst d.
Proof.
  intros Ha Hal Hc Hm Ht data content' reduced.
  repeat split.
  - destruct (broadcast_sends
                (fun t => json_dumps (if existsb (Py.eq (Target.user_id t)) allowed
                                      then data else reduced)) targets data w)
      as (w' & Hw & Hs & _).
    + intros t _. unfold data.
      rewrite (frame_for_payload t d audience (VList allowed) c msg Ha Hal Hc Hm).
      cbn [Py.contains]. rewrite Ht.
      destruct (existsb (Py.eq (Target.user_id t)) allowed); reflexivity.
    + exists w'. split; assumption.
  - unfold reduced. cbn [Py.getitem].
    rewrite (lookup_replace_same "content" _ _ d Hc). reflexivity.
  - apply lookup_remove_same.
  - intros k Hk. apply lookup_remove_other. exact Hk.
  - intros k Hk. apply lookup_replace_other. exact Hk.
  - apply keys_replace.
Qed.

(** C4 as stated fails: with the empty string as message, the target outside
    the allow-list is sent the payload with the key ["message"] still in its
    content. *)
Lemma C4_falsy_message_is_kept :
  Sender.broadcast [Scenario.user72; Scenario.user99]
    (Scenario.backend_payload (VStr "__all__")
       [("alert", VStr "success"); ("message", VStr "")]) Scenario.w2
  = (Return [Scenario.user72; Scenario.user99],
     with_sends
       [("1092", json_dumps (Scenario.backend_payload (VStr "__all__")
                               [("alert", VStr "success"); ("message", VStr "")]));
        ("2000", json_dumps (Scenario.backend_payload (VStr "__all__")
                               [("alert", VStr "success"); ("message", VStr "")]))]
       Scenario.w2).
Proof. reflexivity. Qed.

(** C6.  A [send] to a connection that is gone calls the registry's delete
    for that connection and returns: with a non-empty connection id and a
    table that answers, the row of the connection is no longer there.  In a
    [broadcast], the loop goes on to the remaining targets after such a
    target; and when a frame can be made for every target, [broadcast]
    returns after exactly one call of the transport per target, in order,
    whichever of the connections are gone. *)
Theorem C6_send_to_a_gone_connection_cleans_up cid f w :
  gone cid w ->
  let attempted := with_sends (sends w ++ [(cid, f)]) w in
  Sender.send cid f w = (Return tt, snd (Storage.delete_connection cid attempted))
  /\ (cid <> "" -> online (table w) = true ->
      rows (table (snd (Sender.send cid f w))) = delete_row cid (rows (table w)))
  /\ (forall t rest data,
        Target.cid t = cid -> frame_for t data = Val f ->
        Sender.broadcast (t :: rest) data w
        = (Sender.for_cid rest data ;; ret (t :: rest))
            (snd (Storage.delete_connection cid attempted)))
  /\ (forall targets data,
        (forall t, In t targets -> exists f', frame_for t data = Val f') ->
        exists w', Sender.broadcast targets data w = (Return targets, w')
                   /\ map fst (sends w') = map fst (sends w) ++ map Target.cid targets).
Proof.
  intros Hgone attempted. repeat split.
  - apply send_gone. exact Hgone.
  - intros Hcid Hon. rewrite send_gone by exact Hgone.
    unfold Storage.delete_connection, Dynamo.delete_item. run.
    apply String.eqb_neq in Hcid. rewrite Hcid. cbn [negb table with_log with_sends].
    rewrite Hon. reflexivity.
  - intros t rest data Hcid Hf. unfold Sender.broadcast. cbn [Sender.for_cid].
    unfold bind at 1 2. rewrite broadcast_one_frame, Hf, Hcid.
    rewrite send_gone by exact Hgone. reflexivity.
  - intros targets data Hall.
    set (g := fun t => match frame_for t data with Val f' => f' | Exc _ => f end).
    destruct (broadcast_sends g targets data w) as (w' & Hw & Hs & _).
    + intros t Ht. unfold g. destruct (Hall t Ht) as [f' ->]. reflexivity.
    + exists w'. split; [exact Hw|].
      rewrite Hs, map_app, map_map. reflexivity.
Qed.

End Dispatcher.


Lemma C4_allow_list_witness :
  exists w',
    Sender.broadcast [Scenario.user72; Scenario.user99]
      (Scenario.backend_payload (VStr "__all__")
         [("alert", VStr "success"); ("message", VStr "done")]) Scenario.w2
    = (Return [Scenario.user72; Scenario.user99], w')
    /\ sends w'
       = [("1092",
           json_dumps (Scenario.backend_payload (VStr "__all__")
                         [("alert", VStr "success"); ("message", VStr "done")]));
          ("2000",
           json_dumps (Scenario.backend_payload (VStr "__all__")
                         [("alert", VStr "success")]))].
Proof.
  exact (proj1 (C4_allow_list_decides_who_gets_the_message
                  [Scenario.user72; Scenario.user99]
                  (Scenario.backend_items (VStr "__all__")
                     [("alert", VStr "success"); ("message", VStr "done")])
                  (Scenario.backend_audience (VStr "__all__")) [VStr "72"]
                  [("alert", VStr "success"); ("message", VStr "done")] (VStr "done")
                  Scenario.w2 eq_refl eq_refl eq_refl eq_refl eq_refl)).
Defined.

(** User 99 has gone: the frame for it is attempted, its row is deleted, and
    user 72 after it is still served. *)
Lemma C6_gone_connection_witness :
  Sender.broadcast [Scenario.user99; Scenario.user72]
    (Scenario.backend_payload (VStr "__all__") [("message", VStr "done")])
    (Scenario.world Scenario.two_rows ["1092"])
  = (Sender.for_cid [Scenario.user72]
       (Scenario.backend_payload (VStr "__all__") [("message", VStr "done")]) ;;
     ret [Scenario.user99; Scenario.user72])
      {| table := with_rows [Scenario.row "1092" "72"] Scenario.empty_table;
         live := ["1092"];
         sends := [("2000", json_dumps (Scenario.backend_payload (VStr "__all__") []))];
         log := [(INFO, "delete_connection connection_id: 2000")];
         clock := 1092387456 |}.
Proof.
  exact (proj1 (proj2 (proj2
           (C6_send_to_a_gone_connection_cleans_up "2000"
              (json_dumps (Scenario.backend_payload (VStr "__all__") []))
              (Scenario.world Scenario.two_rows ["1092"]) eq_refl)))
           Scenario.user99 [Scenario.user72]
           (Scenario.backend_payload (VStr "__all__") [("message", VStr "done")])
           eq_refl eq_refl).
Defined.

Lemma C10_string_selector_witness :
  Forall (fun t => exists c, In c ["7"; "2"] /\ String.length c = 1%nat
                             /\ Target.user_id t = VStr c)
    [{| Target.cid := "7"; Target.user_id := VStr "7" |}]
  /\ Forall (fun t => Target.user_id t <> VStr "72")
       [{| Target.cid := "7"; Target.user_id := VStr "7" |}]
  /\ exists targets,
       Storage.get_connection_ids_by_reference 2 Scenario.merchant (VStr "72")
         (Scenario.world [Scenario.row "1092" "72"; Scenario.row "7" "7"] ["7"])
       = (Return targets,
          Scenario.world [Scenario.row "1092" "72"; Scenario.row "7" "7"] ["7"])
       /\ In {| Target.cid := "7"; Target.user_id := VStr "7" |} targets.
Proof.
  destruct (C10_string_selector_is_read_by_character
              {| body := Scenario.json_text
                           (Scenario.backend_payload (VStr "72") [("message", VStr "done")]);
                 decoded :=
                   Some (Scenario.backend_payload (VStr "72") [("message", VStr "done")]) |}
              (Scenario.backend_payload (VStr "72") [("message", VStr "done")])
              Scenario.backend_identity (VStr "backend")
              (Scenario.backend_audience (VStr "72")) (VStr "72") Scenario.merchant
              ltac:(vm_compute; discriminate) eq_refl eq_refl eq_refl eq_refl eq_refl eq_refl
              1%nat "1092"
              (Scenario.world [Scenario.row "1092" "72"; Scenario.row "7" "7"] ["7"])
              "7"%char "2" eq_refl eq_refl eq_refl ltac:(discriminate))
    as (_ & Hsound & Hfound).
  destruct (Hsound [{| Target.cid := "7"; Target.user_id := VStr "7" |}] _ eq_refl)
    as [Hchars Hwhole].
  split; [exact Hchars|]. split; [apply Hwhole; discriminate|].
  destruct (Hfound eq_refl eq_refl) as (targets & Hres & _ & Hfirst).
  exists targets. split; [exact Hres|].
  apply (Hfirst (Scenario.row "7" "7")); [right; left; reflexivity|reflexivity|reflexivity].
Defined.

(** A selector of one character is matched as a whole: the registration
    under the user id "7" is resolved for the selector "7", and [handle]
    sends to it. *)
Lemma C10_one_character_selector_is_the_whole_string :
  Storage.get_connection_ids_by_reference 1 Scenario.merchant (VStr "7")
    (Scenario.world [Scenario.row "1092" "72"; Scenario.row "7" "7"] ["7"])
  = (Return [{| Target.cid := "7"; Target.user_id := VStr "7" |}],
     Scenario.world [Scenario.row "1092" "72"; Scenario.row "7" "7"] ["7"])
  /\ sends (snd (Handler.handle 1 "1092"
                   (Scenario.inbound
                      (Scenario.backend_payload (VStr "7") [("message", VStr "done")]))
                   (Scenario.world [Scenario.row "1092" "72"; Scenario.row "7" "7"] ["7"])))
     = [("7", json_dumps (Scenario.backend_payload (VStr "7") []))].
Proof. split; reflexivity. Qed.

(** ** The deep copy *)

Section DeepCopy.
Import Heap.

Lemma read_app_old (h ext : heap) r :
  (r < List.length h)%nat -> read (h ++ ext) r = read h r.
Proof. intros H. unfold read. apply nth_error_app1. exact H. Qed.

Lemma read_app_new (h ext : heap) r o :
  (List.length h <= r)%nat -> read (h ++ ext) r = Some o -> In o ext.
Proof.
  intros H. unfold read. rewrite nth_error_app2 by exact H.
  apply nth_error_In.
Qed.

Lemma length_write r o (h : heap) : List.length (write r o h) = List.length h.
Proof.
  revert r. induction h as [|x h IH]; intros [|r]; simpl; auto.
Qed.

Lemma read_write_other r o (h : heap) a :
  a <> r -> read (write r o h) a = read h a.
Proof.
  unfold read. revert r a.
  induction h as [|x h IH]; intros [|r] [|a] Hne; simpl; auto; congruence.
Qed.

Lemma untouched_refl h : untouched h h.
Proof. intros r _. reflexivity. Qed.

Lemma untouched_length h h' : untouched h h' -> (List.length h <= List.length h')%nat.
Proof.
  intros H. destruct (le_lt_dec (List.length h) (List.length h')) as [|Hlt]; [assumption|].
  exfalso. destruct h as [|x h]; [simpl in Hlt; lia|].
  assert (Hr : (List.length h' < List.length (x :: h))%nat) by exact Hlt.
  specialize (H _ Hr). unfold read in H.
  assert (E : nth_error h' (List.length h') = None) by (apply nth_error_None; lia).
  rewrite E in H. symmetry in H. apply nth_error_None in H. lia.
Qed.

Lemma untouched_trans h1 h2 h3 :
  untouched h1 h2 -> untouched h2 h3 -> untouched h1 h3.
Proof.
  intros H12 H23 r Hr. rewrite H23, H12; auto.
  pose proof (untouched_length _ _ H12). lia.
Qed.

Lemma untouched_app h ext : untouched h (h ++ ext).
Proof. intros r Hr. apply read_app_old. exact Hr. Qed.

Lemma untouched_write h r o :
  (List.length h <= r)%nat -> forall h', untouched h h' -> untouched h (write r o h').
Proof.
  intros Hr h' H a Ha. rewrite read_write_other by lia. apply H. exact Ha.
Qed.

Lemma fresh_value_le b b' x : (b <= b')%nat -> fresh_value b' x -> fresh_value b x.
Proof. destruct x; simpl; auto. lia. Qed.

Lemma fresh_object_le b b' o : (b <= b')%nat -> fresh_object b' o -> fresh_object b o.
Proof.
  intros Hb. destruct o; simpl; intros H; eapply Forall_impl; try exact H;
    intros a; apply fresh_value_le; exact Hb.
Qed.

Lemma copy_list_afresh copy :
  copies_afresh copy ->
  forall l h l' h',
    copy_list copy l h = Some (l', h') ->
    exists ext, h' = h ++ ext
                /\ Forall (fresh_object (List.length h)) ext
                /\ Forall (fresh_value (List.length h)) l'.
Proof.
  intros Hcopy. induction l as [|x l IH]; intros h l' h' H; simpl in H.
  - inversion H; subst. exists []. rewrite app_nil_r. auto.
  - destruct (copy x h) as [[x' h1]|] eqn:Ex; [|discriminate].
    destruct (copy_list copy l h1) as [[rest' h2]|] eqn:El; [|discriminate].
    inversion H; subst. clear H.
    apply Hcopy in Ex as (e1 & -> & He1 & Hx').
    apply IH in El as (e2 & -> & He2 & Hl').
    assert (Hle : (List.length h <= List.length (h ++ e1))%nat)
      by (rewrite length_app; lia).
    exists (e1 ++ e2). rewrite app_assoc. split; [reflexivity|]. split.
    + apply Forall_app. split; [exact He1|].
      eapply Forall_impl; [|exact He2]. intros o. apply fresh_object_le. exact Hle.
    + constructor; [exact Hx'|].
      eapply Forall_impl; [|exact Hl']. intros o. apply fresh_value_le. exact Hle.
Qed.

Lemma copy_items_afresh copy :
  copies_afresh copy ->
  forall d h d' h',
    copy_items copy d h = Some (d', h') ->
    exists ext, h' = h ++ ext
                /\ Forall (fresh_object (List.length h)) ext
                /\ Forall (fun kv => fresh_value (List.length h) (snd kv)) d'.
Proof.
  intros Hcopy. induction d as [|[k x] d IH]; intros h d' h' H; simpl in H.
  - inversion H; subst. exists []. rewrite app_nil_r. auto.
  - destruct (copy x h) as [[x' h1]|] eqn:Ex; [|discriminate].
    destruct (copy_items copy d h1) as [[rest' h2]|] eqn:El; [|discriminate].
    inversion H; subst. clear H.
    apply Hcopy in Ex as (e1 & -> & He1 & Hx').
    apply IH in El as (e2 & -> & He2 & Hl').
    assert (Hle : (List.length h <= List.length (h ++ e1))%nat)
      by (rewrite length_app; lia).
    exists (e1 ++ e2). rewrite app_assoc. split; [reflexivity|]. split.
    + apply Forall_app. split; [exact He1|].
      eapply Forall_impl; [|exact He2]. intros o. apply fresh_object_le. exact Hle.
    + constructor; [exact Hx'|].
      eapply Forall_impl; [|exact Hl']. intros o. apply fresh_value_le. exact Hle.
Qed.

(** [copy.deepcopy] only adds objects, and the objects it adds reference
    added objects only: a copy shares no list and no dict with what was
    there. *)
Lemma deepcopy_afresh fuel : copies_afresh (deepcopy fuel).
Proof.
  induction fuel as [|n IH]; intros x h x' h' H.
  - destruct x; simpl in H; try discriminate; inversion H; subst;
      exists []; rewrite app_nil_r; simpl; auto.
  - destruct x as [| | | |r];
      try (simpl in H; inversion H; subst; exists []; rewrite app_nil_r; simpl; auto; fail).
    simpl in H. destruct (read h r) as [[l|d]|]; [| |discriminate].
    + destruct (copy_list (deepcopy n) l h) as [[l' h1]|] eqn:E; [|discriminate].
      inversion H; subst. clear H.
      apply (copy_list_afresh _ IH) in E as (e1 & -> & He1 & Hl').
      exists (e1 ++ [OList l']). rewrite app_assoc. split; [reflexivity|]. split.
      * apply Forall_app. split; [exact He1|]. constructor; [exact Hl'|constructor].
      * simpl. rewrite length_app. lia.
    + destruct (copy_items (deepcopy n) d h) as [[d' h1]|] eqn:E; [|discriminate].
      inversion H; subst. clear H.
      apply (copy_items_afresh _ IH) in E as (e1 & -> & He1 & Hd').
      exists (e1 ++ [ODict d']). rewrite app_assoc. split; [reflexivity|]. split.
      * apply Forall_app. split; [exact He1|]. constructor; [exact Hd'|constructor].
      * simpl. rewrite length_app. lia.
Qed.

Lemma lookup_In {A} k (d : list (string * A)) x :
  Py.lookup k d = Some x -> In (k, x) d.
Proof.
  induction d as [|[k' y] d IH]; simpl; [discriminate|].
  destruct (k' =? k) eqn:E.
  - apply String.eqb_eq in E. intros H. inversion H; subst. left. reflexivity.
  - intros H. right. apply IH. exact H.
Qed.

(** What a subscript of a copy yields is part of the copy. *)
Lemma getitem_fresh (h ext : heap) x k y :
  Forall (fresh_object (List.length h)) ext ->
  fresh_value (List.length h) x ->
  getitem (h ++ ext) x k = Val y ->
  fresh_value (List.length h) y.
Proof.
  intros Hext Hx H. destruct x as [| | | |r]; try discriminate. simpl in Hx, H.
  destruct (read (h ++ ext) r) as [[l|d]|] eqn:Er; try discriminate.
  destruct (Py.lookup k d) as [y'|] eqn:El; [|discriminate].
  inversion H; subst. clear H.
  apply read_app_new in Er; [|exact Hx].
  rewrite Forall_forall in Hext. specialize (Hext _ Er). simpl in Hext.
  rewrite Forall_forall in Hext. apply lookup_In in El.
  exact (Hext _ El).
Qed.

(** A deletion in a copy changes no object that was there before the copy. *)
Lemma delitem_untouched (h h1 : heap) x k h2 :
  untouched h h1 ->
  fresh_value (List.length h) x ->
  delitem h1 x k = Val h2 ->
  untouched h h2.
Proof.
  intros Hu Hx H. destruct x as [| | | |r]; try discriminate. simpl in Hx, H.
  destruct (read h1 r) as [[l|d]|]; try discriminate.
  destruct (Py.lookup k d); [|discriminate].
  inversion H; subst. apply untouched_write; assumption.
Qed.

Lemma in_world_heap {A} (c : M A) h w :
  fst (snd (in_world c (h, w))) = h.
Proof. unfold in_world. simpl. destruct (c w). reflexivity. Qed.

(** One round of the loop changes no object that was in the heap when it
    began: not the payload, not the copy of an earlier round. *)
Lemma broadcast_one_untouched fuel t data h w :
  untouched h (fst (snd (Heap.broadcast_one fuel t data (h, w)))).
Proof.
  unfold Heap.broadcast_one.
  unfold bind at 1. unfold copy_deepcopy. cbn [fst snd].
  destruct (deepcopy fuel data h) as [[md h1]|] eqn:Ed; [|apply untouched_refl].
  apply deepcopy_afresh in Ed as (ext & -> & Hext & Hmd).
  unfold bind at 1. unfold tree. cbn [fst snd].
  destruct (load fuel (h ++ ext) data) as [payload|]; [|apply untouched_app].
  unfold bind at 1.
  destruct (Py.get payload "audience" VNone) as [audience|e]; [|apply untouched_app].
  cbn [lift ret]. unfold bind at 1.
  destruct (Py.get audience "message" VNone) as [allowed|e]; [|apply untouched_app].
  cbn [lift ret]. unfold bind at 1.
  destruct (Py.contains (Target.user_id t) allowed) as [[|]|e]; [| |apply untouched_app].
  { cbn [lift ret]. rewrite in_world_heap. apply untouched_app. }
  cbn [lift ret]. unfold bind at 1. unfold on_heap at 1. cbn [fst snd].
  destruct (getitem (h ++ ext) md "content") as [content|e] eqn:Ec; [|apply untouched_app].
  pose proof (getitem_fresh _ _ _ _ _ Hext Hmd Ec) as Hcontent.
  cbn [lift ret]. unfold bind at 1. unfold on_heap at 1. cbn [fst snd].
  destruct (getitem (h ++ ext) content "message") as [message|e]; [|apply untouched_app].
  cbn [lift ret]. unfold bind at 1. unfold on_heap at 1. cbn [fst snd lift ret].
  unfold bind at 1.
  assert (Hrest : forall h2, untouched h h2 ->
            untouched h
              (fst (snd ((reduced <- tree fuel md ;;
                          in_world (Sender.send (Target.cid t) (json_dumps reduced)))
                           (h2, w))))).
  { intros h2 Hu. unfold bind, tree. cbn [fst snd].
    destruct (load fuel h2 md); [|exact Hu].
    rewrite in_world_heap. exact Hu. }
  destruct (truthy (h ++ ext) message).
  - unfold del. cbn [fst snd].
    destruct (delitem (h ++ ext) content "message") as [h2|e] eqn:Ed; [|apply untouched_app].
    apply Hrest. eapply delitem_untouched; [apply untouched_app|exact Hcontent|exact Ed].
  - cbn [ret]. apply Hrest. apply untouched_app.
Qed.

Lemma for_cid_untouched fuel targets data h w :
  untouched h (fst (snd (Heap.for_cid fuel targets data (h, w)))).
Proof.
  revert h w. induction targets as [|t rest IH]; intros h w; [apply untouched_refl|].
  cbn [Heap.for_cid]. unfold bind.
  pose proof (broadcast_one_untouched fuel t data h w) as H1.
  destruct (Heap.broadcast_one fuel t data (h, w)) as [[[]|e|] [h1 w1]];
    cbn [fst snd] in *; try exact H1.
  eapply untouched_trans; [exact H1|apply IH].
Qed.

(** The tree under a value of a closed heap is read from the objects of that
    heap alone. *)
Lemma load_untouched h h' :
  closed h -> untouched h h' ->
  forall n x, bound_value (List.length h) x -> load n h' x = load n h x.
Proof.
  intros Hclosed Hu. induction n as [|n IH]; intros x Hx.
  - destruct x; reflexivity.
  - destruct x as [| | | |r]; try reflexivity. simpl in Hx. simpl.
    rewrite (Hu r Hx).
    destruct (read h r) as [o|] eqn:Er; [|reflexivity].
    assert (Ho : bound_object (List.length h) o).
    { unfold closed in Hclosed. rewrite Forall_forall in Hclosed.
      apply Hclosed. eapply nth_error_In. exact Er. }
    destruct o as [l|d]; simpl in Ho.
    + f_equal. f_equal. apply map_ext_in. intros y Hy.
      apply IH. rewrite Forall_forall in Ho. apply Ho. exact Hy.
    + f_equal. f_equal. apply map_ext_in. intros [k y] Hy.
      rewrite IH; [reflexivity|]. rewrite Forall_forall in Ho. exact (Ho _ Hy).
Qed.

(** C5.  Whatever [broadcast] does, no object that was in the heap before
    the call has changed after it: deletions reach the objects of a round's
    own deep copy only.  So the tree under the payload reads after the call
    as before it, and a round changes no object that existed when it began,
    the copies of the earlier rounds included. *)
Theorem C5_broadcast_leaves_the_payload_untouched
    fuel targets data h w out h' w' :
  Heap.broadcast fuel targets data (h, w) = (out, (h', w')) ->
  untouched h h'
  /\ (closed h -> bound_value (List.length h) data ->
      forall n, Heap.load n h' data = Heap.load n h data)
  /\ (forall t h0 w0,
        untouched h0 (fst (snd (Heap.broadcast_one fuel t data (h0, w0))))).
Proof.
  intros Hrun.
  assert (Hu : untouched h h').
  { pose proof (for_cid_untouched fuel targets data h w) as H.
    unfold Heap.broadcast, bind in Hrun.
    destruct (Heap.for_cid fuel targets data (h, w)) as [[[]|e|] [h1 w1]];
      cbn [fst snd] in H; inversion Hrun; subst; exact H. }
  split; [exact Hu|]. split.
  - intros Hclosed Hdata n. apply load_untouched; assumption.
  - intros t h0 w0. apply broadcast_one_untouched.
Qed.

End DeepCopy.

(** The payload of the test in the heap, sent to user 72, who may read the
    message, and to user 99, who may not: the call returns, the four objects
    of the payload are as before and the payload still reads with its
    message. *)
Lemma C5_payload_untouched_witness :
  let payload :=
    Scenario.backend_payload (VStr "__all__")
      [("alert", VStr "success"); ("message", VStr "done")] in
  let data := fst (Heap.store payload []) in
  let h := snd (Heap.store payload []) in
  let run := Heap.broadcast 3 [Scenario.user72; Scenario.user99] data (h, Scenario.w2) in
  fst run = Return [Scenario.user72; Scenario.user99]
  /\ untouched h (fst (snd run))
  /\ Heap.load 3 (fst (snd run)) data = Some payload
  /\ map snd (sends (snd (snd run)))
     = [json_dumps payload;
        json_dumps (Scenario.backend_payload (VStr "__all__") [("alert", VStr "success")])].
Proof.
  cbv zeta.
  set (payload := Scenario.backend_payload (VStr "__all__")
                    [("alert", VStr "success"); ("message", VStr "done")]).
  set (data := fst (Heap.store payload [])).
  set (h := snd (Heap.store payload [])).
  set (run := Heap.broadcast 3 [Scenario.user72; Scenario.user99] data (h, Scenario.w2)).
  destruct (C5_broadcast_leaves_the_payload_untouched
              3 [Scenario.user72; Scenario.user99] data h Scenario.w2
              (fst run) (fst (snd run)) (snd (snd run)))
    as (Hu & Hload & _).
  { vm_compute. reflexivity. }
  split; [vm_compute; reflexivity|]. split; [exact Hu|]. split.
  - rewrite Hload.
    + vm_compute. reflexivity.
    + unfold closed. vm_compute. repeat constructor.
    + vm_compute. lia.
  - vm_compute. reflexivity.
Defined.

(** ** The heap model against the model on trees *)

Section Refinement.
Import Heap.

(** Induction on a tree, with the elements of its containers. *)
Lemma value_induction (P : value -> Prop) :
  P VNone -> (forall b, P (VBool b)) -> (forall z, P (VInt z)) -> (forall s, P (VStr s)) ->
  (forall l, Forall P l -> P (VList l)) ->
  (forall d, Forall (fun kv => P (snd kv)) d -> P (VDict d)) ->
  forall v, P v.
Proof.
  intros Hn Hb Hz Hs Hl Hd.
  fix IH 1. intros [| b | z | s | l | d].
  - exact Hn.
  - apply Hb.
  - apply Hz.
  - apply Hs.
  - apply Hl. induction l as [|v l IHl]; constructor; [apply IH|exact IHl].
  - apply Hd. induction d as [|[k v] d IHd]; constructor; [apply IH|exact IHd].
Qed.

(** *** A stored tree occupies a range of its own *)

Section RangesOfElements.
Variables R R' : value -> hvalue -> nat -> nat -> Prop.

Lemma rep_list_ordered l :
  Forall (ordered R) l -> forall l' lo hi, rep_list R l l' lo hi -> (lo <= hi)%nat.
Proof.
  induction 1 as [|v l Hv _ IH]; intros [|x l'] lo hi H; simpl in H; try contradiction.
  - exact H.
  - destruct H as (mid & Hm & H). apply Hv in Hm. apply IH in H. lia.
Qed.

Lemma rep_items_ordered d :
  Forall (fun kv => ordered R (snd kv)) d ->
  forall d' lo hi, rep_items R d d' lo hi -> (lo <= hi)%nat.
Proof.
  induction 1 as [|[k v] d Hv _ IH]; intros [|[k' x] d'] lo hi H; simpl in H;
    try contradiction.
  - exact H.
  - destruct H as (_ & mid & Hm & H). apply Hv in Hm. apply IH in H. lia.
Qed.

Lemma rep_list_carried l :
  Forall (ordered R) l ->
  forall l' lo hi,
    Forall (carried R R' lo hi) l -> rep_list R l l' lo hi -> rep_list R' l l' lo hi.
Proof.
  induction 1 as [|v l Hv Hl IH]; intros [|x l'] lo hi Hc H; simpl in H |- *;
    try contradiction.
  - exact H.
  - destruct H as (mid & Hm & H). exists mid.
    pose proof (Hv _ _ _ Hm) as B1.
    pose proof (rep_list_ordered l Hl _ _ _ H) as B2.
    inversion Hc as [|? ? Hcv Hcl]; subst. split.
    + apply Hcv; [lia|lia|exact Hm].
    + apply IH; [|exact H]. eapply Forall_impl; [|exact Hcl].
      intros v' Hv' x' a b Ha Hb. apply Hv'; lia.
Qed.

Lemma rep_items_carried d :
  Forall (fun kv => ordered R (snd kv)) d ->
  forall d' lo hi,
    Forall (fun kv => carried R R' lo hi (snd kv)) d ->
    rep_items R d d' lo hi -> rep_items R' d d' lo hi.
Proof.
  induction 1 as [|[k v] d Hv Hd IH]; intros [|[k' x] d'] lo hi Hc H; simpl in H |- *;
    try contradiction.
  - exact H.
  - destruct H as (Hk & mid & Hm & H). split; [exact Hk|]. exists mid.
    pose proof (Hv _ _ _ Hm) as B1.
    pose proof (rep_items_ordered d Hd _ _ _ H) as B2.
    inversion Hc as [|? ? Hcv Hcl]; subst. split.
    + apply Hcv; [lia|lia|exact Hm].
    + apply IH; [|exact H]. eapply Forall_impl; [|exact Hcl].
      intros v' Hv' x' a b Ha Hb. apply Hv'; lia.
Qed.

End RangesOfElements.

Lemma rep_bounds h v : ordered (rep h) v.
Proof.
  induction v as [| b | z | s | l IH | d IH] using value_induction;
    intros x lo hi H; simpl in H; try (destruct H; assumption).
  - destruct H as (r & l' & _ & Hr & _ & Hl).
    apply (rep_list_ordered _ _ IH) in Hl. lia.
  - destruct H as (r & d' & _ & Hr & _ & Hd).
    apply (rep_items_ordered _ _ IH) in Hd. lia.
Qed.

Lemma all_ordered h (l : list value) : Forall (ordered (rep h)) l.
Proof. apply Forall_forall. intros v _. apply rep_bounds. Qed.

Lemma all_items_ordered h (d : list (string * value)) :
  Forall (fun kv => ordered (rep h) (snd kv)) d.
Proof. apply Forall_forall. intros v _. apply rep_bounds. Qed.

(** The range may be taken wider. *)
Lemma rep_widen h v x lo hi lo' hi' :
  rep h v x lo hi -> (lo' <= lo)%nat -> (hi <= hi')%nat -> rep h v x lo' hi'.
Proof.
  revert x lo hi lo' hi'.
  induction v as [| b | z | s | l IH | d IH] using value_induction;
    intros x lo hi lo' hi' H Hlo Hhi; simpl in H |- *;
    try (destruct H; split; [assumption|lia]).
  - destruct H as (r & l' & -> & Hr & Hread & Hl).
    exists r, l'. repeat split; [lia|exact Hread|].
    clear Hr Hread. revert l' lo lo' Hlo Hl.
    induction IH as [|v l Hv _ IHl]; intros [|x' l'] lo lo' Hlo Hl; simpl in Hl |- *;
      try contradiction.
    + lia.
    + destruct Hl as (mid & Hm & Hl). exists mid. split; [|exact Hl].
      eapply Hv; [exact Hm|exact Hlo|lia].
  - destruct H as (r & d' & -> & Hr & Hread & Hd).
    exists r, d'. repeat split; [lia|exact Hread|].
    clear Hr Hread. revert d' lo lo' Hlo Hd.
    induction IH as [|[k v] d Hv _ IHd]; intros [|[k' x'] d'] lo lo' Hlo Hd;
      simpl in Hd |- *; try contradiction.
    + lia.
    + destruct Hd as (Hk & mid & Hm & Hd). split; [exact Hk|]. exists mid.
      split; [|exact Hd]. eapply Hv; [exact Hm|exact Hlo|lia].
Qed.

(** It depends on the objects of its range only. *)
Lemma rep_agree h h' v :
  forall x lo hi,
    (forall r, (lo <= r < hi)%nat -> read h' r = read h r) ->
    rep h v x lo hi -> rep h' v x lo hi.
Proof.
  induction v as [| b | z | s | l IH | d IH] using value_induction;
    intros x lo hi Hag H; simpl in H |- *; try assumption.
  - destruct H as (r & l' & -> & Hr & Hread & Hl).
    pose proof (rep_list_ordered _ _ (all_ordered h l) _ _ _ Hl) as Hlo.
    exists r, l'. repeat split; [exact Hr|rewrite Hag by lia; exact Hread|].
    eapply rep_list_carried; [apply all_ordered| |exact Hl].
    eapply Forall_impl; [|exact IH]. intros v Hv x a b Ha Hb. apply Hv.
    intros a' Ha'. apply Hag. lia.
  - destruct H as (r & d' & -> & Hr & Hread & Hd).
    pose proof (rep_items_ordered _ _ (all_items_ordered h d) _ _ _ Hd) as Hlo.
    exists r, d'. repeat split; [exact Hr|rewrite Hag by lia; exact Hread|].
    eapply rep_items_carried; [apply all_items_ordered| |exact Hd].
    eapply Forall_impl; [|exact IH]. intros v Hv x a b Ha Hb. apply Hv.
    intros a' Ha'. apply Hag. lia.
Qed.

(** *** Storing a tree *)

Lemma agree_app (h : heap) ext lo :
  forall r, (lo <= r < List.length h)%nat -> read (h ++ ext) r = read h r.
Proof. intros r Hr. apply read_app_old. lia. Qed.

Lemma store_list_rep l :
  Forall (fun v => forall h x h',
            store v h = (x, h') ->
            exists ext, h' = h ++ ext /\ rep h' v x (List.length h) (List.length h')) l ->
  forall h l' h',
    store_list store l h = (l', h') ->
    exists ext, h' = h ++ ext
                /\ rep_list (rep h') l l' (List.length h) (List.length h').
Proof.
  induction 1 as [|v l Hv _ IH]; intros h l' h' H; simpl in H.
  - inversion H; subst. exists []. rewrite app_nil_r. simpl. split; [reflexivity|lia].
  - destruct (store v h) as [x h1] eqn:Ev.
    destruct (store_list store l h1) as [rest h2] eqn:El.
    inversion H; subst. clear H.
    apply Hv in Ev as (e1 & -> & Hrep).
    apply IH in El as (e2 & -> & Hreps).
    exists (e1 ++ e2). rewrite app_assoc. split; [reflexivity|].
    simpl. exists (List.length (h ++ e1)). split; [|exact Hreps].
    eapply rep_agree; [|exact Hrep]. intros r Hr. apply read_app_old. lia.
Qed.

Lemma store_items_rep d :
  Forall (fun kv => forall h x h',
            store (snd kv) h = (x, h') ->
            exists ext, h' = h ++ ext
                        /\ rep h' (snd kv) x (List.length h) (List.length h')) d ->
  forall h d' h',
    store_items store d h = (d', h') ->
    exists ext, h' = h ++ ext
                /\ rep_items (rep h') d d' (List.length h) (List.length h').
Proof.
  induction 1 as [|[k v] d Hv _ IH]; intros h d' h' H; simpl in H.
  - inversion H; subst. exists []. rewrite app_nil_r. simpl. split; [reflexivity|lia].
  - destruct (store v h) as [x h1] eqn:Ev.
    destruct (store_items store d h1) as [rest h2] eqn:El.
    inversion H; subst. clear H.
    apply Hv in Ev as (e1 & -> & Hrep).
    apply IH in El as (e2 & -> & Hreps).
    exists (e1 ++ e2). rewrite app_assoc. split; [reflexivity|].
    simpl. split; [reflexivity|]. exists (List.length (h ++ e1)). split; [|exact Hreps].
    eapply rep_agree; [|exact Hrep]. intros r Hr. apply read_app_old. lia.
Qed.

(** [store] adds the objects of the tree after the objects of the heap. *)
Lemma store_rep v :
  forall h x h',
    store v h = (x, h') ->
    exists ext, h' = h ++ ext /\ rep h' v x (List.length h) (List.length h').
Proof.
  induction v as [| b | z | s | l IH | d IH] using value_induction;
    intros h x h' H; simpl in H;
    try (inversion H; subst; exists []; rewrite app_nil_r; simpl;
         split; [reflexivity|split; [reflexivity|lia]]).
  - destruct (store_list store l h) as [l' h1] eqn:El.
    inversion H; subst. clear H.
    apply (store_list_rep _ IH) in El as (e1 & -> & Hl).
    exists (e1 ++ [OList l']). rewrite app_assoc. split; [reflexivity|].
    simpl. exists (List.length (h ++ e1)), l'. repeat split.
    + rewrite (length_app (h ++ e1)). simpl. lia.
    + unfold read. rewrite nth_error_app2 by lia. rewrite Nat.sub_diag. reflexivity.
    + eapply rep_list_carried; [apply all_ordered| |exact Hl].
      apply Forall_forall. intros v _ y a b Ha Hb. apply rep_agree.
      intros r Hr. apply read_app_old. lia.
  - destruct (store_items store d h) as [d' h1] eqn:El.
    inversion H; subst. clear H.
    apply (store_items_rep _ IH) in El as (e1 & -> & Hd).
    exists (e1 ++ [ODict d']). rewrite app_assoc. split; [reflexivity|].
    simpl. exists (List.length (h ++ e1)), d'. repeat split.
    + rewrite (length_app (h ++ e1)). simpl. lia.
    + unfold read. rewrite nth_error_app2 by lia. rewrite Nat.sub_diag. reflexivity.
    + eapply rep_items_carried; [apply all_items_ordered| |exact Hd].
      apply Forall_forall. intros v _ y a b Ha Hb. apply rep_agree.
      intros r Hr. apply read_app_old. lia.
Qed.

(** *** Reading a tree *)

Lemma sequence_some {A B} (f : A -> option B) l vl :
  sequence (map f l) = Some vl <-> Forall2 (fun x v => f x = Some v) l vl.
Proof.
  revert vl. induction l as [|x l IH]; intros vl; simpl.
  - split; [intros H; inversion H; constructor|intros H; inversion H; reflexivity].
  - destruct (f x) as [v|] eqn:E.
    + destruct (sequence (map f l)) as [vl'|] eqn:Es; simpl.
      * split.
        -- intros H. inversion H; subst. constructor; [exact E|]. apply IH. reflexivity.
        -- intros H. inversion H as [|? ? ? ? Hx Hl]; subst.
           apply IH in Hl. inversion Hl; subst. congruence.
      * split; [discriminate|].
        intros H. inversion H as [|? ? ? ? Hx Hl]; subst. apply IH in Hl. discriminate.
    + split; [discriminate|]. intros H. inversion H; subst. congruence.
Qed.

(** A tree that is read needs no more fuel than was given. *)
Lemma load_depth n : forall h x v, load n h x = Some v -> (depth v <= n)%nat.
Proof.
  induction n as [|n IH]; intros h x v H.
  - destruct x; simpl in H; inversion H; subst; simpl; lia.
  - destruct x as [| | | |r]; simpl in H; try (inversion H; subst; simpl; lia).
    destruct (read h r) as [[l|d]|]; [| |discriminate].
    + destruct (sequence (map (load n h) l)) as [vl|] eqn:E; [|discriminate].
      inversion H; subst. simpl. apply le_n_S.
      apply sequence_some in E. apply list_max_le.
      apply Forall_map. clear H. induction E as [|y w l vl Hy _ IHl]; constructor.
      * eapply IH. exact Hy.
      * exact IHl.
    + destruct (sequence (map (fun '(k, y) => option_map (pair k) (load n h y)) d))
        as [vd|] eqn:E; [|discriminate].
      inversion H; subst. simpl. apply le_n_S.
      apply sequence_some in E. apply list_max_le.
      apply Forall_map. clear H. induction E as [|[k y] [k' w] d vd Hy _ IHd]; constructor.
      * destruct (load n h y) as [w'|] eqn:Ew; [|discriminate].
        simpl in Hy. inversion Hy; subst. simpl. eapply IH. exact Ew.
      * exact IHd.
Qed.

(** Objects added after the heap do not change what is read. *)
Lemma load_app n : forall h ext x v, load n h x = Some v -> load n (h ++ ext) x = Some v.
Proof.
  induction n as [|n IH]; intros h ext x v H.
  - destruct x; simpl in H |- *; try exact H.
  - destruct x as [| | | |r]; simpl in H |- *; try exact H.
    destruct (read h r) as [o|] eqn:Er; [|discriminate].
    assert (Hr : (r < List.length h)%nat)
      by (apply nth_error_Some; unfold read in Er; congruence).
    rewrite read_app_old by exact Hr. rewrite Er.
    destruct o as [l|d].
    + destruct (sequence (map (load n h) l)) as [vl|] eqn:E; [|discriminate].
      apply sequence_some in E.
      assert (E' : sequence (map (load n (h ++ ext)) l) = Some vl).
      { apply sequence_some. eapply Forall2_impl; [|exact E].
        intros y w Hy. apply IH. exact Hy. }
      rewrite E'. exact H.
    + destruct (sequence (map (fun '(k, y) => option_map (pair k) (load n h y)) d))
        as [vd|] eqn:E; [|discriminate].
      apply sequence_some in E.
      assert (E' : sequence (map (fun '(k, y) => option_map (pair k) (load n (h ++ ext) y)) d)
                   = Some vd).
      { apply sequence_some. eapply Forall2_impl; [|exact E].
        intros [k y] w Hy. destruct (load n h y) as [w'|] eqn:Ew; [|discriminate].
        rewrite (IH _ _ _ _ Ew). exact Hy. }
      rewrite E'. exact H.
Qed.

(** The elements, one by one. *)
Lemma rep_list_elements R l : forall l' lo hi,
  rep_list R l l' lo hi -> Forall2 (fun v x => exists a b, R v x a b) l l'.
Proof.
  induction l as [|v l IH]; intros [|x l'] lo hi H; simpl in H; try contradiction.
  - constructor.
  - destruct H as (mid & Hm & H). constructor; [exists lo, mid; exact Hm|].
    eapply IH. exact H.
Qed.

Lemma rep_items_elements R d : forall d' lo hi,
  rep_items R d d' lo hi ->
  Forall2 (fun kv kx => fst kv = fst kx /\ exists a b, R (snd kv) (snd kx) a b) d d'.
Proof.
  induction d as [|[k v] d IH]; intros [|[k' x] d'] lo hi H; simpl in H; try contradiction.
  - constructor.
  - destruct H as (Hk & mid & Hm & H). constructor.
    + split; [exact Hk|]. exists lo, mid. exact Hm.
    + eapply IH. exact H.
Qed.

(** A stored tree reads back, given fuel for its depth. *)
Lemma load_rep h v : forall x lo hi n,
  rep h v x lo hi -> (depth v <= n)%nat -> load n h x = Some v.
Proof.
  induction v as [| b | z | s | l IH | d IH] using value_induction;
    intros x lo hi n H Hn; simpl in H;
    try (destruct H as [-> _]; destruct n; reflexivity).
  - destruct H as (r & l' & -> & _ & Hread & Hl).
    simpl in Hn. destruct n as [|n]; [lia|]. apply le_S_n in Hn.
    simpl. rewrite Hread.
    assert (E : sequence (map (load n h) l') = Some l).
    { apply sequence_some. apply rep_list_elements in Hl.
      apply list_max_le in Hn. rewrite Forall_map in Hn.
      clear Hread. induction Hl as [|v x l l' (a & b & Hx) _ IHl]; constructor.
      - inversion IH; subst. inversion Hn; subst. eauto.
      - inversion IH; subst. inversion Hn; subst. auto. }
    rewrite E. reflexivity.
  - destruct H as (r & d' & -> & _ & Hread & Hd).
    simpl in Hn. destruct n as [|n]; [lia|]. apply le_S_n in Hn.
    simpl. rewrite Hread.
    assert (E : sequence (map (fun '(k, y) => option_map (pair k) (load n h y)) d')
                = Some d).
    { apply sequence_some. apply rep_items_elements in Hd.
      apply list_max_le in Hn. rewrite Forall_map in Hn.
      clear Hread. induction Hd as [|[k v] [k' x] d d' (Hk & a & b & Hx) _ IHd]; constructor.
      - inversion IH; subst. inversion Hn; subst. simpl in *. subst k'.
        erewrite H1; [reflexivity|exact Hx|assumption].
      - inversion IH; subst. inversion Hn; subst. auto. }
    rewrite E. reflexivity.
Qed.

(** *** The deep copy of a tree is the tree stored again *)

Lemma store_app v h : exists ext, snd (store v h) = h ++ ext.
Proof.
  destruct (store v h) as [x h'] eqn:E.
  apply store_rep in E as (ext & -> & _). exists ext. reflexivity.
Qed.

Lemma copy_list_store n :
  (forall h x v, load n h x = Some v -> deepcopy n x h = Some (store v h)) ->
  forall l vl h,
    Forall2 (fun x v => load n h x = Some v) l vl ->
    copy_list (deepcopy n) l h = Some (store_list store vl h).
Proof.
  intros IH. induction l as [|x l IHl]; intros vl h H; inversion H; subst; simpl.
  - reflexivity.
  - rewrite (IH _ _ _ H2).
    destruct (store y h) as [x' h1] eqn:E.
    destruct (store_app y h) as [ext Hext]. rewrite E in Hext. simpl in Hext. subst h1.
    rewrite (IHl l' (h ++ ext)).
    + destruct (store_list store l' (h ++ ext)). reflexivity.
    + eapply Forall2_impl; [|exact H4]. intros a b Hab. apply load_app. exact Hab.
Qed.

Lemma copy_items_store n :
  (forall h x v, load n h x = Some v -> deepcopy n x h = Some (store v h)) ->
  forall d vd h,
    Forall2 (fun kx kv => option_map (pair (fst kx)) (load n h (snd kx)) = Some kv) d vd ->
    copy_items (deepcopy n) d h = Some (store_items store vd h).
Proof.
  intros IH. induction d as [|[k x] d IHd]; intros vd h H; inversion H; subst; simpl.
  - reflexivity.
  - simpl in H2. destruct (load n h x) as [v|] eqn:Ev; [|discriminate].
    simpl in H2. inversion H2; subst. clear H2.
    rewrite (IH _ _ _ Ev).
    destruct (store v h) as [x' h1] eqn:E.
    destruct (store_app v h) as [ext Hext]. rewrite E in Hext. simpl in Hext. subst h1.
    rewrite (IHd l' (h ++ ext)).
    + destruct (store_items store l' (h ++ ext)). reflexivity.
    + eapply Forall2_impl; [|exact H4]. intros [ka a] b Hab. simpl in *.
      destruct (load n h a) as [w|] eqn:Ew; [|discriminate].
      rewrite (load_app _ _ ext _ _ Ew). exact Hab.
Qed.

Lemma deepcopy_store n : forall h x v,
  load n h x = Some v -> deepcopy n x h = Some (store v h).
Proof.
  induction n as [|n IH]; intros h x v H.
  - destruct x; simpl in H; inversion H; subst; reflexivity.
  - destruct x as [| | | |r]; simpl in H; try (inversion H; subst; reflexivity).
    simpl. destruct (read h r) as [[l|d]|]; [| |discriminate].
    + destruct (sequence (map (load n h) l)) as [vl|] eqn:E; [|discriminate].
      inversion H; subst. clear H. apply sequence_some in E.
      rewrite (copy_list_store n IH l vl h E). simpl.
      destruct (store_list store vl h). reflexivity.
    + destruct (sequence (map (fun '(k, y) => option_map (pair k) (load n h y)) d))
        as [vd|] eqn:E; [|discriminate].
      inversion H; subst. clear H. apply sequence_some in E.
      rewrite (copy_items_store n IH d vd h).
      * simpl. destruct (store_items store vd h). reflexivity.
      * eapply Forall2_impl; [|exact E]. intros [k y] w Hw. exact Hw.
Qed.

(** *** Subscript, truth value and deletion on a stored tree *)

Lemma read_write_same r o (h : heap) :
  (r < List.length h)%nat -> read (write r o h) r = Some o.
Proof.
  unfold read. revert r.
  induction h as [|x h IH]; intros [|r] Hr; simpl in *; try lia; auto.
  apply IH. lia.
Qed.

Lemma read_in_heap (h : heap) r o : read h r = Some o -> (r < List.length h)%nat.
Proof. unfold read. intros H. apply nth_error_Some. congruence. Qed.

(** The reference of a stored container is the last of its range. *)
Lemma rep_ref h v r lo hi :
  rep h v (HRef r) lo hi -> (lo <= r < hi)%nat.
Proof.
  destruct v as [| | | |l|d]; simpl; try (intros [H _]; discriminate).
  - intros (r' & l' & E & Hr & _ & Hl). inversion E; subst.
    apply (rep_list_ordered _ _ (all_ordered h l)) in Hl. lia.
  - intros (r' & d' & E & Hr & _ & Hd). inversion E; subst.
    apply (rep_items_ordered _ _ (all_items_ordered h d)) in Hd. lia.
Qed.

Lemma rep_items_lookup h k d : forall d' lo hi,
  rep_items (rep h) d d' lo hi ->
  match Py.lookup k d with
  | Some v => exists y a b, Py.lookup k d' = Some y /\ rep h v y a b
                            /\ (lo <= a)%nat /\ (b <= hi)%nat
  | None => Py.lookup k d' = None
  end.
Proof.
  induction d as [|[k0 v0] d IH]; intros [|[k1 y0] d'] lo hi H; simpl in H;
    try contradiction.
  - reflexivity.
  - destruct H as (<- & mid & Hm & H). simpl.
    pose proof (rep_bounds _ _ _ _ _ Hm) as B1.
    pose proof (rep_items_ordered _ _ (all_items_ordered h d) _ _ _ H) as B2.
    destruct (k0 =? k).
    + exists y0, lo, mid. repeat split; [exact Hm|lia|lia].
    + specialize (IH _ _ _ H). destruct (Py.lookup k d) as [v|]; [|exact IH].
      destruct IH as (y & a & b & Hy & Hr & Ha & Hb).
      exists y, a, b. repeat split; [exact Hy|exact Hr|lia|lia].
Qed.

(** [x[k]] on the heap is [v[k]] on the tree. *)
Lemma rep_getitem h v x lo hi k :
  rep h v x lo hi ->
  match Py.getitem v k with
  | Val v' => exists y a b, getitem h x k = Val y /\ rep h v' y a b
                            /\ (lo <= a)%nat /\ (b <= hi)%nat
  | Exc e => getitem h x k = Exc e
  end.
Proof.
  destruct v as [| | | |l|d]; simpl; try (intros [-> _]; reflexivity).
  - intros (r & l' & -> & _ & Hread & _). simpl. rewrite Hread. reflexivity.
  - intros (r & d' & -> & Hr & Hread & Hd). simpl. rewrite Hread.
    pose proof (rep_items_lookup h k d _ _ _ Hd) as Hl.
    destruct (Py.lookup k d) as [v|].
    + destruct Hl as (y & a & b & -> & Hrep & Ha & Hb).
      exists y, a, b. repeat split; [exact Hrep|lia|lia].
    + rewrite Hl. reflexivity.
Qed.

(** [bool(x)] on the heap is [bool(v)] on the tree. *)
Lemma rep_truthy h v x lo hi : rep h v x lo hi -> truthy h x = Py.truthy v.
Proof.
  destruct v as [| | | |l|d]; simpl; try (intros [-> _]; reflexivity).
  - intros (r & l' & -> & _ & Hread & Hl). simpl. rewrite Hread.
    destruct l, l'; simpl in Hl; try contradiction; reflexivity.
  - intros (r & d' & -> & _ & Hread & Hd). simpl. rewrite Hread.
    destruct d as [|[k v] d], d' as [|[k' y] d']; simpl in Hd; try contradiction;
      reflexivity.
Qed.

Lemma rep_items_widen h d : forall d' lo lo' hi,
  rep_items (rep h) d d' lo hi -> (lo' <= lo)%nat -> rep_items (rep h) d d' lo' hi.
Proof.
  destruct d as [|[k v] d]; intros [|[k' y] d'] lo lo' hi H Hlo; simpl in H |- *;
    try contradiction.
  - lia.
  - destruct H as (Hk & mid & Hm & H). split; [exact Hk|]. exists mid.
    split; [|exact H]. eapply rep_widen; [exact Hm|exact Hlo|lia].
Qed.

(** The items of a stored dict, moved to a heap that agrees on their range. *)
Lemma rep_items_agree h h' d d' lo hi :
  (forall r, (lo <= r < hi)%nat -> read h' r = read h r) ->
  rep_items (rep h) d d' lo hi -> rep_items (rep h') d d' lo hi.
Proof.
  intros Hag H. eapply rep_items_carried; [apply all_items_ordered| |exact H].
  apply Forall_forall. intros kv _ y a b Ha Hb. apply rep_agree.
  intros r Hr. apply Hag. lia.
Qed.

(** Items without a key, on both sides. *)
Lemma rep_items_remove h k d : forall d' lo hi,
  rep_items (rep h) d d' lo hi ->
  rep_items (rep h) (Py.remove k d) (Py.remove k d') lo hi.
Proof.
  induction d as [|[k0 v0] d IH]; intros [|[k1 y0] d'] lo hi H; simpl in H;
    try contradiction.
  - exact H.
  - destruct H as (<- & mid & Hm & H). simpl.
    pose proof (rep_bounds _ _ _ _ _ Hm) as B1.
    destruct (k0 =? k).
    + eapply rep_items_widen; [apply IH; exact H|exact B1].
    + simpl. split; [reflexivity|]. exists mid. split; [exact Hm|apply IH; exact H].
Qed.

(** The deletion of a key in the dict under a key of a stored dict: on the
    heap, one object is written; the tree it stands for is the tree with the
    inner dict replaced. *)
Lemma rep_items_replace h h2 rc k vc vc' :
  (forall a, a <> rc -> read h2 a = read h a) ->
  (forall a b, rep h vc (HRef rc) a b -> rep h2 vc' (HRef rc) a b) ->
  forall d d' lo hi,
    rep_items (rep h) d d' lo hi ->
    Py.lookup k d = Some vc ->
    Py.lookup k d' = Some (HRef rc) ->
    rep_items (rep h2) (Py.replace k vc' d) d' lo hi.
Proof.
  intros Hw Helem.
  induction d as [|[k0 v0] d IH]; intros [|[k1 y0] d'] lo hi H Hd Hd'; simpl in H;
    try contradiction.
  - discriminate.
  - destruct H as (<- & mid & Hm & H). simpl in Hd, Hd' |- *.
    pose proof (rep_bounds _ _ _ _ _ Hm) as B1.
    destruct (k0 =? k) eqn:E.
    + inversion Hd; subst v0. inversion Hd'; subst y0.
      simpl. split; [reflexivity|]. exists mid. split; [apply Helem; exact Hm|].
      apply rep_ref in Hm.
      eapply rep_items_agree; [|exact H]. intros r Hr. apply Hw. lia.
    + simpl. split; [reflexivity|]. exists mid. split.
      * pose proof (rep_items_lookup h k d _ _ _ H) as Hl. rewrite Hd in Hl.
        destruct Hl as (y & a & b & Hy & Hrep & Ha & Hb).
        rewrite Hd' in Hy. inversion Hy; subst y. apply rep_ref in Hrep.
        eapply rep_agree; [|exact Hm]. intros r Hr. apply Hw. lia.
      * apply IH; assumption.
Qed.

(** [del x["content"]["message"]] on the heap is the tree
    [del_content_message] yields. *)
Lemma rep_del_content_message h v x lo hi reduced :
  rep h v x lo hi ->
  Sender.del_content_message v = Val reduced ->
  exists content h2,
    getitem h x "content" = Val content
    /\ delitem h content "message" = Val h2
    /\ rep h2 reduced x lo hi.
Proof.
  intros Hrep Hdel. unfold Sender.del_content_message in Hdel.
  destruct v as [| | | |l|d]; try discriminate.
  simpl in Hdel. destruct (Py.lookup "content" d) as [vc|] eqn:Ec; [|discriminate].
  destruct vc as [| | | |lc|c]; try discriminate.
  simpl in Hdel. destruct (Py.lookup "message" c) as [vm|] eqn:Em; [|discriminate].
  inversion Hdel; subst reduced. clear Hdel.
  simpl in Hrep. destruct Hrep as (r & d' & -> & Hr & Hread & Hd).
  pose proof (rep_items_lookup h "content" d _ _ _ Hd) as Hl. rewrite Ec in Hl.
  destruct Hl as (y & a & b & Hy & Hrc & Ha & Hb).
  pose proof Hrc as Hrc'. simpl in Hrc'.
  destruct Hrc' as (rc & c' & -> & Hrcb & Hreadc & Hc).
  pose proof (rep_items_lookup h "message" c _ _ _ Hc) as Hm. rewrite Em in Hm.
  destruct Hm as (ym & _ & _ & Hym & _).
  exists (HRef rc), (write rc (ODict (Py.remove "message" c')) h).
  simpl. rewrite Hread, Hy, Hreadc, Hym. repeat split.
  pose proof (rep_ref _ _ _ _ _ Hrc) as Brc.
  exists r, d'. repeat split; [exact Hr| |].
  - rewrite read_write_other by lia. exact Hread.
  - eapply (rep_items_replace h _ rc "content" (VDict c)); try eassumption.
    + intros a0 Ha0. apply read_write_other. exact Ha0.
    + intros a0 b0 H0. simpl in H0 |- *.
      destruct H0 as (rc0 & c0 & E0 & Hrc0 & Hread0 & Hc0). inversion E0; subst rc0.
      rewrite Hreadc in Hread0. inversion Hread0; subst c0.
      exists rc, (Py.remove "message" c'). repeat split; [exact Hrc0| |].
      * apply read_write_same. eapply read_in_heap. exact Hreadc.
      * apply rep_items_remove.
        eapply rep_items_agree; [|exact Hc0]. intros r0 Hr0.
        apply read_write_other. lia.
Qed.

(** *** [Heap.broadcast] does what [Sender.broadcast] does *)

(** A tree that is read is read the same from a heap that left the objects
    untouched. *)
Lemma load_kept n : forall h h' x v,
  untouched h h' -> load n h x = Some v -> load n h' x = Some v.
Proof.
  induction n as [|n IH]; intros h h' x v Hu H.
  - destruct x; simpl in H |- *; exact H.
  - destruct x as [| | | |r]; simpl in H |- *; try exact H.
    destruct (read h r) as [o|] eqn:Er; [|discriminate].
    rewrite (Hu r (read_in_heap _ _ _ Er)), Er.
    destruct o as [l|d].
    + destruct (sequence (map (load n h) l)) as [vl|] eqn:E; [|discriminate].
      apply sequence_some in E.
      assert (E' : sequence (map (load n h') l) = Some vl).
      { apply sequence_some. eapply Forall2_impl; [|exact E].
        intros y w Hy. eapply IH; eassumption. }
      rewrite E'. exact H.
    + destruct (sequence (map (fun '(k, y) => option_map (pair k) (load n h y)) d))
        as [vd|] eqn:E; [|discriminate].
      apply sequence_some in E.
      assert (E' : sequence (map (fun '(k, y) => option_map (pair k) (load n h' y)) d)
                   = Some vd).
      { apply sequence_some. eapply Forall2_impl; [|exact E].
        intros [k y] w Hy. destruct (load n h y) as [w'|] eqn:Ew; [|discriminate].
        rewrite (IH _ _ _ _ Hu Ew). exact Hy. }
      rewrite E'. exact H.
Qed.

Lemma list_max_remove k (c : list (string * value)) :
  (list_max (map (fun kv => depth (snd kv)) (Py.remove k c))
   <= list_max (map (fun kv => depth (snd kv)) c))%nat.
Proof.
  induction c as [|[k0 v0] c IH]; simpl; [lia|].
  destruct (k0 =? k); simpl; lia.
Qed.

Lemma list_max_replace k v vc (d : list (string * value)) :
  Py.lookup k d = Some vc -> (depth v <= depth vc)%nat ->
  (list_max (map (fun kv => depth (snd kv)) (Py.replace k v d))
   <= list_max (map (fun kv => depth (snd kv)) d))%nat.
Proof.
  intros Hl Hv. induction d as [|[k0 v0] d IH]; simpl in *; [lia|].
  destruct (k0 =? k); simpl.
  - inversion Hl; subst. lia.
  - specialize (IH Hl). lia.
Qed.

(** The reduced tree is no deeper than the tree. *)
Lemma depth_del_content_message v reduced :
  Sender.del_content_message v = Val reduced -> (depth reduced <= depth v)%nat.
Proof.
  unfold Sender.del_content_message.
  destruct v as [| | | |l|d]; try discriminate. simpl.
  destruct (Py.lookup "content" d) as [vc|] eqn:Ec; [|discriminate].
  destruct vc as [| | | |lc|c]; try discriminate. simpl.
  destruct (Py.lookup "message" c); [|discriminate].
  intros H. inversion H; subst. simpl. apply le_n_S.
  eapply list_max_replace; [exact Ec|]. simpl. apply le_n_S. apply list_max_remove.
Qed.

(** One round: the same outcome, the same world. *)
Lemma broadcast_one_refines fuel t data payload h w :
  load fuel h data = Some payload ->
  seen (Heap.broadcast_one fuel t data (h, w)) = Sender.broadcast_one t payload w.
Proof.
  intros Hload. pose proof (load_depth _ _ _ _ Hload) as Hdepth.
  rewrite broadcast_one_frame. unfold frame_for.
  unfold Heap.broadcast_one.
  unfold bind at 1. unfold copy_deepcopy. cbn [fst snd].
  rewrite (deepcopy_store _ _ _ _ Hload).
  destruct (store payload h) as [md h1] eqn:Es.
  apply store_rep in Es as (ext & -> & Hrep).
  unfold bind at 1. unfold tree at 1. cbn [fst snd].
  rewrite (load_app _ _ ext _ _ Hload).
  unfold bind at 1.
  destruct (Py.get payload "audience" VNone) as [audience|e]; [|reflexivity].
  cbn [lift ret]. unfold bind at 1.
  destruct (Py.get audience "message" VNone) as [allowed|e]; [|reflexivity].
  cbn [lift ret]. unfold bind at 1.
  destruct (Py.contains (Target.user_id t) allowed) as [[|]|e]; [| |reflexivity].
  { cbn [lift ret]. unfold in_world, seen. cbn [fst snd].
    destruct (Sender.send (Target.cid t) (json_dumps payload) w). reflexivity. }
  cbn [lift ret]. unfold bind at 1. unfold on_heap at 1. cbn [fst snd].
  pose proof (rep_getitem _ _ _ _ _ "content" Hrep) as Hc.
  destruct (Py.getitem payload "content") as [vc|e] eqn:Ec;
    [|rewrite Hc; reflexivity].
  destruct Hc as (content & a & b & Hgc & Hrc & _ & _). rewrite Hgc.
  cbn [lift ret]. unfold bind at 1. unfold on_heap at 1. cbn [fst snd].
  pose proof (rep_getitem _ _ _ _ _ "message" Hrc) as Hm.
  destruct (Py.getitem vc "message") as [vm|e] eqn:Em;
    [|rewrite Hm; reflexivity].
  destruct Hm as (message & a' & b' & Hgm & Hrm & _ & _). rewrite Hgm.
  cbn [lift ret]. unfold bind at 1. unfold on_heap at 1. cbn [fst snd lift ret].
  rewrite (rep_truthy _ _ _ _ _ Hrm).
  unfold bind at 1.
  destruct (Py.truthy vm).
  - destruct (Sender.del_content_message payload) as [reduced|e] eqn:Ed.
    + destruct (rep_del_content_message _ _ _ _ _ _ Hrep Ed)
        as (content' & h2 & Hgc' & Hdel & Hrep2).
      rewrite Hgc in Hgc'. inversion Hgc'; subst content'.
      unfold del. cbn [fst snd lift ret]. rewrite Hdel.
      unfold bind, tree. cbn [fst snd].
      rewrite (load_rep _ _ _ _ _ fuel Hrep2)
        by (pose proof (depth_del_content_message _ _ Ed); lia).
      unfold in_world, seen. cbn [fst snd].
      destruct (Sender.send (Target.cid t) (json_dumps reduced) w). reflexivity.
    + exfalso. unfold Sender.del_content_message in Ed. rewrite Ec in Ed.
      destruct payload as [| | | |l|d]; try discriminate.
      destruct vc as [| | | |lc|c]; try discriminate.
      simpl in Em, Ed. destruct (Py.lookup "message" c); discriminate.
  - cbn [ret]. unfold bind, tree. cbn [fst snd].
    rewrite (load_rep _ _ _ _ _ fuel Hrep Hdepth).
    unfold in_world, seen. cbn [fst snd].
    destruct (Sender.send (Target.cid t) (json_dumps payload) w). reflexivity.
Qed.

Lemma for_cid_refines fuel targets data payload : forall h w,
  load fuel h data = Some payload ->
  seen (Heap.for_cid fuel targets data (h, w)) = Sender.for_cid targets payload w.
Proof.
  induction targets as [|t rest IH]; intros h w Hload; [reflexivity|].
  cbn [Heap.for_cid Sender.for_cid]. unfold bind.
  rewrite <- (broadcast_one_refines fuel t data payload h w Hload).
  pose proof (broadcast_one_untouched fuel t data h w) as Hu.
  destruct (Heap.broadcast_one fuel t data (h, w)) as [o1 [h1 w1]].
  unfold seen at 2. cbn [fst snd] in Hu |- *.
  destruct o1 as [[]| |]; try reflexivity.
  apply IH. eapply load_kept; eassumption.
Qed.

(** The heap model and the model on trees agree: with the payload [data] of
    the heap reading as the tree [payload], [Heap.broadcast] has the outcome
    of [Sender.broadcast] and leaves the world it leaves. *)
Theorem heap_broadcast_refines fuel targets data payload h w :
  load fuel h data = Some payload ->
  seen (Heap.broadcast fuel targets data (h, w)) = Sender.broadcast targets payload w.
Proof.
  intros Hload. unfold Heap.broadcast, Sender.broadcast, bind.
  rewrite <- (for_cid_refines fuel targets data payload h w Hload).
  destruct (Heap.for_cid fuel targets data (h, w)) as [o1 [h1 w1]].
  unfold seen. cbn [fst snd].
  destruct o1 as [[]| |]; reflexivity.
Qed.

(** A decoded tree in the heap reads back with fuel for its depth. *)
Lemma load_store payload h fuel :
  (depth payload <= fuel)%nat ->
  load fuel (snd (store payload h)) (fst (store payload h)) = Some payload.
Proof.
  intros Hd. destruct (store payload h) as [x h'] eqn:E.
  apply store_rep in E as (ext & -> & Hrep).
  eapply load_rep; eassumption.
Qed.

End Refinement.

(** For a payload as the decoder leaves it in the heap, and fuel for its
    depth, the two models agree. *)
Corollary heap_broadcast_of_decoded_payload fuel targets payload h0 w :
  (depth payload <= fuel)%nat ->
  seen (Heap.broadcast fuel targets (fst (Heap.store payload h0))
          (snd (Heap.store payload h0), w))
  = Sender.broadcast targets payload w.
Proof.
  intros Hd. apply heap_broadcast_refines. apply load_store. exact Hd.
Qed.

(* ================================================================== *)
(** * More of the relay *)
(* ================================================================== *)

(** ** Runs that keep a relation between the worlds *)

Section Always.
Variable P : World -> World -> Prop.
Hypothesis P_refl : forall w, P w w.
Hypothesis P_trans : forall w1 w2 w3, P w1 w2 -> P w2 w3 -> P w1 w3.

Lemma always_ret {A} (a : A) : always P (ret a).
Proof. intros w. apply P_refl. Qed.

Lemma always_raise {A} e : always P (raise (A := A) e).
Proof. intros w. apply P_refl. Qed.

Lemma always_diverge {A} : always P (diverge (A := A)).
Proof. intros w. apply P_refl. Qed.

Lemma always_lift {A} (r : Py.res A) : always P (lift r).
Proof. destruct r; [apply always_ret|apply always_raise]. Qed.

Lemma always_bind {A B} (c : M A) (k : A -> M B) :
  always P c -> (forall a, always P (k a)) -> always P (bind c k).
Proof.
  intros Hc Hk w. unfold bind. specialize (Hc w).
  destruct (c w) as [[a| |] w1]; simpl in Hc |- *; try exact Hc.
  eapply P_trans; [exact Hc|apply Hk].
Qed.

Lemma always_try_except {A} (c : M A) handles (h : exn -> M A) :
  always P c -> (forall e, always P (h e)) -> always P (try_except c handles h).
Proof.
  intros Hc Hh w. unfold try_except. specialize (Hc w).
  destruct (c w) as [[a|e|] w1]; simpl in Hc |- *; try exact Hc.
  destruct (handles e); [|exact Hc].
  eapply P_trans; [exact Hc|apply Hh].
Qed.

Lemma always_if {A} (b : bool) (c1 c2 : M A) :
  always P c1 -> always P c2 -> always P (if b then c1 else c2).
Proof. destruct b; auto. Qed.

(** The loops of the relay keep what their bodies keep. *)
Lemma always_while_not_done fuel f :
  always P (Dynamo.scan f) ->
  forall done data, always P (Storage.while_not_done fuel f done data).
Proof.
  intros Hscan. induction fuel as [|fuel IH]; intros done data; simpl.
  - destruct done; [apply always_ret|apply always_diverge].
  - destruct done; [apply always_ret|].
    apply always_bind; [exact Hscan|]. intros response. apply IH.
Qed.

Lemma always_for_user_id fuel m :
  (forall f, always P (Dynamo.scan f)) ->
  forall ids done data, always P (Storage.for_user_id fuel m ids done data).
Proof.
  intros Hscan. induction ids as [|u ids IH]; intros done data.
  - apply always_ret.
  - rewrite for_user_id_cons. apply always_bind.
    + apply always_while_not_done. apply Hscan.
    + intros [d' data']. apply IH.
Qed.

Lemma always_get_connection_ids fuel m sel :
  (forall f, always P (Dynamo.scan f)) ->
  always P (Storage.get_connection_ids_by_reference fuel m sel).
Proof.
  intros Hscan. unfold Storage.get_connection_ids_by_reference.
  apply always_bind.
  - apply always_if.
    + apply always_while_not_done. apply Hscan.
    + apply always_bind; [apply always_lift|]. intros ids.
      apply always_for_user_id. exact Hscan.
  - intros [d' data']. apply always_ret.
Qed.

Lemma always_for_cid :
  (forall t data, always P (Sender.broadcast_one t data)) ->
  forall targets data, always P (Sender.for_cid targets data).
Proof.
  intros Hbody targets data. induction targets as [|t rest IH]; simpl.
  - apply always_ret.
  - apply always_bind; [apply Hbody|]. intros _. exact IH.
Qed.

End Always.

(** ** A resolve reads, and only reads *)

Lemma always_eq_scan f : always (@Logic.eq World) (Dynamo.scan f).
Proof. intros w. symmetry. apply scan_world. Qed.

Lemma get_connection_ids_world fuel m sel w :
  snd (Storage.get_connection_ids_by_reference fuel m sel w) = w.
Proof.
  symmetry.
  apply (always_get_connection_ids (@Logic.eq World) (@eq_refl World) (@eq_trans World)).
  apply always_eq_scan.
Qed.

(** X1.  A resolve leaves the world exactly as it found it, whatever the
    merchant id, the selector and the outcome: it writes no row, sends
    nothing and logs nothing. *)
Theorem X1_resolve_changes_nothing fuel merchant_id user_ids w :
  snd (Storage.get_connection_ids_by_reference fuel merchant_id user_ids w) = w.
Proof. apply get_connection_ids_world. Qed.

(** ** Writing a row keeps the keys apart *)

Lemma in_put_row_keys it rs k :
  In k (map Item.PK (put_row it rs)) -> k = Item.PK it \/ In k (map Item.PK rs).
Proof.
  induction rs as [|r rs IH]; simpl.
  - intros [H|[]]. left. congruence.
  - destruct (Item.PK r =? Item.PK it) eqn:E; simpl.
    + intros [H|H]; [left; congruence|right; right; exact H].
    + intros [H|H]; [right; left; exact H|].
      destruct (IH H) as [H'|H']; [left; exact H'|right; right; exact H'].
Qed.

Lemma put_row_keyed it rs :
  NoDup (map Item.PK rs) -> NoDup (map Item.PK (put_row it rs)).
Proof.
  induction rs as [|r rs IH]; simpl; intros H.
  - constructor; [intros []|constructor].
  - inversion H as [|k ks Hk Hks]; subst.
    destruct (Item.PK r =? Item.PK it) eqn:E; simpl.
    + apply String.eqb_eq in E. rewrite <- E. constructor; assumption.
    + constructor; [|apply IH; exact Hks].
      intros Hin. apply in_put_row_keys in Hin as [Hin|Hin]; [|contradiction].
      apply String.eqb_neq in E. congruence.
Qed.

(** ** What a resolve can return *)

Lemma In_firstn {A} n (l : list A) x : In x (firstn n l) -> In x l.
Proof.
  intros H. rewrite <- (firstn_skipn n l). apply in_or_app. left. exact H.
Qed.

Lemma In_evaluated t it : In it (evaluated t) -> In it (rows t).
Proof.
  unfold evaluated. destruct (page_limit t); [apply In_firstn|auto].
Qed.

(** The rows a loop adds are rows of the table that satisfy its filter. *)
Lemma while_not_done_rows fuel f done data w d' data' w' :
  Storage.while_not_done fuel f done data w = (Return (d', data'), w') ->
  exists extra,
    data' = data ++ extra
    /\ Forall (fun it => In it (rows (table w)) /\ satisfies f it = true) extra.
Proof.
  revert done data.
  induction fuel as [|fuel IH]; intros done data H; simpl in H.
  - destruct done; inversion H; subst. exists []. rewrite app_nil_r. auto.
  - destruct done.
    { inversion H; subst. exists []. rewrite app_nil_r. auto. }
    revert H. run. unfold Dynamo.scan.
    destruct (online (table w)); [|discriminate].
    cbn [Items LastEvaluatedKey]. intros H.
    apply IH in H as (extra & -> & Hextra).
    eexists. rewrite <- app_assoc. split; [reflexivity|].
    apply Forall_app. split; [|exact Hextra].
    apply Forall_forall. intros x Hx. apply filter_In in Hx as [Hx Hs].
    split; [apply In_evaluated; exact Hx|exact Hs].
Qed.

Lemma for_user_id_rows fuel m ids done data w d' data' w' :
  Storage.for_user_id fuel m ids done data w = (Return (d', data'), w') ->
  exists extra,
    data' = data ++ extra
    /\ Forall (fun it => In it (rows (table w))
                         /\ attr_eqb (Item.merchant_id it) m = true) extra.
Proof.
  revert done data w.
  induction ids as [|u ids IH]; intros done data w H.
  - inversion H; subst. exists []. rewrite app_nil_r. auto.
  - rewrite for_user_id_cons in H. revert H. run.
    destruct (Storage.while_not_done fuel _ done data w) as [[[d1 data1]|e|] w1] eqn:E;
      try discriminate.
    intros H. pose proof (while_not_done_returns _ _ _ _ _ _ _ _ E) as [_ ->].
    apply while_not_done_rows in E as (e1 & -> & He1).
    apply IH in H as (e2 & -> & He2).
    exists (e1 ++ e2). rewrite app_assoc. split; [reflexivity|].
    apply Forall_app. split; [|exact He2].
    eapply Forall_impl; [|exact He1]. intros it [Hin Hs]. split; [exact Hin|].
    unfold satisfies in Hs. apply andb_true_iff in Hs as [Hs _]. exact Hs.
Qed.

(** Whatever the selector, a target of a resolve stands for a row of the
    table whose merchant id is the one asked for. *)
Lemma get_connection_ids_rows fuel m sel w targets w' :
  Storage.get_connection_ids_by_reference fuel m sel w = (Return targets, w') ->
  Forall (fun t => exists it, In it (rows (table w))
                              /\ attr_eqb (Item.merchant_id it) m = true
                              /\ t = target_of it) targets.
Proof.
  unfold Storage.get_connection_ids_by_reference. run.
  intros H.
  assert (Hdata : exists d1 data1 w1,
            (if Py.eq_str sel "__all__"
             then Storage.while_not_done fuel
                    {| merchant_id_eq := m; user_id_eq := None |} false []
             else fun s =>
                    match match Py.iter sel with
                          | Val a => fun s => (Return a, s)
                          | Exc e => fun s => (Raise e, s)
                          end s with
                    | (Return a, s') => Storage.for_user_id fuel m a false [] s'
                    | (Raise e, s') => (Raise e, s')
                    | (Diverge, s') => (Diverge, s')
                    end) w = (Return (d1, data1), w1)
            /\ targets = map target_of data1).
  { destruct (if Py.eq_str sel "__all__" then _ else _) as [[[d1 data1]|e|] w1];
      try discriminate.
    inversion H; subst. exists d1, data1, w'. split; reflexivity. }
  clear H. destruct Hdata as (d1 & data1 & w1 & Hrun & ->).
  apply Forall_map.
  assert (Hrows : Forall (fun it => In it (rows (table w))
                                    /\ attr_eqb (Item.merchant_id it) m = true) data1).
  { destruct (Py.eq_str sel "__all__").
    - apply while_not_done_rows in Hrun as (extra & -> & Hextra). simpl.
      eapply Forall_impl; [|exact Hextra]. intros it [Hin Hs]. split; [exact Hin|].
      unfold satisfies in Hs. apply andb_true_iff in Hs as [Hs _]. exact Hs.
    - destruct (Py.iter sel) as [ids|e]; [|discriminate].
      apply for_user_id_rows in Hrun as (extra & -> & Hextra). exact Hextra. }
  eapply Forall_impl; [|exact Hrows].
  intros it [Hin Hm]. exists it. repeat split; assumption.
Qed.

(** X2.  Whatever the selector, every target a resolve returns is the
    connection id and user id of a row of the table whose merchant id is the
    merchant id asked for: a resolve never returns a connection of another
    merchant, nor a connection that is not registered. *)
Theorem X2_resolve_returns_rows_of_the_merchant
    fuel merchant_id user_ids w targets w' :
  Storage.get_connection_ids_by_reference fuel merchant_id user_ids w
  = (Return targets, w') ->
  Forall (fun t => exists item,
            In item (rows (table w))
            /\ attr_eqb (Item.merchant_id item) merchant_id = true
            /\ Target.cid t = Item.PK item
            /\ Target.user_id t = Item.user_id item) targets.
Proof.
  intros Hrun.
  pose proof (get_connection_ids_rows _ _ _ _ _ _ Hrun) as H.
  eapply Forall_impl; [|exact H].
  intros t (it & Hin & Hm & ->). exists it. repeat split; assumption.
Qed.

Lemma X2_resolve_rows_witness :
  Forall (fun t => exists item,
            In item (rows (table Cases.two_merchants))
            /\ attr_eqb (Item.merchant_id item) Scenario.merchant = true
            /\ Target.cid t = Item.PK item
            /\ Target.user_id t = Item.user_id item)
    [Scenario.user72; Scenario.user99].
Proof.
  apply (X2_resolve_returns_rows_of_the_merchant 1 Scenario.merchant (VStr "__all__")
           Cases.two_merchants [Scenario.user72; Scenario.user99] Cases.two_merchants).
  reflexivity.
Defined.

(** ** Registering, then resolving *)

Lemma attr_eqb_refl v : attr_eqb v v = true.
Proof.
  induction v as [| b | z | s | l IH | d IH] using value_induction; simpl.
  - reflexivity.
  - destruct b; reflexivity.
  - apply Z.eqb_refl.
  - apply String.eqb_refl.
  - induction IH as [|v l Hv _ IHl]; [reflexivity|]. rewrite Hv. exact IHl.
  - induction IH as [|[k v] d Hv _ IHd]; [reflexivity|].
    simpl in Hv. rewrite String.eqb_refl, Hv. exact IHd.
Qed.

(** In a keyed table, the rows under a primary key are the one row. *)
Lemma filter_by_key it rs :
  NoDup (map Item.PK rs) -> In it rs ->
  filter (fun r => Item.PK r =? Item.PK it) rs = [it].
Proof.
  induction rs as [|r rs IH]; simpl; intros Hnd Hin; [contradiction|].
  inversion Hnd as [|k ks Hk Hks]; subst.
  assert (Hnone : forall x, ~ In (Item.PK x) (map Item.PK rs) ->
                  filter (fun r0 => Item.PK r0 =? Item.PK x) rs = []).
  { clear. intros x Hx. induction rs as [|r0 rs IH0]; [reflexivity|]. simpl.
    destruct (Item.PK r0 =? Item.PK x) eqn:E.
    - exfalso. apply Hx. left. apply String.eqb_eq. exact E.
    - apply IH0. intros H. apply Hx. right. exact H. }
  destruct Hin as [->|Hin].
  - rewrite String.eqb_refl, Hnone by exact Hk. reflexivity.
  - destruct (Item.PK r =? Item.PK it) eqn:E.
    + exfalso. apply String.eqb_eq in E. apply Hk. rewrite E.
      apply in_map. exact Hin.
    + apply IH; assumption.
Qed.

Lemma filter_filter {A} (p q : A -> bool) l :
  filter p (filter q l) = filter (fun x => q x && p x) l.
Proof.
  induction l as [|x l IH]; [reflexivity|]. simpl.
  destruct (q x); simpl; [destruct (p x)|]; rewrite IH; reflexivity.
Qed.

Lemma filter_comm {A} (p q : A -> bool) l :
  filter p (filter q l) = filter q (filter p l).
Proof.
  rewrite !filter_filter. apply filter_ext. intros x. apply andb_comm.
Qed.

Lemma filter_map_target (p : string -> bool) l :
  filter (fun t => p (Target.cid t)) (map target_of l)
  = map target_of (filter (fun r => p (Item.PK r)) l).
Proof.
  induction l as [|r l IH]; [reflexivity|]. simpl.
  destruct (p (Item.PK r)); simpl; rewrite IH; reflexivity.
Qed.

(** What the write of [set_user_by_connection_id] leaves in a table that
    answers. *)
Lemma set_user_online cid m u ts w :
  online (table w) = true ->
  Storage.set_user_by_connection_id cid m u ts w
  = (Return cid,
     with_table
       (with_rows
          (put_row {| Item.PK := cid; Item.merchant_id := m; Item.user_id := u;
                      Item.ExpirationTime := ts |} (rows (table w))) (table w)) w).
Proof.
  intros Hon. unfold Storage.set_user_by_connection_id, Dynamo.put_item. run.
  rewrite Hon. reflexivity.
Qed.

(** X3.  On a keyed table that answers in one page: after a connection is
    registered under a merchant id and a user id, resolving the merchant with
    the sentinel "__all__" returns a list in which the connection occurs
    exactly once, with that user id; and when the user id is a string, so
    does resolving the merchant with the sequence of that one user id. *)
Theorem X3_a_registered_connection_is_resolved_once
    fuel connection_id merchant_id user_id ts w :
  online (table w) = true ->
  page_limit (table w) = None ->
  keyed (table w) ->
  let w1 := snd (Storage.set_user_by_connection_id connection_id merchant_id user_id ts w) in
  let registered := {| Target.cid := connection_id; Target.user_id := user_id |} in
  (exists targets,
     Storage.get_connection_ids_by_reference (S fuel) merchant_id (VStr "__all__") w1
     = (Return targets, w1)
     /\ filter (fun t => Target.cid t =? connection_id) targets = [registered])
  /\ (forall s, user_id = VStr s ->
      exists targets,
        Storage.get_connection_ids_by_reference (S fuel) merchant_id (VList [VStr s]) w1
        = (Return targets, w1)
        /\ filter (fun t => Target.cid t =? connection_id) targets = [registered]).
Proof.
  intros Hon Hpage Hkeyed w1 registered.
  set (it := {| Item.PK := connection_id; Item.merchant_id := merchant_id;
                Item.user_id := user_id; Item.ExpirationTime := ts |}).
  assert (Hw1 : w1 = with_table (with_rows (put_row it (rows (table w))) (table w)) w).
  { unfold w1. rewrite set_user_online by exact Hon. reflexivity. }
  assert (Hon1 : online (table w1) = true) by (rewrite Hw1; exact Hon).
  assert (Hev1 : evaluated (table w1) = rows (table w1)).
  { unfold evaluated. rewrite Hw1. simpl. rewrite Hpage. reflexivity. }
  assert (Hone : forall f, satisfies f it = true ->
            filter (fun t => Target.cid t =? connection_id)
              (map target_of (filter (satisfies f) (rows (table w1)))) = [registered]).
  { intros f Hf.
    rewrite (filter_map_target (fun k => k =? connection_id)), filter_comm.
    rewrite Hw1. cbn [rows table with_table with_rows].
    change connection_id with (Item.PK it) at 1.
    rewrite (filter_by_key it);
      [|apply put_row_keyed; exact Hkeyed|apply In_put_row].
    simpl. rewrite Hf. reflexivity. }
  split.
  - eexists. split.
    + apply get_connection_ids_all_users; assumption.
    + apply Hone. unfold satisfies. simpl. rewrite attr_eqb_refl. reflexivity.
  - intros s ->. eexists. split.
    + apply get_connection_ids_one_page; assumption.
    + apply Hone. unfold satisfies. simpl.
      rewrite attr_eqb_refl, String.eqb_refl. reflexivity.
Qed.

Lemma X3_registered_once_witness :
  exists targets,
    Storage.get_connection_ids_by_reference 1 Scenario.merchant (VStr "__all__")
      (snd (Storage.set_user_by_connection_id "4000" Scenario.merchant (VStr "5")
              1092387456 Cases.two_merchants))
    = (Return targets,
       snd (Storage.set_user_by_connection_id "4000" Scenario.merchant (VStr "5")
              1092387456 Cases.two_merchants))
    /\ filter (fun t => Target.cid t =? "4000") targets
       = [{| Target.cid := "4000"; Target.user_id := VStr "5" |}].
Proof.
  refine (proj1 (X3_a_registered_connection_is_resolved_once 0 "4000" Scenario.merchant
                   (VStr "5") 1092387456 Cases.two_merchants eq_refl eq_refl _)).
  unfold keyed. simpl. repeat constructor; simpl; intuition discriminate.
Defined.

(** ** Writing and deleting a registration *)

Lemma filter_others_put_row it rs :
  filter (fun r => negb (Item.PK r =? Item.PK it)) (put_row it rs)
  = filter (fun r => negb (Item.PK r =? Item.PK it)) rs.
Proof.
  induction rs as [|r rs IH]; simpl.
  - rewrite String.eqb_refl. reflexivity.
  - destruct (Item.PK r =? Item.PK it) eqn:E; simpl.
    + rewrite String.eqb_refl. reflexivity.
    + rewrite E. simpl. rewrite IH. reflexivity.
Qed.

(** X5.  On a keyed table that answers, a registration is the last one
    written: after [set_user_by_connection_id] the table holds exactly one
    row under the connection id, the one just written, whatever was there
    under it before; the rows of the other connections are the same, in the
    same order. *)
Theorem X5_the_last_registration_wins connection_id merchant_id user_id ts w :
  online (table w) = true ->
  keyed (table w) ->
  let w1 := snd (Storage.set_user_by_connection_id connection_id merchant_id user_id ts w) in
  filter (fun r => Item.PK r =? connection_id) (rows (table w1))
  = [{| Item.PK := connection_id; Item.merchant_id := merchant_id;
        Item.user_id := user_id; Item.ExpirationTime := ts |}]
  /\ filter (fun r => negb (Item.PK r =? connection_id)) (rows (table w1))
     = filter (fun r => negb (Item.PK r =? connection_id)) (rows (table w)).
Proof.
  intros Hon Hkeyed w1. unfold w1. rewrite set_user_online by exact Hon.
  cbn [snd rows table with_table with_rows].
  set (it := {| Item.PK := connection_id; Item.merchant_id := merchant_id;
                Item.user_id := user_id; Item.ExpirationTime := ts |}).
  split.
  - apply (filter_by_key it); [apply put_row_keyed; exact Hkeyed|apply In_put_row].
  - apply (filter_others_put_row it).
Qed.

Lemma X5_last_registration_witness :
  filter (fun r => Item.PK r =? "1092")
    (rows (table (snd (Storage.set_user_by_connection_id "1092" (VStr "ksa.ottu.dev")
                         (VStr "8") 7 Scenario.w2))))
  = [{| Item.PK := "1092"; Item.merchant_id := VStr "ksa.ottu.dev";
        Item.user_id := VStr "8"; Item.ExpirationTime := 7 |}].
Proof.
  refine (proj1 (X5_the_last_registration_wins "1092" (VStr "ksa.ottu.dev") (VStr "8") 7
                   Scenario.w2 eq_refl _)).
  unfold keyed. simpl. repeat constructor; simpl; intuition discriminate.
Defined.

(** The table [delete_connection] leaves. *)
Lemma delete_connection_table cid w :
  table (snd (Storage.delete_connection cid w))
  = if negb (cid =? "") && online (table w)
    then with_rows (delete_row cid (rows (table w))) (table w)
    else table w.
Proof.
  unfold Storage.delete_connection, Dynamo.delete_item. run.
  destruct (negb (cid =? "")); [|reflexivity].
  cbn [table with_log andb]. destruct (online (table w)); reflexivity.
Qed.

Lemma delete_row_twice pk rs : delete_row pk (delete_row pk rs) = delete_row pk rs.
Proof.
  unfold delete_row. rewrite filter_filter. apply filter_ext.
  intros r. apply andb_diag.
Qed.

Lemma delete_row_absent pk rs :
  Forall (fun r => Item.PK r <> pk) rs -> delete_row pk rs = rs.
Proof.
  unfold delete_row. induction 1 as [|r rs Hr _ IH]; [reflexivity|]. simpl.
  apply String.eqb_neq in Hr. rewrite Hr. simpl. rewrite IH. reflexivity.
Qed.

Lemma delete_row_gone pk rs : Forall (fun r => Item.PK r <> pk) (delete_row pk rs).
Proof.
  unfold delete_row. apply Forall_forall. intros r Hr.
  apply filter_In in Hr as [_ Hr]. apply negb_true_iff in Hr.
  apply String.eqb_neq. exact Hr.
Qed.

(** X6.  [delete_connection] returns the connection id and raises nothing,
    whatever the table does.  Deleting twice leaves the rows that deleting
    once leaves; deleting a connection that has no row leaves the rows as
    they are; and with the empty connection id the table is not called. *)
Theorem X6_delete_connection_is_idempotent_and_total connection_id w :
  fst (Storage.delete_connection connection_id w) = Return connection_id
  /\ rows (table (snd (Storage.delete_connection connection_id
                         (snd (Storage.delete_connection connection_id w)))))
     = rows (table (snd (Storage.delete_connection connection_id w)))
  /\ (Forall (fun r => Item.PK r <> connection_id) (rows (table w)) ->
      rows (table (snd (Storage.delete_connection connection_id w))) = rows (table w))
  /\ table (snd (Storage.delete_connection "" w)) = table w.
Proof.
  split; [apply delete_connection_returns|]. split; [|split].
  - rewrite !delete_connection_table.
    destruct (negb (connection_id =? "")); simpl; [|reflexivity].
    destruct (online (table w)) eqn:E; simpl; rewrite ?E; simpl; [|reflexivity].
    apply delete_row_twice.
  - intros Habsent. rewrite delete_connection_table.
    destruct (negb (connection_id =? "") && online (table w)); [|reflexivity].
    simpl. apply delete_row_absent. exact Habsent.
  - rewrite delete_connection_table. reflexivity.
Qed.

(** A resolve looks at the table only. *)
Lemma scan_table_only f w1 w2 :
  table w1 = table w2 -> fst (Dynamo.scan f w1) = fst (Dynamo.scan f w2).
Proof. intros H. unfold Dynamo.scan. rewrite H. destruct (online (table w2)); reflexivity. Qed.

Lemma while_not_done_table_only fuel f w1 w2 :
  table w1 = table w2 ->
  forall done data,
    fst (Storage.while_not_done fuel f done data w1)
    = fst (Storage.while_not_done fuel f done data w2).
Proof.
  intros H. induction fuel as [|fuel IH]; intros done data; simpl.
  - destruct done; reflexivity.
  - destruct done; [reflexivity|]. unfold bind.
    pose proof (scan_table_only f w1 w2 H) as Hs.
    pose proof (scan_world f w1) as H1. pose proof (scan_world f w2) as H2.
    destruct (Dynamo.scan f w1) as [o1 s1], (Dynamo.scan f w2) as [o2 s2].
    simpl in Hs, H1, H2. subst. destruct o2; try reflexivity. apply IH.
Qed.

Lemma while_not_done_world fuel f done data w :
  snd (Storage.while_not_done fuel f done data w) = w.
Proof.
  symmetry.
  apply (always_while_not_done (@Logic.eq World) (@eq_refl World) (@eq_trans World)).
  apply always_eq_scan.
Qed.

Lemma for_user_id_table_only fuel m w1 w2 :
  table w1 = table w2 ->
  forall ids done data,
    fst (Storage.for_user_id fuel m ids done data w1)
    = fst (Storage.for_user_id fuel m ids done data w2).
Proof.
  intros H. induction ids as [|u ids IH]; intros done data; [reflexivity|].
  rewrite !for_user_id_cons. unfold bind.
  pose proof (while_not_done_table_only fuel
                {| merchant_id_eq := m; user_id_eq := Some (Py.format u) |}
                w1 w2 H done data) as Hw.
  pose proof (while_not_done_world fuel
                {| merchant_id_eq := m; user_id_eq := Some (Py.format u) |}
                done data w1) as H1.
  pose proof (while_not_done_world fuel
                {| merchant_id_eq := m; user_id_eq := Some (Py.format u) |}
                done data w2) as H2.
  destruct (Storage.while_not_done fuel _ done data w1) as [o1 s1].
  destruct (Storage.while_not_done fuel _ done data w2) as [o2 s2].
  simpl in Hw, H1, H2. subst. destruct o2 as [[d' data']| |]; try reflexivity. apply IH.
Qed.

Lemma get_connection_ids_table_only fuel m sel w1 w2 :
  table w1 = table w2 ->
  fst (Storage.get_connection_ids_by_reference fuel m sel w1)
  = fst (Storage.get_connection_ids_by_reference fuel m sel w2).
Proof.
  intros H. unfold Storage.get_connection_ids_by_reference. cbv zeta.
  set (inner := if Py.eq_str sel "__all__" then _ else _).
  assert (Hinner : fst (inner w1) = fst (inner w2)).
  { unfold inner. destruct (Py.eq_str sel "__all__").
    - apply while_not_done_table_only. exact H.
    - unfold bind. destruct (Py.iter sel) as [ids|e]; [|reflexivity].
      cbn [lift ret]. apply for_user_id_table_only. exact H. }
  unfold bind. destruct (inner w1) as [o1 s1], (inner w2) as [o2 s2].
  simpl in Hinner. subst. destruct o2 as [[d' data']| |]; reflexivity.
Qed.

(** X7.  [create_connection], and so the connect handler, writes nothing:
    every resolve after a connect has the outcome it had before it.  A
    connection that has only connected is no target of a broadcast. *)
Theorem X7_connecting_registers_nothing fuel merchant_id user_ids event w :
  table (snd (app.connect event w)) = table w
  /\ fst (Storage.get_connection_ids_by_reference fuel merchant_id user_ids
            (snd (app.connect event w)))
     = fst (Storage.get_connection_ids_by_reference fuel merchant_id user_ids w).
Proof.
  split; [reflexivity|]. apply get_connection_ids_table_only. reflexivity.
Qed.

(** X8.  After the disconnect handler has run for a non-empty connection
    id on a table that answers, no resolve, whatever its merchant id and
    selector, returns that connection. *)
Theorem X8_a_disconnected_connection_is_never_resolved
    fuel merchant_id user_ids event w targets w' :
  online (table w) = true ->
  app.connection_id event <> "" ->
  Storage.get_connection_ids_by_reference fuel merchant_id user_ids
    (snd (app.disconnect event w))
  = (Return targets, w') ->
  Forall (fun t => Target.cid t <> app.connection_id event) targets.
Proof.
  intros Hon Hcid Hrun.
  apply get_connection_ids_rows in Hrun.
  eapply Forall_impl; [|exact Hrun].
  intros t (it & Hin & _ & ->). cbn [target_of Target.cid].
  assert (Htable : table (snd (app.disconnect event w))
                   = with_rows (delete_row (app.connection_id event) (rows (table w)))
                       (table w)).
  { unfold app.disconnect, bind.
    pose proof (delete_connection_table (app.connection_id event) w) as Ht.
    pose proof (delete_connection_returns (app.connection_id event) w) as Hr.
    destruct (Storage.delete_connection (app.connection_id event) w) as [o s].
    simpl in Ht, Hr. subst o. simpl. rewrite Ht.
    apply String.eqb_neq in Hcid. rewrite Hcid, Hon. reflexivity. }
  rewrite Htable in Hin. cbn [rows with_rows] in Hin.
  pose proof (delete_row_gone (app.connection_id event) (rows (table w))) as Hgone.
  rewrite Forall_forall in Hgone. exact (Hgone _ Hin).
Qed.

Lemma X8_disconnected_witness :
  Forall (fun t => Target.cid t <> "2000") [Scenario.user72].
Proof.
  apply (X8_a_disconnected_connection_is_never_resolved 1 Scenario.merchant
           (VStr "__all__")
           {| app.connection_id := "2000"; app.event_body := None |}
           Scenario.w2 [Scenario.user72]
           (snd (app.disconnect {| app.connection_id := "2000"; app.event_body := None |}
                   Scenario.w2))).
  - reflexivity.
  - discriminate.
  - reflexivity.
Defined.

(** ** The roles of a frame *)

Section Roles.

Variables (m : Message) (data ident client audience user_id merchant_id : value).
Hypothesis Hbody : body m <> "".
Hypothesis Hdecoded : decoded m = Some data.
Hypothesis Hid : Py.get data "id" VNone = Val ident.
Hypothesis Htype : Py.get ident "type" VNone = Val client.
Hypothesis Haudience : Py.get data "audience" (VDict []) = Val audience.
Hypothesis Huser : Py.get audience "data" (VStr "") = Val user_id.
Hypothesis Hmerchant : Py.get ident "merchant_id" (VStr "") = Val merchant_id.

Lemma handle_role fuel cid w :
  Handler.handle fuel cid (Some m) w
  = (if Py.eq_str client "frontend"
     then _ <- Handler.handle_frontend cid merchant_id user_id ;; ret tt
     else if Py.eq_str client "backend"
     then
       connection_ids <- Handler.handle_backend fuel merchant_id user_id ;;
       match connection_ids with
       | _ :: _ => _ <- Sender.broadcast connection_ids data ;; ret tt
       | [] => ret tt
       end
     else if Py.eq_str client "ping"
     then Sender.send cid (text "pong")
     else logging.error "message_handle client expecting frontend or backend") w.
Proof.
  exact (handle_dispatch m data ident client audience user_id merchant_id
           Hbody Hdecoded Hid Htype Haudience Huser Hmerchant fuel cid w).
Qed.

Lemma role_is_ping :
  Py.eq_str client "ping" = true ->
  Py.eq_str client "frontend" = false /\ Py.eq_str client "backend" = false.
Proof.
  destruct client; simpl; try discriminate.
  intros H. apply String.eqb_eq in H. subst. split; reflexivity.
Qed.

(** X9.  On a frame whose role is ping, [handle] hands the text pong to the
    transport for the connection the frame came from, once, and returns;
    when the transport holds the connection, nothing else of the world
    changes.  On a frame whose role is none of frontend, backend and ping
    (a missing role included), [handle] returns with one more error in the
    log and nothing else changed: no row is written and nothing is sent. *)
Theorem X9_ping_is_answered_and_other_roles_are_dropped fuel cid w :
  (Py.eq_str client "ping" = true ->
     exists w',
       Handler.handle fuel cid (Some m) w = (Return tt, w')
       /\ sends w' = sends w ++ [(cid, text "pong")]
       /\ (existsb (String.eqb cid) (live w) = true ->
           w' = with_sends (sends w ++ [(cid, text "pong")]) w))
  /\ (Py.eq_str client "frontend" = false ->
      Py.eq_str client "backend" = false ->
      Py.eq_str client "ping" = false ->
      Handler.handle fuel cid (Some m) w
      = (Return tt,
         with_log (log w ++ [(ERROR, "message_handle client expecting frontend or backend")])
           w)).
Proof.
  split.
  - intros Hping. destruct (role_is_ping Hping) as [Hf Hb].
    rewrite handle_role, Hf, Hb, Hping.
    destruct (send_returns cid (text "pong") w) as (w' & Hsend & Hs & _).
    exists w'. split; [exact Hsend|]. split; [exact Hs|].
    intros Hlive. rewrite send_live in Hsend by exact Hlive.
    inversion Hsend. reflexivity.
  - intros Hf Hb Hp. rewrite handle_role, Hf, Hb, Hp. reflexivity.
Qed.

(** A resolve on a table that does not answer raises as soon as the
    selector is one for [handle_backend]. *)
Lemma get_connection_ids_out_of_service fuel merchant user_ids w :
  online (table w) = false ->
  Py.truthy user_ids = true ->
  exists e,
    Storage.get_connection_ids_by_reference (S fuel) merchant user_ids w = (Raise e, w).
Proof.
  intros Hoff Hu. unfold Storage.get_connection_ids_by_reference. cbv zeta.
  assert (Hscan : forall f rs,
             Storage.while_not_done (S fuel) f false rs w = (Raise ClientError, w)).
  { intros f rs. simpl. unfold bind, Dynamo.scan. rewrite Hoff. reflexivity. }
  destruct (Py.eq_str user_ids "__all__") eqn:Hall.
  - exists ClientError. unfold bind. rewrite Hscan. reflexivity.
  - destruct user_ids as [|b|z|s|l|d]; simpl in Hu; try discriminate.
    + exists TypeError. reflexivity.
    + exists TypeError. reflexivity.
    + destruct s as [|a s]; [discriminate|]. exists ClientError.
      cbn [Py.iter Py.chars map lift]. unfold bind at 1 2. unfold ret at 1.
      rewrite for_user_id_cons. unfold bind. rewrite Hscan. reflexivity.
    + destruct l as [|u l]; [discriminate|]. exists ClientError.
      cbn [Py.iter lift]. unfold bind at 1 2. unfold ret at 1.
      rewrite for_user_id_cons. unfold bind. rewrite Hscan. reflexivity.
    + destruct d as [|[k v] d]; [discriminate|]. exists ClientError.
      cbn [Py.iter map lift]. unfold bind at 1 2. unfold ret at 1.
      rewrite for_user_id_cons. unfold bind. rewrite Hscan. reflexivity.
Qed.

(** X10.  While the table does not answer, a frame with a merchant id and a
    user id or selector is lost without a sign to its sender: on a frontend
    frame [handle] returns as after a registration, but no row is written;
    on a backend frame it returns and nothing is sent.  All that is left is
    one error in the log. *)
Theorem X10_an_outage_of_the_table_is_absorbed fuel cid w :
  online (table w) = false ->
  Py.truthy merchant_id = true ->
  Py.truthy user_id = true ->
  (Py.eq_str client "frontend" = true ->
     Handler.handle fuel cid (Some m) w
     = (Return tt, with_log (log w ++ [(ERROR, "message_handle frontend ERROR: ")]) w))
  /\ (Py.eq_str client "backend" = true ->
      Handler.handle (S fuel) cid (Some m) w
      = (Return tt, with_log (log w ++ [(ERROR, "message_handle backend ERROR: ")]) w)).
Proof.
  intros Hoff Hm Hu. split; intros Hrole.
  - rewrite handle_role, Hrole.
    unfold Handler.handle_frontend, Storage.set_user_by_connection_id, Dynamo.put_item.
    run. rewrite Hm, Hu. cbn [andb]. rewrite Hoff. reflexivity.
  - rewrite handle_role, (role_is_backend ident client Htype Hrole), Hrole.
    destruct (get_connection_ids_out_of_service fuel merchant_id user_id w Hoff Hu)
      as (e & He).
    unfold bind at 1. unfold Handler.handle_backend, try_except.
    rewrite Hm, Hu. cbn [andb]. unfold bind at 1. rewrite He. reflexivity.
Qed.

End Roles.

Lemma X9_ping_witness :
  Handler.handle 1 "1092" (Scenario.inbound Cases.ping) Scenario.w2
  = (Return tt, with_sends [("1092", text "pong")] Scenario.w2).
Proof.
  destruct (proj1 (X9_ping_is_answered_and_other_roles_are_dropped
                     {| body := Scenario.json_text Cases.ping; decoded := Some Cases.ping |}
                     Cases.ping (VDict [("type", VStr "ping")]) (VStr "ping")
                     (VDict []) (VStr "") (VStr "")
                     ltac:(vm_compute; discriminate) eq_refl eq_refl eq_refl eq_refl eq_refl
                     eq_refl 1 "1092" Scenario.w2) eq_refl)
    as (w' & Hrun & _ & Hlive).
  unfold Scenario.inbound. rewrite Hrun, (Hlive eq_refl). reflexivity.
Defined.

Lemma X10_outage_witness :
  Handler.handle 1 "4000"
    (Scenario.inbound (Scenario.frontend_payload Scenario.merchant (VStr "5")))
    Cases.out_of_service
  = (Return tt, with_log [(ERROR, "message_handle frontend ERROR: ")] Cases.out_of_service).
Proof.
  refine (proj1 (X10_an_outage_of_the_table_is_absorbed
                   {| body := Scenario.json_text
                                (Scenario.frontend_payload Scenario.merchant (VStr "5"));
                      decoded := Some (Scenario.frontend_payload Scenario.merchant (VStr "5")) |}
                   (Scenario.frontend_payload Scenario.merchant (VStr "5"))
                   (VDict [("merchant_id", Scenario.merchant); ("type", VStr "frontend")])
                   (VStr "frontend") (VDict [("data", VStr "5")]) (VStr "5") Scenario.merchant
                   _ eq_refl eq_refl eq_refl eq_refl eq_refl eq_refl
                   0 "4000" Cases.out_of_service eq_refl eq_refl eq_refl) eq_refl).
  vm_compute. discriminate.
Defined.

(** ** Frames [handle] cannot read *)

(** X11.  A body that decodes to something [handle] cannot read the role
    and the scope from (no dict, no dict under ["id"], or something other
    than a dict under ["audience"]) makes [handle] raise [AttributeError]
    to its caller, before it has written, sent or logged anything. *)
Theorem X11_an_unreadable_frame_raises_before_anything_is_done fuel cid m data w :
  body m <> "" ->
  decoded m = Some data ->
  framed data = false ->
  Handler.handle fuel cid (Some m) w = (Raise AttributeError, w).
Proof.
  intros Hbody Hdecoded Hframed. unfold Handler.handle.
  destruct (body m =? "") eqn:E; [apply String.eqb_eq in E; contradiction|].
  cbn [negb]. unfold json_loads. rewrite Hdecoded.
  unfold bind at 1. unfold ret at 1.
  destruct data as [|b|z|s|l|d]; try reflexivity.
  unfold framed in Hframed. cbn [Py.get lift].
  destruct (Py.lookup "id" d) as [ident|] eqn:Hid; [|reflexivity].
  destruct ident as [|b|z|s|l|i]; try reflexivity.
  unfold bind at 1. unfold ret at 1. cbn [Py.get lift].
  unfold bind at 1. unfold ret at 1.
  destruct (Py.lookup "audience" d) as [audience|] eqn:Ha; [|discriminate].
  destruct audience as [|b|z|s|l|a]; try reflexivity. discriminate.
Qed.

Lemma X11_unreadable_frame_witness :
  Handler.handle 1 "1092"
    (Scenario.inbound (VDict [("id", VDict [("type", VStr "ping")]);
                              ("audience", VStr "__all__")]))
    Scenario.w2
  = (Raise AttributeError, Scenario.w2).
Proof.
  apply X11_an_unreadable_frame_raises_before_anything_is_done with
    (data := VDict [("id", VDict [("type", VStr "ping")]); ("audience", VStr "__all__")]).
  - vm_compute. discriminate.
  - reflexivity.
  - reflexivity.
Defined.

(** ** A resolve in closed form *)

Lemma while_not_done_out_of_service fuel f data w :
  online (table w) = false ->
  Storage.while_not_done (S fuel) f false data w = (Raise ClientError, w).
Proof. intros Hoff. simpl. unfold bind, Dynamo.scan. rewrite Hoff. reflexivity. Qed.

Lemma evaluated_all t : paged t = false -> evaluated t = rows t.
Proof.
  unfold paged, evaluated. destruct (page_limit t) as [n|]; [|reflexivity].
  intros H. apply Nat.ltb_ge in H. rewrite length_firstn in H.
  apply firstn_all2. lia.
Qed.

(** The loop of one filter, from the first call of [scan] on. *)
Lemma while_not_done_closed_form fuel f data w :
  Storage.while_not_done (S fuel) f false data w
  = if negb (online (table w)) then (Raise ClientError, w)
    else if paged (table w) then (Diverge, w)
    else (Return (true, data ++ filter (satisfies f) (rows (table w))), w).
Proof.
  destruct (online (table w)) eqn:Hon; cbn [negb].
  - destruct (paged (table w)) eqn:Hp.
    + apply while_not_done_paged; [exact Hon|]. apply Nat.ltb_lt. exact Hp.
    + apply while_not_done_one_page; [exact Hon|]. apply evaluated_all. exact Hp.
  - apply while_not_done_out_of_service. exact Hon.
Qed.

Lemma get_connection_ids_closed_form fuel merchant_id user_ids w :
  Storage.get_connection_ids_by_reference (S fuel) merchant_id user_ids w
  = match selection merchant_id user_ids with
    | Exc e => (Raise e, w)
    | Val None => (Return [], w)
    | Val (Some f) =>
        if negb (online (table w)) then (Raise ClientError, w)
        else if paged (table w) then (Diverge, w)
        else (Return (map target_of (filter (satisfies f) (rows (table w)))), w)
    end.
Proof.
  unfold Storage.get_connection_ids_by_reference, selection. cbv zeta.
  destruct (Py.eq_str user_ids "__all__").
  - unfold bind. rewrite while_not_done_closed_form.
    destruct (negb (online (table w))); [reflexivity|].
    destruct (paged (table w)); reflexivity.
  - destruct (Py.iter user_ids) as [[|u ids]|e]; try reflexivity.
    cbn [lift]. unfold bind at 1 2. unfold ret at 1.
    rewrite for_user_id_cons. unfold bind. rewrite while_not_done_closed_form.
    destruct (negb (online (table w))); [reflexivity|].
    destruct (paged (table w)); [reflexivity|].
    rewrite for_user_id_done. reflexivity.
Qed.

(** X12.  With fuel for one round of its loop, a resolve is this: it raises
    what running over the selector raises; for a selector without an
    element it returns the empty list and does not call the table;
    otherwise it asks for one filter (the merchant for "__all__", the
    merchant and the first element of the selector else) and raises
    [ClientError] when the table does not answer, returns for no fuel at
    all when the table pages, and else returns the targets of the rows that
    satisfy the filter, in the order of the table.  The world is left as it
    was. *)
Theorem X12_resolve_in_closed_form fuel merchant_id user_ids w :
  Storage.get_connection_ids_by_reference (S fuel) merchant_id user_ids w
  = match selection merchant_id user_ids with
    | Exc e => (Raise e, w)
    | Val None => (Return [], w)
    | Val (Some f) =>
        if negb (online (table w)) then (Raise ClientError, w)
        else if paged (table w) then (Diverge, w)
        else (Return (map target_of (filter (satisfies f) (rows (table w)))), w)
    end.
Proof. apply get_connection_ids_closed_form. Qed.

(** ** A backend frame, from the wire to the transport *)

Lemma selection_truthy merchant_id user_ids f :
  selection merchant_id user_ids = Val (Some f) -> Py.truthy user_ids = true.
Proof.
  unfold selection. destruct user_ids as [|b|z|s|l|d]; simpl; try discriminate.
  - destruct (s =? "__all__") eqn:E.
    + apply String.eqb_eq in E. subst. reflexivity.
    + destruct s; [discriminate|reflexivity].
  - destruct l; [discriminate|reflexivity].
  - destruct d; [discriminate|reflexivity].
Qed.

(** [handle] on a backend frame that selects rows of a table that answers
    in one page. *)
Lemma handle_backend_frame
    fuel cid m d ident merchant_id audience user_ids f allowed c msg w :
  body m <> "" ->
  decoded m = Some (VDict d) ->
  Py.lookup "id" d = Some ident ->
  Py.get ident "type" VNone = Val (VStr "backend") ->
  Py.get ident "merchant_id" (VStr "") = Val merchant_id ->
  Py.truthy merchant_id = true ->
  Py.lookup "audience" d = Some audience ->
  Py.get audience "data" (VStr "") = Val user_ids ->
  selection merchant_id user_ids = Val (Some f) ->
  Py.get audience "message" VNone = Val (VList allowed) ->
  Py.lookup "content" d = Some (VDict c) ->
  Py.lookup "message" c = Some msg ->
  Py.truthy msg = true ->
  online (table w) = true ->
  paged (table w) = false ->
  let reduced := VDict (Py.replace "content" (VDict (Py.remove "message" c)) d) in
  exists w',
    Handler.handle (S fuel) cid (Some m) w = (Return tt, w')
    /\ sends w'
       = sends w
         ++ map (fun r => (Item.PK r,
                           json_dumps (if existsb (Py.eq (Item.user_id r)) allowed
                                       then VDict d else reduced)))
             (filter (satisfies f) (rows (table w)))
    /\ live w' = live w.
Proof.
  intros Hbody Hdecoded Hid Htype Hmerchant Hm Haud Huser Hsel Hallowed Hcontent Hmsg
         Htruthy Hon Hpaged reduced.
  rewrite (handle_dispatch m (VDict d) ident (VStr "backend") audience user_ids merchant_id
             Hbody Hdecoded).
  2: { simpl. rewrite Hid. reflexivity. }
  2: exact Htype.
  2: { simpl. rewrite Haud. reflexivity. }
  2: exact Huser.
  2: exact Hmerchant.
  cbn [Py.eq_str String.eqb Ascii.eqb Bool.eqb].
  unfold bind at 1. unfold Handler.handle_backend, try_except.
  rewrite Hm, (selection_truthy _ _ _ Hsel). cbn [andb].
  unfold bind at 1. rewrite get_connection_ids_closed_form, Hsel, Hon, Hpaged. cbn [negb].
  unfold bind at 1. unfold logging.error at 1. unfold ret at 1.
  set (logged := with_log _ w).
  set (g := fun t : Target.t =>
              json_dumps (if existsb (Py.eq (Target.user_id t)) allowed
                          then VDict d else reduced)).
  destruct (map target_of (filter (satisfies f) (rows (table w)))) as [|t ts] eqn:Hts.
  - apply map_eq_nil in Hts. rewrite Hts. exists logged. simpl.
    rewrite app_nil_r. repeat split.
  - destruct (broadcast_sends g (t :: ts) (VDict d) logged) as (w' & Hrun & Hs & Hl).
    { intros x _. rewrite (frame_for_payload x d audience (VList allowed) c msg)
        by assumption.
      cbn [Py.contains]. rewrite Htruthy. unfold g.
      destruct (existsb (Py.eq (Target.user_id x)) allowed); reflexivity. }
    exists w'. unfold bind. rewrite Hrun. split; [reflexivity|]. split; [|exact Hl].
    rewrite Hs, <- Hts, map_map. reflexivity.
Qed.

(** X13.  A backend frame with a merchant id, a selector that makes a
    filter, a list under [audience.message] and a non-empty
    [content.message], on a table that answers in one page: [handle]
    returns, and it has called the transport once for each row that
    satisfies the filter, in the order of the table, with the payload as it
    came for a row whose user id is in the list, and with the payload less
    [content.message] for any other row; rows of other merchants get
    nothing. *)
Theorem X13_a_backend_frame_reaches_the_selected_registrations
    fuel cid m d ident merchant_id audience user_ids f allowed c msg w :
  body m <> "" ->
  decoded m = Some (VDict d) ->
  Py.lookup "id" d = Some ident ->
  Py.get ident "type" VNone = Val (VStr "backend") ->
  Py.get ident "merchant_id" (VStr "") = Val merchant_id ->
  Py.truthy merchant_id = true ->
  Py.lookup "audience" d = Some audience ->
  Py.get audience "data" (VStr "") = Val user_ids ->
  selection merchant_id user_ids = Val (Some f) ->
  Py.get audience "message" VNone = Val (VList allowed) ->
  Py.lookup "content" d = Some (VDict c) ->
  Py.lookup "message" c = Some msg ->
  Py.truthy msg = true ->
  online (table w) = true ->
  paged (table w) = false ->
  let reduced := VDict (Py.replace "content" (VDict (Py.remove "message" c)) d) in
  exists w',
    Handler.handle (S fuel) cid (Some m) w = (Return tt, w')
    /\ sends w'
       = sends w
         ++ map (fun r => (Item.PK r,
                           json_dumps (if existsb (Py.eq (Item.user_id r)) allowed
                                       then VDict d else reduced)))
             (filter (satisfies f) (rows (table w)))
    /\ live w' = live w.
Proof.
  intros Hbody Hdecoded Hid Htype Hmerchant Hm Haud Huser Hsel Hallowed Hcontent Hmsg
         Htruthy Hon Hpaged.
  eapply handle_backend_frame; eassumption.
Qed.

Lemma X13_backend_frame_witness :
  exists w',
    Handler.handle 1 "9"
      (Scenario.inbound
         (Scenario.backend_payload (VStr "__all__")
            [("alert", VStr "success"); ("message", VStr "done")]))
      Cases.two_merchants
    = (Return tt, w')
    /\ sends w'
       = [("1092", json_dumps (Scenario.backend_payload (VStr "__all__")
                                 [("alert", VStr "success"); ("message", VStr "done")]));
          ("2000", json_dumps (Scenario.backend_payload (VStr "__all__")
                                 [("alert", VStr "success")]))]
    /\ live w' = ["1092"; "3000"; "2000"].
Proof.
  refine (X13_a_backend_frame_reaches_the_selected_registrations 0 "9"
            {| body := Scenario.json_text
                         (Scenario.backend_payload (VStr "__all__")
                            [("alert", VStr "success"); ("message", VStr "done")]);
               decoded := Some (Scenario.backend_payload (VStr "__all__")
                                  [("alert", VStr "success"); ("message", VStr "done")]) |}
            (Scenario.backend_items (VStr "__all__")
               [("alert", VStr "success"); ("message", VStr "done")])
            Scenario.backend_identity Scenario.merchant
            (Scenario.backend_audience (VStr "__all__")) (VStr "__all__")
            {| merchant_id_eq := Scenario.merchant; user_id_eq := None |}
            [VStr "72"] [("alert", VStr "success"); ("message", VStr "done")] (VStr "done")
            Cases.two_merchants _ eq_refl eq_refl eq_refl eq_refl eq_refl eq_refl eq_refl
            eq_refl eq_refl eq_refl eq_refl eq_refl eq_refl eq_refl).
  vm_compute. discriminate.
Defined.

(** ** What a broadcast leaves behind *)

(** The table [send] leaves: the row of a connection that is gone is
    deleted, if the connection id is not empty and the table answers. *)
Lemma send_table cid f w :
  table (snd (Sender.send cid f w))
  = if negb (cid =? "") && negb (existsb (String.eqb cid) (live w)) && online (table w)
    then with_rows (delete_row cid (rows (table w))) (table w)
    else table w.
Proof.
  destruct (existsb (String.eqb cid) (live w)) eqn:E.
  - rewrite send_live by exact E. rewrite andb_false_r. reflexivity.
  - rewrite send_gone by exact E. cbn [snd]. rewrite delete_connection_table.
    cbn [table with_sends negb]. rewrite andb_true_r. reflexivity.
Qed.

Lemma for_cid_reclaims targets data :
  (forall t, In t targets -> exists f, frame_for t data = Val f) ->
  forall w,
    online (table w) = true ->
    exists w',
      Sender.for_cid targets data w = (Return tt, w')
      /\ rows (table w')
         = filter (fun r => negb (existsb (fun t => reclaimed (live w) t
                                                    && (Target.cid t =? Item.PK r)) targets))
             (rows (table w))
      /\ live w' = live w
      /\ online (table w') = true.
Proof.
  induction targets as [|t rest IH]; intros Hframes w Hon.
  - exists w. simpl. repeat split; [|exact Hon].
    symmetry. apply forallb_filter_id. apply forallb_forall. reflexivity.
  - destruct (Hframes t (or_introl eq_refl)) as (f & Hf).
    cbn [Sender.for_cid]. unfold bind at 1. rewrite broadcast_one_frame, Hf.
    pose proof (send_table (Target.cid t) f w) as Ht.
    destruct (send_returns (Target.cid t) f w) as (w1 & Hsend & _ & Hl).
    rewrite Hsend in Ht |- *. cbn [snd] in Ht. rewrite Hon, andb_true_r in Ht.
    fold (reclaimed (live w) t) in Ht.
    assert (Hon1 : online (table w1) = true).
    { rewrite Ht. destruct (reclaimed (live w) t); [exact Hon|exact Hon]. }
    destruct (IH (fun x Hx => Hframes x (or_intror Hx)) w1 Hon1)
      as (w2 & Hrun & Hrows & Hl2 & Hon2).
    exists w2. split; [exact Hrun|]. split; [|split; [congruence|exact Hon2]].
    rewrite Hrows, Hl, Ht. cbn [existsb].
    destruct (reclaimed (live w) t); cbn [andb orb rows with_rows].
    + unfold delete_row. rewrite filter_filter. apply filter_ext.
      intros r. rewrite (String.eqb_sym (Target.cid t) (Item.PK r)).
      destruct (Item.PK r =? Target.cid t); reflexivity.
    + reflexivity.
Qed.

(** X14.  A broadcast that makes a frame for every target, on a table that
    answers, returns and leaves the table without the rows of the targets
    that the transport no longer holds (and whose connection id is not
    empty); all other rows, the rows of the targets that are still connected
    among them, are kept, in their order. *)
Theorem X14_a_broadcast_reclaims_the_rows_of_gone_targets targets data w :
  (forall t, In t targets -> exists f, frame_for t data = Val f) ->
  online (table w) = true ->
  exists w',
    Sender.broadcast targets data w = (Return targets, w')
    /\ rows (table w')
       = filter (fun r => negb (existsb (fun t => reclaimed (live w) t
                                                  && (Target.cid t =? Item.PK r)) targets))
           (rows (table w))
    /\ live w' = live w.
Proof.
  intros Hframes Hon.
  destruct (for_cid_reclaims targets data Hframes w Hon) as (w' & Hrun & Hrows & Hl & _).
  exists w'. unfold Sender.broadcast, bind. rewrite Hrun.
  repeat split; assumption.
Qed.

Lemma X14_reclaimed_rows_witness :
  exists w',
    Sender.broadcast [Scenario.user72; Scenario.user99]
      (Scenario.backend_payload (VStr "__all__") [("message", VStr "done")])
      Cases.one_gone
    = (Return [Scenario.user72; Scenario.user99], w')
    /\ rows (table w') = [Scenario.row "1092" "72"]
    /\ live w' = ["1092"].
Proof.
  apply (X14_a_broadcast_reclaims_the_rows_of_gone_targets
           [Scenario.user72; Scenario.user99]
           (Scenario.backend_payload (VStr "__all__") [("message", VStr "done")])
           Cases.one_gone).
  - intros t Ht. destruct Ht as [<-|[<-|[]]]; eexists; reflexivity.
  - reflexivity.
Defined.

(** X15.  A broadcast is not all or nothing.  When a frame can be made for
    the first targets and the frame of the next one fails, [broadcast]
    raises that failure to its caller after it has called the transport for
    the first targets, in order; the remaining targets get nothing. *)
Theorem X15_a_broadcast_stops_at_the_first_frame_that_fails
    (g : Target.t -> frame) served t rest data e w :
  (forall s, In s served -> frame_for s data = Val (g s)) ->
  frame_for t data = Exc e ->
  exists w',
    Sender.broadcast (served ++ t :: rest) data w = (Raise e, w')
    /\ sends w' = sends w ++ map (fun s => (Target.cid s, g s)) served
    /\ live w' = live w.
Proof.
  intros Hserved Hfails. unfold Sender.broadcast.
  assert (H : exists w', Sender.for_cid (served ++ t :: rest) data w = (Raise e, w')
                         /\ sends w' = sends w ++ map (fun s => (Target.cid s, g s)) served
                         /\ live w' = live w).
  { revert w. induction served as [|s served IH]; intros w.
    - exists w. cbn [app Sender.for_cid map]. unfold bind.
      rewrite broadcast_one_frame, Hfails, app_nil_r. repeat split.
    - cbn [app Sender.for_cid map]. unfold bind at 1.
      rewrite broadcast_one_frame, (Hserved s (or_introl eq_refl)).
      destruct (send_returns (Target.cid s) (g s) w) as (w1 & -> & Hs & Hl).
      destruct (IH (fun x Hx => Hserved x (or_intror Hx)) w1) as (w2 & -> & Hs2 & Hl2).
      exists w2. rewrite Hs2, Hs, Hl2, Hl, <- app_assoc. repeat split. }
  destruct H as (w' & Hrun & Hs & Hl). exists w'. unfold bind. rewrite Hrun.
  repeat split; assumption.
Qed.

Lemma X15_partial_broadcast_witness :
  exists w',
    Sender.broadcast [Scenario.user72; Scenario.user99; Scenario.user72]
      (Scenario.backend_payload (VStr "__all__") [("alert", VStr "success")]) Scenario.w2
    = (Raise KeyError, w')
    /\ sends w'
       = [("1092", json_dumps (Scenario.backend_payload (VStr "__all__")
                                 [("alert", VStr "success")]))]
    /\ live w' = ["1092"; "2000"].
Proof.
  apply (X15_a_broadcast_stops_at_the_first_frame_that_fails
           (fun _ => json_dumps (Scenario.backend_payload (VStr "__all__")
                                   [("alert", VStr "success")]))
           [Scenario.user72] Scenario.user99 [Scenario.user72]
           (Scenario.backend_payload (VStr "__all__") [("alert", VStr "success")])
           KeyError Scenario.w2).
  - intros s Hs. destruct Hs as [<-|[]]. reflexivity.
  - reflexivity.
Defined.

(** ** Explicit selectors compare texts *)

Lemma keyed_same_key rs a b :
  NoDup (map Item.PK rs) -> In a rs -> In b rs -> Item.PK a = Item.PK b -> a = b.
Proof.
  intros Hnd Ha Hb Hk.
  pose proof (filter_by_key a rs Hnd Ha) as Hfa.
  pose proof (filter_by_key b rs Hnd Hb) as Hfb.
  rewrite Hk, Hfb in Hfa. inversion Hfa. reflexivity.
Qed.

(** With a selector other than "__all__", a target stands for a row whose
    user id is a string. *)
Lemma get_connection_ids_strings fuel m sel w targets w' :
  Py.eq_str sel "__all__" = false ->
  Storage.get_connection_ids_by_reference fuel m sel w = (Return targets, w') ->
  Forall (fun t => exists it s, In it (rows (table w)) /\ t = target_of it
                                /\ Item.user_id it = VStr s) targets.
Proof.
  intros Hall Hrun.
  assert (Hiter : exists ids, Py.iter sel = Val ids).
  { destruct (Py.iter sel) as [ids|e] eqn:E; [exists ids; reflexivity|].
    unfold Storage.get_connection_ids_by_reference in Hrun. cbv zeta in Hrun.
    rewrite Hall, E in Hrun. discriminate. }
  destruct Hiter as (ids & Hiter).
  pose proof (get_connection_ids_rows _ _ _ _ _ _ Hrun) as Hrows.
  pose proof (get_connection_ids_sound _ _ _ _ _ _ _ Hall Hiter Hrun) as Hsound.
  pose proof (Forall_and Hrows Hsound) as H.
  eapply Forall_impl; [|exact H].
  intros t [(it & Hin & _ & ->) (u & _ & Hu)].
  exists it, (Py.format u). repeat split; [exact Hin|exact Hu].
Qed.

(** X16.  The filter of an explicit selector compares the user id of a row
    with a text, so every target a resolve returns for a selector other
    than "__all__" has a string as user id.  A registration whose user id
    is not a string (a frontend may send a number, which [handle_frontend]
    accepts and the table stores as it is) is resolved by no explicit
    selector: on a table with pairwise different keys its connection is
    none of the targets. *)
Theorem X16_explicit_selectors_resolve_string_user_ids_only
    fuel merchant_id user_ids w targets w' :
  Py.eq_str user_ids "__all__" = false ->
  Storage.get_connection_ids_by_reference fuel merchant_id user_ids w
  = (Return targets, w') ->
  Forall (fun t => exists s, Target.user_id t = VStr s) targets
  /\ (keyed (table w) ->
      forall item,
        In item (rows (table w)) ->
        (forall s, Item.user_id item <> VStr s) ->
        Forall (fun t => Target.cid t <> Item.PK item) targets).
Proof.
  intros Hall Hrun.
  pose proof (get_connection_ids_strings _ _ _ _ _ _ Hall Hrun) as H.
  split.
  - eapply Forall_impl; [|exact H].
    intros t (it & s & _ & -> & Hs). exists s. exact Hs.
  - intros Hkeyed item Hitem Hnot.
    eapply Forall_impl; [|exact H].
    intros t (it & s & Hin & -> & Hs) Hsame. cbn [target_of Target.cid] in Hsame.
    pose proof (keyed_same_key _ _ _ Hkeyed Hin Hitem Hsame) as ->.
    exact (Hnot s Hs).
Qed.

Lemma X16_string_user_ids_witness :
  Forall (fun t => exists s, Target.user_id t = VStr s) [Scenario.user72]
  /\ Forall (fun t => Target.cid t <> "5000") [Scenario.user72].
Proof.
  destruct (X16_explicit_selectors_resolve_string_user_ids_only 1 Scenario.merchant
              (VList [VInt 72]) Cases.numbered [Scenario.user72] Cases.numbered
              eq_refl eq_refl) as [Hstrings Hnone].
  split; [exact Hstrings|].
  apply (Hnone ltac:(unfold keyed; simpl; repeat constructor; simpl; intuition discriminate)
           Cases.numbered_row).
  - right. left. reflexivity.
  - discriminate.
Defined.

(** ** The frames of a broadcast over the heap *)

(** X17.  [broadcast] as the source runs it, on objects, with a deep copy
    per target and the deletion in place on the copy: when the payload
    reads as a dict with a list under [audience.message] and a non-empty
    [content.message], the call returns and every target, whatever was
    deleted for the targets before it, gets the payload as it came if its
    user id is in the list and the payload less [content.message] if it is
    not. *)
Theorem X17_on_the_heap_every_target_gets_its_own_frame
    fuel targets data h d audience allowed c msg w :
  Heap.load fuel h data = Some (VDict d) ->
  Py.lookup "audience" d = Some audience ->
  Py.get audience "message" VNone = Val (VList allowed) ->
  Py.lookup "content" d = Some (VDict c) ->
  Py.lookup "message" c = Some msg ->
  Py.truthy msg = true ->
  let reduced := VDict (Py.replace "content" (VDict (Py.remove "message" c)) d) in
  let run := Heap.broadcast fuel targets data (h, w) in
  fst run = Return targets
  /\ sends (snd (snd run))
     = sends w
       ++ map (fun t => (Target.cid t,
                         json_dumps (if existsb (Py.eq (Target.user_id t)) allowed
                                     then VDict d else reduced))) targets.
Proof.
  intros Hload Haud Hallowed Hcontent Hmsg Htruthy reduced run.
  pose proof (heap_broadcast_refines fuel targets data (VDict d) h w Hload) as Href.
  fold run in Href.
  destruct (broadcast_sends
              (fun t => json_dumps (if existsb (Py.eq (Target.user_id t)) allowed
                                    then VDict d else reduced))
              targets (VDict d) w) as (w' & Hrun & Hs & _).
  { intros x _. rewrite (frame_for_payload x d audience (VList allowed) c msg)
      by assumption.
    cbn [Py.contains]. rewrite Htruthy.
    destruct (existsb (Py.eq (Target.user_id x)) allowed); reflexivity. }
  rewrite Hrun in Href. unfold seen in Href. inversion Href as [[Hout Hw]].
  split; [reflexivity|]. rewrite Hw. exact Hs.
Qed.

Lemma X17_heap_frames_witness :
  let payload :=
    Scenario.backend_payload (VStr "__all__")
      [("alert", VStr "success"); ("message", VStr "done")] in
  let run :=
    Heap.broadcast 3 [Scenario.user99; Scenario.user72; Scenario.user99]
      (fst (Heap.store payload [])) (snd (Heap.store payload []), Scenario.w2) in
  fst run = Return [Scenario.user99; Scenario.user72; Scenario.user99]
  /\ sends (snd (snd run))
     = [("2000", json_dumps (Scenario.backend_payload (VStr "__all__")
                               [("alert", VStr "success")]));
        ("1092", json_dumps payload);
        ("2000", json_dumps (Scenario.backend_payload (VStr "__all__")
                               [("alert", VStr "success")]))].
Proof.
  exact (X17_on_the_heap_every_target_gets_its_own_frame 3
           [Scenario.user99; Scenario.user72; Scenario.user99]
           (fst (Heap.store (Scenario.backend_payload (VStr "__all__")
                               [("alert", VStr "success"); ("message", VStr "done")]) []))
           (snd (Heap.store (Scenario.backend_payload (VStr "__all__")
                               [("alert", VStr "success"); ("message", VStr "done")]) []))
           (Scenario.backend_items (VStr "__all__")
              [("alert", VStr "success"); ("message", VStr "done")])
           (Scenario.backend_audience (VStr "__all__")) [VStr "72"]
           [("alert", VStr "success"); ("message", VStr "done")] (VStr "done")
           Scenario.w2 eq_refl eq_refl eq_refl eq_refl eq_refl eq_refl).
Defined.

(** ** From a registration to a frame *)

Lemma handle_frontend_online cid merchant_id user_id w :
  Py.truthy merchant_id = true ->
  Py.truthy user_id = true ->
  online (table w) = true ->
  Handler.handle_frontend cid merchant_id user_id w
  = (Return cid,
     with_table
       (with_rows
          (put_row {| Item.PK := cid; Item.merchant_id := merchant_id;
                      Item.user_id := user_id; Item.ExpirationTime := clock w |}
             (rows (table w))) (table w)) w).
Proof.
  intros Hm Hu Hon.
  unfold Handler.handle_frontend, Storage.set_user_by_connection_id, Dynamo.put_item.
  run. rewrite Hm, Hu. cbn [andb]. rewrite Hon. reflexivity.
Qed.

Lemma filter_map_sends (F : Item.t -> frame) cid l :
  filter (fun s : string * frame => fst s =? cid) (map (fun r => (Item.PK r, F r)) l)
  = map (fun r => (Item.PK r, F r)) (filter (fun r => Item.PK r =? cid) l).
Proof.
  induction l as [|r l IH]; [reflexivity|]. simpl.
  destruct (Item.PK r =? cid); simpl; rewrite IH; reflexivity.
Qed.

(** X18.  What the relay is for.  On a table with pairwise different keys
    that answers and does not page: after [handle_frontend] has registered
    a connection for a merchant and a user, [handle] on a backend frame for
    that merchant with the selector "__all__", a list under
    [audience.message] and a non-empty [content.message] returns, and of
    the calls of the transport it adds exactly one is for the connection:
    the payload as it came if the user is in the list, the payload less
    [content.message] if not. *)
Theorem X18_a_registered_frontend_gets_the_broadcast
    fuel cid sender m d ident merchant_id user_id audience allowed c msg w :
  online (table w) = true ->
  page_limit (table w) = None ->
  keyed (table w) ->
  Py.truthy merchant_id = true ->
  Py.truthy user_id = true ->
  body m <> "" ->
  decoded m = Some (VDict d) ->
  Py.lookup "id" d = Some ident ->
  Py.get ident "type" VNone = Val (VStr "backend") ->
  Py.get ident "merchant_id" (VStr "") = Val merchant_id ->
  Py.lookup "audience" d = Some audience ->
  Py.get audience "data" (VStr "") = Val (VStr "__all__") ->
  Py.get audience "message" VNone = Val (VList allowed) ->
  Py.lookup "content" d = Some (VDict c) ->
  Py.lookup "message" c = Some msg ->
  Py.truthy msg = true ->
  let reduced := VDict (Py.replace "content" (VDict (Py.remove "message" c)) d) in
  let w1 := snd (Handler.handle_frontend cid merchant_id user_id w) in
  exists w2 more,
    Handler.handle (S fuel) sender (Some m) w1 = (Return tt, w2)
    /\ sends w2 = sends w ++ more
    /\ filter (fun s => fst s =? cid) more
       = [(cid, json_dumps (if existsb (Py.eq user_id) allowed then VDict d else reduced))].
Proof.
  intros Hon Hpage Hkeyed Hm Hu Hbody Hdecoded Hid Htype Hmerchant Haud Hsel Hallowed
         Hcontent Hmsg Htruthy reduced w1.
  unfold w1. rewrite handle_frontend_online by assumption. cbn [snd].
  set (it := {| Item.PK := cid; Item.merchant_id := merchant_id;
                Item.user_id := user_id; Item.ExpirationTime := clock w |}).
  set (w' := with_table _ w).
  destruct (handle_backend_frame fuel sender m d ident merchant_id audience (VStr "__all__")
              {| merchant_id_eq := merchant_id; user_id_eq := None |}
              allowed c msg w')
    as (w2 & Hrun & Hs & _); try assumption; try reflexivity.
  { unfold paged, evaluated. cbn [table w' with_table with_rows page_limit].
    rewrite Hpage. apply Nat.ltb_irrefl. }
  exists w2. eexists. split; [exact Hrun|]. split; [exact Hs|].
  cbn [table w' with_table with_rows rows].
  rewrite (filter_map_sends _ cid), filter_comm.
  change cid with (Item.PK it) at 1.
  rewrite (filter_by_key it); [|apply put_row_keyed; exact Hkeyed|apply In_put_row].
  cbn [filter]. unfold satisfies. cbn [merchant_id_eq user_id_eq it Item.merchant_id].
  rewrite attr_eqb_refl. reflexivity.
Qed.

Lemma X18_registered_frontend_witness :
  exists w2 more,
    Handler.handle 1 "9"
      (Scenario.inbound
         (Scenario.backend_payload (VStr "__all__")
            [("alert", VStr "success"); ("message", VStr "done")]))
      (snd (Handler.handle_frontend "4000" Scenario.merchant (VStr "5") Cases.two_merchants))
    = (Return tt, w2)
    /\ sends w2 = [] ++ more
    /\ filter (fun s => fst s =? "4000") more
       = [("4000", json_dumps (Scenario.backend_payload (VStr "__all__")
                                 [("alert", VStr "success")]))].
Proof.
  refine (X18_a_registered_frontend_gets_the_broadcast 0 "4000" "9"
            {| body := Scenario.json_text
                         (Scenario.backend_payload (VStr "__all__")
                            [("alert", VStr "success"); ("message", VStr "done")]);
               decoded := Some (Scenario.backend_payload (VStr "__all__")
                                  [("alert", VStr "success"); ("message", VStr "done")]) |}
            (Scenario.backend_items (VStr "__all__")
               [("alert", VStr "success"); ("message", VStr "done")])
            Scenario.backend_identity Scenario.merchant (VStr "5")
            (Scenario.backend_audience (VStr "__all__"))
            [VStr "72"] [("alert", VStr "success"); ("message", VStr "done")] (VStr "done")
            Cases.two_merchants eq_refl eq_refl _ eq_refl eq_refl _ eq_refl eq_refl eq_refl
            eq_refl eq_refl eq_refl eq_refl eq_refl eq_refl eq_refl).
  - unfold keyed. simpl. repeat constructor; simpl; intuition discriminate.
  - vm_compute. discriminate.
Defined.

(** ** Whose rows a handler may touch *)

Section Confined.
Variable cid : string.

Lemma confined_refl w : confined cid w w.
Proof. unfold confined. repeat split; auto. Qed.

Lemma confined_trans w1 w2 w3 :
  confined cid w1 w2 -> confined cid w2 w3 -> confined cid w1 w3.
Proof.
  intros (L1 & N1 & K1) (L2 & N2 & K2). unfold confined. split; [congruence|]. split.
  - intros r Hr. destruct (N2 r Hr) as [H|H]; [apply N1; exact H|right; exact H].
  - intros r Hr. destruct (K1 r Hr) as [H|H]; [|right; exact H].
    destruct (K2 r H) as [H'|[H'|H']]; [left; exact H'|right; left; exact H'|].
    right. right. unfold gone in *. rewrite <- L1. exact H'.
Qed.

(** A step that leaves the table and the connections as they are. *)
Lemma confined_same w w' :
  table w' = table w -> live w' = live w -> confined cid w w'.
Proof. intros Ht Hl. unfold confined. rewrite Ht. repeat split; auto. Qed.

Lemma confined_log_info msg : always (confined cid) (logging.info msg).
Proof. intros w. apply confined_same; reflexivity. Qed.

Lemma confined_log_error msg : always (confined cid) (logging.error msg).
Proof. intros w. apply confined_same; reflexivity. Qed.

Lemma confined_scan f : always (confined cid) (Dynamo.scan f).
Proof. intros w. rewrite scan_world. apply confined_refl. Qed.

Lemma In_put_row_inv it rs r : In r (put_row it rs) -> In r rs \/ r = it.
Proof.
  induction rs as [|x rs IH]; simpl.
  - intros [H|[]]. right. congruence.
  - destruct (Item.PK x =? Item.PK it).
    + intros [H|H]; [right; congruence|left; right; exact H].
    + intros [H|H]; [left; left; exact H|].
      destruct (IH H) as [H'|H']; [left; right; exact H'|right; exact H'].
Qed.

Lemma put_row_keeps it rs r :
  In r rs -> In r (put_row it rs) \/ Item.PK r = Item.PK it.
Proof.
  induction rs as [|x rs IH]; simpl; [intros []|].
  destruct (Item.PK x =? Item.PK it) eqn:E.
  - intros [H|H]; [right; subst; apply String.eqb_eq; exact E|left; right; exact H].
  - intros [H|H]; [left; left; exact H|].
    destruct (IH H) as [H'|H']; [left; right; exact H'|right; exact H'].
Qed.

(** A registration is written under the connection it is for. *)
Lemma confined_set_user merchant_id user_id ts :
  always (confined cid) (Storage.set_user_by_connection_id cid merchant_id user_id ts).
Proof.
  intros w. unfold Storage.set_user_by_connection_id, Dynamo.put_item. run.
  destruct (online (table w)); cbn [snd]; [|apply confined_same; reflexivity].
  unfold confined. cbn [live table rows with_table with_rows]. split; [reflexivity|].
  split; intros r Hr.
  - apply In_put_row_inv in Hr as [H| ->]; [left; exact H|right; reflexivity].
  - apply (put_row_keeps {| Item.PK := cid; Item.merchant_id := merchant_id;
                            Item.user_id := user_id; Item.ExpirationTime := ts |})
      in Hr as [H|H]; [left; exact H|right; left; exact H].
Qed.

(** [send] takes a row away only when its connection is gone. *)
Lemma confined_send c f : always (confined cid) (Sender.send c f).
Proof.
  intros w. pose proof (send_table c f w) as Ht.
  destruct (send_returns c f w) as (w' & Hsend & _ & Hl).
  rewrite Hsend in Ht |- *. cbn [snd] in Ht |- *.
  destruct (negb (c =? "") && negb (existsb (String.eqb c) (live w)) && online (table w))
    eqn:E; [|apply confined_same; assumption].
  apply andb_true_iff in E as [E _]. apply andb_true_iff in E as [_ E].
  apply negb_true_iff in E.
  unfold confined. rewrite Ht. cbn [rows with_rows]. split; [exact Hl|].
  unfold delete_row. split; intros r Hr.
  - left. apply filter_In in Hr as [Hr _]. exact Hr.
  - destruct (Item.PK r =? c) eqn:Ec.
    + right. right. apply String.eqb_eq in Ec. unfold gone. rewrite Ec. exact E.
    + left. apply filter_In. split; [exact Hr|]. rewrite Ec. reflexivity.
Qed.

Lemma confined_broadcast targets data :
  always (confined cid) (Sender.broadcast targets data).
Proof.
  unfold Sender.broadcast. apply (always_bind _ confined_trans).
  - apply (always_for_cid _ confined_refl confined_trans).
    intros t payload w. rewrite broadcast_one_frame.
    destruct (frame_for t payload) as [f|e]; [apply confined_send|apply confined_refl].
  - intros _. apply (always_ret _ confined_refl).
Qed.

Lemma confined_handle_frontend merchant_id user_id :
  always (confined cid) (Handler.handle_frontend cid merchant_id user_id).
Proof.
  unfold Handler.handle_frontend. apply (always_bind _ confined_trans).
  - intros w. apply confined_refl.
  - intros ts. apply (always_bind _ confined_trans); [|intros _; apply (always_ret _ confined_refl)].
    apply always_if; [|apply (always_raise _ confined_refl)].
    apply (always_bind _ confined_trans); [apply confined_set_user|].
    intros _. apply (always_ret _ confined_refl).
Qed.

Lemma confined_handle_backend fuel merchant_id user_id :
  always (confined cid) (Handler.handle_backend fuel merchant_id user_id).
Proof.
  unfold Handler.handle_backend. apply (always_try_except _ confined_trans).
  - apply always_if; [|apply (always_raise _ confined_refl)].
    apply (always_bind _ confined_trans).
    + apply (always_get_connection_ids _ confined_refl confined_trans). apply confined_scan.
    + intros targets. apply (always_bind _ confined_trans); [apply confined_log_error|].
      intros _. apply (always_ret _ confined_refl).
  - intros e. apply (always_bind _ confined_trans); [apply confined_log_error|].
    intros _. apply (always_ret _ confined_refl).
Qed.

Lemma confined_handle fuel message :
  always (confined cid) (Handler.handle fuel cid message).
Proof.
  unfold Handler.handle. destruct message as [m|]; [|apply confined_log_error].
  apply always_if; [|apply confined_log_error].
  apply (always_bind _ confined_trans).
  { unfold json_loads. destruct (decoded m);
      [apply (always_ret _ confined_refl)|apply (always_raise _ confined_refl)]. }
  intros data.
  do 6 (apply (always_bind _ confined_trans); [apply (always_lift _ confined_refl)|intros ?]).
  repeat apply always_if.
  - apply (always_bind _ confined_trans); [apply confined_handle_frontend|].
    intros _. apply (always_ret _ confined_refl).
  - apply (always_bind _ confined_trans); [apply confined_handle_backend|].
    intros [|t targets]; [apply (always_ret _ confined_refl)|].
    apply (always_bind _ confined_trans); [apply confined_broadcast|].
    intros _. apply (always_ret _ confined_refl).
  - apply confined_send.
  - apply confined_log_error.
Qed.

Lemma confined_delete_connection : always (confined cid) (Storage.delete_connection cid).
Proof.
  intros w. unfold confined.
  rewrite (proj2 (delete_connection_frame cid w)), delete_connection_table.
  split; [reflexivity|].
  destruct (negb (cid =? "") && online (table w)); [|split; auto].
  cbn [rows with_rows]. unfold delete_row. split; intros r Hr.
  - left. apply filter_In in Hr as [Hr _]. exact Hr.
  - destruct (Item.PK r =? cid) eqn:E.
    + right. left. apply String.eqb_eq. exact E.
    + left. apply filter_In. split; [exact Hr|]. rewrite E. reflexivity.
Qed.

End Confined.

(** X4.  Whatever the frame and the outcome, a handler called for a
    connection leaves the transport's connections as they are and is
    confined, in the table, to that connection and to connections that are
    gone: every row it leaves that it did not find is a row under the
    connection it was called for, and every row it found and does not leave
    is the row under that connection or the row of a connection the
    transport no longer holds.  So no frame writes or overwrites the
    registration of another connection, and none takes away the
    registration of another connection that is still there.  This holds of
    [handle] and of the three handlers of [app.py]. *)
Theorem X4_a_handler_touches_its_own_row_and_rows_of_gone_connections fuel event w :
  let cid := app.connection_id event in
  (forall message, confined cid w (snd (Handler.handle fuel cid message w)))
  /\ confined cid w (snd (app.message fuel event w))
  /\ confined cid w (snd (app.connect event w))
  /\ confined cid w (snd (app.disconnect event w)).
Proof.
  intros cid. split; [|split; [|split]].
  - intros message. apply confined_handle.
  - apply confined_handle.
  - apply confined_log_info.
  - unfold app.disconnect.
    apply (always_bind _ (confined_trans cid)); [apply confined_delete_connection|].
    intros _. apply (always_ret _ (confined_refl cid)).
Qed.
